(** * Detection fusion and summary (backend/app/services/fusion_service.py)

    A shallow embedding of the four functions of the fusion service
    ([clean_detections], [build_summary], [format_detection_label],
    [merge_ocr_with_detection]) together with the [Detection] schema of
    backend/app/models/schemas.py, and the properties the specification
    states about them.

    Conventions of the embedding:
    - a Python [float] is an IEEE 754 binary64 number, [spec_float] with
      precision 53 and maximal exponent 1024;
    - a Python [str] is a [string]; case conversion ([str.title],
      [str.lower]) and white space ([str.strip]) are those of the ASCII
      characters, which is what Python computes on a string of ASCII
      characters; a theorem that speaks of the result of these methods
      is stated for such strings ([PyText.isascii]);
    - [Optional[str]] is [option string], a [dict] is a [gmap];
    - list objects and [Detection] objects live in a store;
      [clean_detections] and [merge_ocr_with_detection], whose properties
      speak of what becomes of their argument, take it by reference, while
      [build_summary] and [format_detection_label], which only read theirs,
      take its value; the store also holds what the logger was given;
    - exceptions are the [Raise] results of an error-and-state monad.

    The first part of the file holds the definitions, the second part the
    lemmas and theorems. *)

From Stdlib Require Import ZArith List String Ascii Bool Lia.
From Stdlib Require Import Permutation Sorted QArith.
From Stdlib Require Import Floats.SpecFloat.
From Stdlib Require DecimalString.
From Stdlib Require PrimFloat FloatOps.
From stdpp Require Import gmap strings.

Import ListNotations.
Local Open Scope Z_scope.
Local Open Scope string_scope.

(** * Part I: the embedding *)

(** ** Python floats *)

Module PyFloat.

Definition prec : Z := 53.
Definition emax : Z := 1024.

(** The binary64 numbers among the values of [spec_float]. *)
Definition is_float (x : spec_float) : Prop := valid_binary prec emax x = true.

Definition zero : spec_float := S754_zero false.
(** 1.0 = 2^52 * 2^-52 *)
Definition one : spec_float := S754_finite false 4503599627370496 (-52).
(** 100.0 = 7036874417766400 * 2^-46 *)
Definition hundred : spec_float := S754_finite false 7036874417766400 (-46).

(** [x * y], [x < y], [x <= y], [x >= y], [x == y] of Python. *)
Definition mul (x y : spec_float) : spec_float := SFmul prec emax x y.
Definition lt (x y : spec_float) : bool := SFltb x y.
Definition le (x y : spec_float) : bool := SFleb x y.
Definition ge (x y : spec_float) : bool := SFleb y x.
Definition eq (x y : spec_float) : bool := SFeqb x y.

Definition is_nan (x : spec_float) : bool :=
  match x with S754_nan => true | _ => false end.

(** The rational [m * 2^e] a finite float stands for (0 for the others). *)
Definition to_Q (x : spec_float) : Q :=
  match x with
  | S754_finite s m e =>
      let v := if (0 <=? e)%Z then inject_Z (Zpos m * 2 ^ e)
               else Qmake (Zpos m) (2 ^ Z.to_pos (- e)) in
      if s then Qopp v else v
  | _ => 0%Q
  end.

(** Apart from NaN, which compares with nothing, [SFcompare] is the
    lexicographic order of a triple: the class of the number, then its
    exponent, then its mantissa. *)
Definition rank (x : spec_float) : Z * Z * Z :=
  match x with
  | S754_infinity true => (-2, 0, 0)
  | S754_finite true m e => (-1, - e, Zneg m)
  | S754_zero _ | S754_nan => (0, 0, 0)
  | S754_finite false m e => (1, e, Zpos m)
  | S754_infinity false => (2, 0, 0)
  end.

Definition lex_lt (p q : Z * Z * Z) : Prop :=
  let '(a, b, c) := p in
  let '(a', b', c') := q in
  a < a' \/ (a = a' /\ (b < b' \/ (b = b' /\ c < c'))).

End PyFloat.

(** ** Python strings *)

Module PyStr.

Definition is_upper (c : ascii) : bool :=
  let n := nat_of_ascii c in (65 <=? n)%nat && (n <=? 90)%nat.
Definition is_lower (c : ascii) : bool :=
  let n := nat_of_ascii c in (97 <=? n)%nat && (n <=? 122)%nat.
Definition is_cased (c : ascii) : bool := is_upper c || is_lower c.

Definition to_upper (c : ascii) : ascii :=
  if is_lower c then ascii_of_nat (nat_of_ascii c - 32) else c.
Definition to_lower (c : ascii) : ascii :=
  if is_upper c then ascii_of_nat (nat_of_ascii c + 32) else c.

(** [s.replace(old, new)] for one-character [old] and [new]. *)
Fixpoint replace (old new : ascii) (s : string) : string :=
  match s with
  | EmptyString => EmptyString
  | String c s' => String (if Ascii.eqb c old then new else c) (replace old new s')
  end.

(** [s.title()] for a string of ASCII characters: a character that
    follows a cased character is lower-cased, any other one is
    upper-cased.  (For other characters Python consults the Unicode
    database, which is not modelled.) *)
Fixpoint title_from (previous_is_cased : bool) (s : string) : string :=
  match s with
  | EmptyString => EmptyString
  | String c s' =>
      String (if previous_is_cased then to_lower c else to_upper c)
             (title_from (is_cased c) s')
  end.

Definition title (s : string) : string := title_from false s.

(** [sep.join(parts)] *)
Definition join (sep : string) (parts : list string) : string :=
  String.concat sep parts.

(** [str(n)] for an integer, as the replacement field of an f-string
    renders it. *)
Definition of_Z (n : Z) : string :=
  DecimalString.NilZero.string_of_int (Z.to_int n).
Definition of_nat (n : nat) : string := of_Z (Z.of_nat n).

(** Truth value of a [str] and of an [Optional[str]]. *)
Definition truthy (s : string) : bool :=
  match s with EmptyString => false | String _ _ => true end.
Definition truthy_opt (o : option string) : bool :=
  match o with Some s => truthy s | None => false end.

(** The string an [Optional[str]] known to be true holds. *)
Definition text (o : option string) : string :=
  match o with Some s => s | None => EmptyString end.

End PyStr.

(** ** The builtin [sorted]

    [sorted(l, key=key, reverse=reverse)] builds a new list and sorts it the
    way [list.sort] does: it compares keys with [<] only, the sort is
    stable, and for [reverse=True] the list is reversed, sorted and
    reversed again, which keeps the stability.  The stable sort is written
    here as an insertion sort. *)

Section Sorted.
Context {A K : Type}.
Variable key : A -> K.
Variable lt : K -> K -> bool.

Fixpoint insert (x : A) (l : list A) : list A :=
  match l with
  | [] => [x]
  | y :: l' => if lt (key y) (key x) then y :: insert x l' else x :: y :: l'
  end.

Fixpoint sort_ascending (l : list A) : list A :=
  match l with
  | [] => []
  | x :: l' => insert x (sort_ascending l')
  end.

Definition sorted (reverse : bool) (l : list A) : list A :=
  if reverse then rev (sort_ascending (rev l)) else sort_ascending l.

(** [a] may stand before [b] in an ascending, resp. descending, list. *)
Definition ascending (a b : A) : Prop := lt (key b) (key a) = false.
Definition descending (a b : A) : Prop := lt (key a) (key b) = false.

(** The elements whose key is in a class [comparable] of keys. *)
Definition all_comparable (comparable : K -> Prop) (l : list A) : Prop :=
  Forall (fun a => comparable (key a)) l.

(** The elements whose key equals [k], in the order of the list. *)
Definition with_key (eqk : K -> K -> bool) (k : K) (l : list A) : list A :=
  List.filter (fun a => eqk (key a) k) l.

End Sorted.

(** ** The Detection schema (backend/app/models/schemas.py) *)

Record Detection : Type := {
  id : string;
  bbox : list spec_float;
  class_name : string;
  confidence : spec_float;
  brand : option string;
  product_name : option string;
  quantity_text : option string;
  raw_text : option string
}.

(** The constraints of the schema on [confidence]: [Field(..., ge=0, le=1)]. *)
Definition confidence_in_range (c : spec_float) : bool :=
  PyFloat.ge c PyFloat.zero && PyFloat.le c PyFloat.one.

(** A [Detection] that passed the validation of its schema. *)
Definition valid_detection (d : Detection) : Prop :=
  PyFloat.is_float (confidence d) /\ confidence_in_range (confidence d) = true.

(** ** Exceptions, the store and the monad of the service *)

Inductive exn : Type :=
| ValidationError   (* pydantic: a field constraint of the schema fails *)
| ValueError        (* int(nan) *)
| OverflowError     (* int(inf) *)
| UnboundReference. (* a reference that is not in the store *)

Inductive result (A : Type) : Type :=
| Ok (a : A)
| Raise (e : exn).
Arguments Ok {A} a.
Arguments Raise {A} e.

(** References into the store. *)
Abbreviation loc := positive (only parsing).

(** The list objects and the [Detection] objects that exist, and what the
    logger has been given so far. *)
Record world : Type := {
  lists : gmap positive (list Detection);
  objects : gmap positive Detection;
  log : list string
}.

Definition M (A : Type) : Type := world -> result A * world.

Definition ret {A} (a : A) : M A := fun w => (Ok a, w).
Definition raise {A} (e : exn) : M A := fun w => (Raise e, w).
Definition bind {A B} (m : M A) (k : A -> M B) : M B :=
  fun w => match m w with
           | (Ok a, w') => k a w'
           | (Raise e, w') => (Raise e, w')
           end.
Definition lift {A} (r : result A) : M A := fun w => (r, w).

Notation "x <- m ;; k" := (bind m (fun x => k))
  (at level 100, m at next level, right associativity).
Notation "m ;; k" := (bind m (fun _ => k))
  (at level 100, right associativity).

(** Reading a list object, and building a new one. *)
Definition read_list (l : loc) : M (list Detection) :=
  fun w => match lists w !! l with
           | Some ds => (Ok ds, w)
           | None => (Raise UnboundReference, w)
           end.

Definition new_list (ds : list Detection) : M loc :=
  fun w => let l := fresh (dom (lists w)) in
           (Ok l, {| lists := <[l := ds]> (lists w);
                     objects := objects w;
                     log := log w |}).

(** Reading a [Detection] object, and the constructor [Detection(...)],
    which validates the fields against the schema before the object
    exists. *)
Definition read_object (l : loc) : M Detection :=
  fun w => match objects w !! l with
           | Some d => (Ok d, w)
           | None => (Raise UnboundReference, w)
           end.

Definition new_object (d : Detection) : M loc :=
  fun w => let l := fresh (dom (objects w)) in
           (Ok l, {| lists := lists w;
                     objects := <[l := d]> (objects w);
                     log := log w |}).

Definition new_Detection (d : Detection) : M loc :=
  if confidence_in_range (confidence d)
  then new_object d
  else raise ValidationError.

(** [logger.debug(message)] *)
Definition logger_debug (message : string) : M unit :=
  fun w => (Ok tt, {| lists := lists w;
                      objects := objects w;
                      log := log w ++ [message] |}).

(** [int(x)] for a float: truncation towards zero. *)
Definition int_of_float (x : spec_float) : result Z :=
  match x with
  | S754_nan => Raise ValueError
  | S754_infinity _ => Raise OverflowError
  | S754_zero _ => Ok 0
  | S754_finite s m e =>
      let a := Z.shiftl (Zpos m) e in
      Ok (if s then - a else a)
  end.

(** [d.get(k)] on a dict whose values are [Optional[str]]. *)
Definition dict_get (d : gmap string (option string)) (k : string) : option string :=
  match d !! k with
  | Some v => v
  | None => None
  end.

(** ** The fusion service (backend/app/services/fusion_service.py) *)

(** [clean_detections(detections, min_confidence)]: the comprehension and
    [sorted] each build a new list object; [detections] is only read. *)
Definition clean_detections (detections : loc) (min_confidence : spec_float) : M loc :=
  ds <- read_list detections ;;
  filtered <- new_list
    (List.filter (fun d => PyFloat.ge (confidence d) min_confidence) ds) ;;
  fs <- read_list filtered ;;
  sorted_detections <- new_list (sorted confidence PyFloat.lt true fs) ;;
  before <- read_list detections ;;
  after <- read_list sorted_detections ;;
  logger_debug ("Cleaned " +:+ PyStr.of_nat (length before) +:+ " -> "
                +:+ PyStr.of_nat (length after) +:+ " detections") ;;
  ret sorted_detections.

(** The first part of the loop body of [build_summary]: the description of
    one item. *)
Definition item_desc (detection : Detection) : string :=
  let parts : list string := [] in
  let parts :=
    if PyStr.truthy_opt (brand detection)
    then (parts ++ [PyStr.text (brand detection)])%list
    else parts in
  let parts :=
    if PyStr.truthy_opt (product_name detection)
    then (parts ++ [PyStr.text (product_name detection)])%list
    else if PyStr.truthy (class_name detection)
    then
      let nice_name := PyStr.title (PyStr.replace "_" " " (class_name detection)) in
      (parts ++ [nice_name])%list
    else parts in
  let parts :=
    if PyStr.truthy_opt (quantity_text detection)
    then (parts ++ [PyStr.text (quantity_text detection)])%list
    else parts in
  match parts with
  | [] => "Unknown product"
  | _ :: _ => PyStr.join " " parts
  end.

(** [int(detection.confidence * 100)] *)
Definition confidence_pct (detection : Detection) : result Z :=
  int_of_float (PyFloat.mul (confidence detection) PyFloat.hundred).

(** The sentence the loop appends for the item at position [i]. *)
Definition item_sentence (i : nat) (desc : string) (pct : Z) : string :=
  "Item " +:+ PyStr.of_nat i +:+ ": " +:+ desc +:+ ". Confidence "
  +:+ PyStr.of_Z pct +:+ " percent.".

(** [for i, detection in enumerate(detections, 1): ...], from position
    [i] on. *)
Fixpoint summary_loop (i : nat) (detections : list Detection)
    (summary_parts : list string) : result (list string) :=
  match detections with
  | [] => Ok summary_parts
  | detection :: rest =>
      let desc := item_desc detection in
      match confidence_pct detection with
      | Raise e => Raise e
      | Ok pct =>
          summary_loop (S i) rest (summary_parts ++ [item_sentence i desc pct])%list
      end
  end.

Definition build_summary (detections : list Detection) : M string :=
  match detections with
  | [] => ret "No products detected."
  | _ :: _ =>
      let count := length detections in
      let summary_parts :=
        ["Detected " +:+ PyStr.of_nat count +:+ " item"
         +:+ (if (1 <? count)%nat then "s" else "") +:+ "."] in
      summary_parts <- lift (summary_loop 1 detections summary_parts) ;;
      let summary := PyStr.join " " summary_parts in
      logger_debug ("Built summary: " +:+ summary) ;;
      ret summary
  end.

Definition format_detection_label (detection : Detection) : string :=
  let parts : list string := [] in
  let parts :=
    if PyStr.truthy_opt (brand detection)
    then (parts ++ [PyStr.text (brand detection)])%list
    else parts in
  let parts :=
    if PyStr.truthy_opt (product_name detection)
    then (parts ++ [PyStr.text (product_name detection)])%list
    else if PyStr.truthy (class_name detection)
    then (parts ++ [PyStr.title (PyStr.replace "_" " " (class_name detection))])%list
    else parts in
  let parts :=
    if PyStr.truthy_opt (quantity_text detection)
    then (parts ++ ["(" +:+ PyStr.text (quantity_text detection) +:+ ")"])%list
    else parts in
  match parts with
  | [] => "Unknown Product"
  | _ :: _ => PyStr.join " " parts
  end.

Definition merge_ocr_with_detection (detection : loc)
    (ocr_result : gmap string (option string)) : M loc :=
  d <- read_object detection ;;
  new_Detection {| id := id d;
                   bbox := bbox d;
                   class_name := class_name d;
                   confidence := confidence d;
                   brand := dict_get ocr_result "brand";
                   product_name := dict_get ocr_result "product_name";
                   quantity_text := dict_get ocr_result "quantity_text";
                   raw_text := dict_get ocr_result "raw_text" |}.

(** ** Definitions that follow the words of the specification *)

(** The detections [filterAndRank] keeps, and its reordering of them. *)
Definition kept (t : spec_float) (L : list Detection) : list Detection :=
  List.filter (fun d => PyFloat.ge (confidence d) t) L.

Definition ranked (fs : list Detection) : list Detection :=
  sorted confidence PyFloat.lt true fs.

Definition not_nan (c : spec_float) : Prop := PyFloat.is_nan c = false.

(** A text field is present when it holds a non-empty string. *)
Definition present (o : option string) : list string :=
  match o with
  | Some s => if PyStr.truthy s then [s] else []
  | None => []
  end.

(** The parts of a description: [brand]; then [product_name] if present,
    or else the class name with underscores replaced by spaces and
    title-cased; then [quantity_text]. *)
Inductive part : Type :=
| Brand (s : string)
| Name (s : string)
| Quantity (s : string).

Definition spec_name (d : Detection) : list string :=
  match present (product_name d) with
  | [] => map (fun c => PyStr.title (PyStr.replace "_" " " c))
              (present (Some (class_name d)))
  | name => name
  end.

Definition select_parts (d : Detection) : list part :=
  (map Brand (present (brand d)) ++ map Name (spec_name d)
   ++ map Quantity (present (quantity_text d)))%list.

Definition plain (p : part) : string :=
  match p with Brand s | Name s | Quantity s => s end.

Definition labelled (p : part) : string :=
  match p with
  | Quantity s => "(" +:+ s +:+ ")"
  | Brand s | Name s => s
  end.

Definition joined_or (default : string) (parts : list string) : string :=
  match parts with
  | [] => default
  | _ :: _ => PyStr.join " " parts
  end.

Definition spec_description (d : Detection) : string :=
  joined_or "Unknown product" (map plain (select_parts d)).

Definition spec_label (d : Detection) : string :=
  joined_or "Unknown Product" (map labelled (select_parts d)).

(** The header, the sentences numbered from [i] on, and the summary of the
    detections [L] with the percentages [pcts]. *)
Definition spec_header (n : nat) : string :=
  "Detected " +:+ PyStr.of_nat n +:+ " item"
  +:+ (if (1 <? n)%nat then "s" else "") +:+ ".".

Fixpoint spec_sentences (i : nat) (L : list Detection) (pcts : list Z) : list string :=
  match L, pcts with
  | d :: L', p :: pcts' =>
      ("Item " +:+ PyStr.of_nat i +:+ ": " +:+ spec_description d
       +:+ ". Confidence " +:+ PyStr.of_Z p +:+ " percent.")
      :: spec_sentences (S i) L' pcts'
  | _, _ => []
  end.

Definition spec_summary (L : list Detection) (pcts : list Z) : string :=
  PyStr.join " " (spec_header (length L) :: spec_sentences 1 L pcts).

(** The percentages of the detections of a list, when [int] returns on
    each of them. *)
Definition pcts_of (L : list Detection) (pcts : list Z) : Prop :=
  Forall2 (fun d p => confidence_pct d = Ok p) L pcts.

(** [p] is the integer part of the non-negative float [x]. *)
Definition floor_of (x : spec_float) (p : Z) : Prop :=
  (inject_Z p <= PyFloat.to_Q x)%Q /\ (PyFloat.to_Q x < inject_Z (p + 1))%Q.

(** A detection with its empty text fields made absent. *)
Definition blank_to_absent (o : option string) : option string :=
  match o with
  | Some EmptyString => None
  | _ => o
  end.

Definition without_blanks (d : Detection) : Detection :=
  {| id := id d;
     bbox := bbox d;
     class_name := class_name d;
     confidence := confidence d;
     brand := blank_to_absent (brand d);
     product_name := blank_to_absent (product_name d);
     quantity_text := blank_to_absent (quantity_text d);
     raw_text := raw_text d |}.

(** The detection [merge] is to return: the identity of [d] with the
    text fields of the OCR result. *)
Definition merged (d : Detection) (ocr : gmap string (option string)) : Detection :=
  {| id := id d;
     bbox := bbox d;
     class_name := class_name d;
     confidence := confidence d;
     brand := dict_get ocr "brand";
     product_name := dict_get ocr "product_name";
     quantity_text := dict_get ocr "quantity_text";
     raw_text := dict_get ocr "raw_text" |}.

(** The store after a call that only wrote [message] to the log. *)
Definition logged (w : world) (message : string) : world :=
  {| lists := lists w; objects := objects w; log := log w ++ [message] |}.

(** ** Sample values *)

(** 0.92 = 8286623314361713 * 2^-53, 0.929 = 8367688107654382 * 2^-53,
    1.5 = 6755399441055744 * 2^-52, 0.5 = 2^52 * 2^-53, 0.25 = 2^52 * 2^-54 *)
Definition c_0_92 : spec_float := S754_finite false 8286623314361713 (-53).
Definition c_0_929 : spec_float := S754_finite false 8367688107654382 (-53).
Definition c_1_5 : spec_float := S754_finite false 6755399441055744 (-52).
Definition c_0_5 : spec_float := S754_finite false 4503599627370496 (-53).
Definition c_0_25 : spec_float := S754_finite false 4503599627370496 (-54).

Definition amul_milk : Detection :=
  {| id := "det-1"; bbox := []; class_name := "milk_pack"; confidence := c_0_92;
     brand := Some "Amul"; product_name := Some "Full Cream Milk";
     quantity_text := Some "500ml"; raw_text := None |}.

Definition sample (name : string) (c : spec_float) : Detection :=
  {| id := name; bbox := []; class_name := "biscuit_pack"; confidence := c;
     brand := None; product_name := None; quantity_text := None;
     raw_text := None |}.

(** A detection with an empty class name and no text field. *)
Definition no_parts (c : spec_float) : Detection :=
  {| id := "x"; bbox := []; class_name := ""; confidence := c;
     brand := None; product_name := None; quantity_text := None;
     raw_text := None |}.


(** A store with one list object, at reference 1: three detections of
    confidence 0.5, 0.92 and 0.5, and one of confidence 0.25. *)
Definition sample_list : list Detection :=
  [sample "a" c_0_5; sample "b" c_0_92; sample "low" c_0_25; sample "c" c_0_5].

Definition sample_world : world :=
  {| lists := {[1%positive := sample_list]}; objects := ∅; log := [] |}.

Definition empty_world : world := {| lists := ∅; objects := ∅; log := [] |}.

(** A store with one [Detection] object, at reference 1. *)
Definition world_with (d : Detection) : world :=
  {| lists := ∅; objects := {[1%positive := d]}; log := [] |}.

(** An OCR result that reports a brand and a raw text only. *)
Definition ocr_brand_only : gmap string (option string) :=
  {["brand" := Some "Britannia"; "product_name" := None;
    "quantity_text" := None; "raw_text" := Some "Brand: Britannia"]}.

(** ** More string builtins *)

Module PyText.

(** The ASCII characters [str.isspace] accepts. *)
Definition is_space (c : ascii) : bool :=
  let n := nat_of_ascii c in
  ((9 <=? n)%nat && (n <=? 13)%nat) || ((28 <=? n)%nat && (n <=? 32)%nat).

(** [s.lstrip()], [s.rstrip()], [s.strip()] for a string of ASCII
    characters *)
Fixpoint lstrip (s : string) : string :=
  match s with
  | EmptyString => EmptyString
  | String c s' => if is_space c then lstrip s' else s
  end.

Fixpoint rstrip (s : string) : string :=
  match s with
  | EmptyString => EmptyString
  | String c s' =>
      match rstrip s' with
      | EmptyString => if is_space c then EmptyString else String c EmptyString
      | r => String c r
      end
  end.

Definition strip (s : string) : string := rstrip (lstrip s).

(** [s.lower()] for a string of ASCII characters *)
Fixpoint lower (s : string) : string :=
  match s with
  | EmptyString => EmptyString
  | String c s' => String (PyStr.to_lower c) (lower s')
  end.

(** [sep in s] for a one-character [sep]. *)
Fixpoint contains (sep : ascii) (s : string) : bool :=
  match s with
  | EmptyString => false
  | String c s' => Ascii.eqb c sep || contains sep s'
  end.

(** [s.split(sep)] for a one-character [sep]. *)
Fixpoint split (sep : ascii) (s : string) : list string :=
  match s with
  | EmptyString => [EmptyString]
  | String c s' =>
      if Ascii.eqb c sep then EmptyString :: split sep s'
      else match split sep s' with
           | piece :: pieces => String c piece :: pieces
           | [] => [String c EmptyString]
           end
  end.

(** [s.split(sep, 1)]: at most one cut, at the first [sep]. *)
Fixpoint split_once (sep : ascii) (s : string) : list string :=
  match s with
  | EmptyString => [EmptyString]
  | String c s' =>
      if Ascii.eqb c sep then [EmptyString; s']
      else match split_once sep s' with
           | piece :: pieces => String c piece :: pieces
           | [] => [String c EmptyString]
           end
  end.

(** [s.upper()] and [s[:n]] *)
Fixpoint upper (s : string) : string :=
  match s with
  | EmptyString => EmptyString
  | String c s' => String (PyStr.to_upper c) (upper s')
  end.

Fixpoint take (n : nat) (s : string) : string :=
  match n, s with
  | S n', String c s' => String c (take n' s')
  | _, _ => EmptyString
  end.

(** [s.isascii()].  The white space and the case mapping of this file are
    those of the ASCII characters: on a string that is ASCII, [strip],
    [lower], [upper] and [PyStr.title] are what the methods of Python
    return; on other strings Python consults the Unicode database, which
    is not modelled, and the theorems that depend on these methods are
    stated for ASCII strings. *)
Fixpoint isascii (s : string) : bool :=
  match s with
  | EmptyString => true
  | String c s' => (nat_of_ascii c <? 128)%nat && isascii s'
  end.

Definition newline : ascii := "010"%char.
Definition colon : ascii := ":"%char.

End PyText.

(** ** The prediction route (backend/app/api/routes.py) *)

(** [try: m except Exception as e: handler(e)] *)
Definition try_except {A} (m : M A) (handler : exn -> M A) : M A :=
  fun w => match m w with
           | (Ok a, w') => (Ok a, w')
           | (Raise e, w') => handler e w'
           end.

(** [logger.warning], [logger.info], [logger.error]: the log of the store
    keeps the messages, not their levels. *)
Definition logger_warning (message : string) : M unit := logger_debug message.
Definition logger_info (message : string) : M unit := logger_debug message.
Definition logger_error (message : string) : M unit := logger_debug message.

(** ** The speech service (backend/app/services/tts_service.py)

    [TTSService.generate_audio]: [enabled] is the flag of the service,
    [uuid4] the name [uuid.uuid4()] draws, [save] the synthesis and the
    write of the file under that name, which may raise, and [exn_text]
    the text of an exception in a log line. *)
Definition generate_audio (enabled : bool) (uuid4 : string)
    (save : string -> string -> string -> result unit)
    (exn_text : exn -> string)
    (text language : string) : M (option string) :=
  if negb enabled then
    logger_debug "TTS is disabled" ;;
    ret None
  else if negb (PyStr.truthy text) || negb (PyStr.truthy (PyText.strip text)) then
    logger_warning "Empty text provided for TTS" ;;
    ret None
  else
    try_except
      (let filename := uuid4 +:+ ".mp3" in
       lift (save text language filename) ;;
       let audio_url := "/audio/" +:+ filename in
       logger_info ("Generated audio: " +:+ audio_url) ;;
       ret (Some audio_url))
      (fun e =>
         logger_error ("TTS generation failed: " +:+ exn_text e) ;;
         ret None).

Section Enrichment.

(** What the route calls on each detection before the merge: the crop of
    the image at a bounding box, which may raise, and the OCR of a crop,
    which catches what it raises; [exn_text] is the text of an exception
    in a log line. *)
Context {Image : Type}.
Variable crop_detection : list spec_float -> result Image.
Variable process_crop : Image -> gmap string (option string).
Variable exn_text : exn -> string.

(** Step 3 of [predict_products]: the loop over the detections, which are
    references to [Detection] objects; [enriched_detections] grows by one
    reference per turn. *)
Fixpoint enrich_loop (detections : list loc) (enriched_detections : list loc)
    : M (list loc) :=
  match detections with
  | [] => ret enriched_detections
  | detection :: rest =>
      enriched_detections <-
        try_except
          (d <- read_object detection ;;
           crop <- lift (crop_detection (bbox d)) ;;
           let ocr_result := process_crop crop in
           enriched <- merge_ocr_with_detection detection ocr_result ;;
           ret (enriched_detections ++ [enriched])%list)
          (fun e =>
             d <- read_object detection ;;
             logger_warning ("OCR failed for detection " +:+ id d +:+ ": "
                             +:+ exn_text e) ;;
             ret (enriched_detections ++ [detection])%list) ;;
      enrich_loop rest enriched_detections
  end.

Definition enrich (detections : list loc) : M (list loc) :=
  enrich_loop detections [].

(** What the loop makes of the detection at [l], between the store [w] it
    started in and the store [w'] it ended in: the reference [r] to a new
    object with the text of the OCR merged in, or [l] itself when the
    crop or the merge raised. *)
Definition enriched_from (w w' : world) (l r : loc) : Prop :=
  exists d : Detection,
    objects w !! l = Some d /\
    match crop_detection (bbox d) with
    | Ok crop =>
        if confidence_in_range (confidence d)
        then r <> l /\ objects w !! r = None /\
             objects w' !! r = Some (merged d (process_crop crop))
        else r = l
    | Raise _ => r = l
    end.

End Enrichment.

(** The objects of [w] are objects of [w'], unchanged. *)
Definition objects_kept (w w' : world) : Prop :=
  forall l d, objects w !! l = Some d -> objects w' !! l = Some d.

(** Steps 4 and 5 of [predict_products], with the fields of the response
    they fill: the detections, the summary and [total_items]. *)
Definition clean_and_summarize (detections : loc) (min_confidence : spec_float)
    : M (loc * string * nat) :=
  detections <- clean_detections detections min_confidence ;;
  ds <- read_list detections ;;
  summary <- build_summary ds ;;
  ret (detections, summary, length ds).

(** ** The OCR service (backend/app/services/ocr_service.py) *)

Definition default_result : gmap string (option string) :=
  {["brand" := None; "product_name" := None;
    "quantity_text" := None; "raw_text" := None]}.

(** The loop of [_parse_ocr_response] over the lines of the response.  An
    exception in its body would end the function with the dict as it is
    then, which is what the [except] clause returns. *)
Fixpoint parse_lines (lines : list string) (result : gmap string (option string))
    : gmap string (option string) :=
  match lines with
  | [] => result
  | line :: rest =>
      let line := PyText.strip line in
      if negb (PyStr.truthy line) || negb (PyText.contains PyText.colon line)
      then parse_lines rest result
      else
        match PyText.split_once PyText.colon line with
        | [key; value] =>
            let key := PyText.lower (PyText.strip key) in
            let value := PyText.strip value in
            if String.eqb (PyText.lower value) "unknown" || negb (PyStr.truthy value)
            then parse_lines rest result
            else if String.eqb key "brand"
            then parse_lines rest (<["brand" := Some value]> result)
            else if String.eqb key "product"
            then parse_lines rest (<["product_name" := Some value]> result)
            else if String.eqb key "quantity"
            then parse_lines rest (<["quantity_text" := Some value]> result)
            else parse_lines rest result
        | _ => result
        end
  end.

(** [OCRService._parse_ocr_response(text)]; the line it gives the logger,
    the printed dict, is left out. *)
Definition _parse_ocr_response (text : string) : gmap string (option string) :=
  let result : gmap string (option string) :=
    {["brand" := None; "product_name" := None; "quantity_text" := None;
      "raw_text" := if PyStr.truthy text then Some (PyText.strip text) else None]} in
  let lines := PyText.split PyText.newline (PyText.strip text) in
  parse_lines lines result.

(** [OCRService.process_crop]: [configured] is the flag of the service and
    [response] what the call of the vision model gave: an exception, no
    text, or the text of the answer. *)
Definition process_crop (configured : bool) (response : result (option string))
    : gmap string (option string) :=
  if negb configured then default_result
  else
    match response with
    | Ok (Some text) =>
        if PyStr.truthy text then _parse_ocr_response text else default_result
    | Ok None => default_result
    | Raise _ => default_result
    end.

(** A response whose text, if it has one, is ASCII. *)
Definition ascii_response (response : result (option string)) : Prop :=
  forall text, response = Ok (Some text) -> PyText.isascii text = true.

(** The values a line of the response can give a field: not empty, no
    white space at either end, no line feed, and not the word "unknown"
    in any casing. *)
Definition clean_value (v : string) : Prop :=
  v <> "" /\ PyText.lstrip v = v /\ PyText.rstrip v = v /\
  PyText.contains PyText.newline v = false /\
  PyText.lower v <> "unknown".

(** The answer the prompt of the service asks for: three lines. *)
Definition ocr_answer (b p q : string) : string :=
  ("Brand: " +:+ b) +:+ String PyText.newline
    (("Product: " +:+ p) +:+ String PyText.newline ("Quantity: " +:+ q)).

(** The keys of an OCR result. *)
Definition ocr_keys : list string :=
  ["brand"; "product_name"; "quantity_text"; "raw_text"].

Definition has_ocr_keys (m : gmap string (option string)) : Prop :=
  forall k, is_Some (m !! k) <-> In k ocr_keys.

(** Every text field an OCR result holds is a clean value. *)
Definition clean_fields (m : gmap string (option string)) : Prop :=
  forall k v,
    In k ["brand"; "product_name"; "quantity_text"] ->
    m !! k = Some (Some v) -> clean_value v.

(** ** The product catalogue (backend/app/services/product_service.py,
    backend/app/models/db_models.py, backend/app/models/schemas.py) *)

Module Catalog.

(** Rows of the tables [product_variants] and [products]; the currency of
    a variant is the one column among these that may be NULL. *)
Record VariantRow : Type := {
  row_size : string;
  row_price : spec_float;
  row_currency : option string
}.

Record ProductRow : Type := {
  row_product_id : string;
  row_brand : string;
  row_name : string;
  row_description : option string;
  row_image_url : option string;
  row_variants : list VariantRow
}.

(** The schemas [ProductVariant] and [ProductMatch]. *)
Record ProductVariant : Type := {
  size : string;
  price : spec_float;
  currency : string
}.

Record ProductMatch : Type := {
  product_id : string;
  brand : string;
  name : string;
  description : option string;
  image_url : option string;
  available_sizes : list string;
  available_quantities : list Z;
  variants : list ProductVariant
}.

(** 99.0 = 6966505673588736 * 2^-46 *)
Definition price_99 : spec_float := S754_finite false 6966505673588736 (-46).

(** The constructor [ProductVariant(size=..., price=..., currency=...)]:
    the currency has to be a string and the price at least 0. *)
Definition new_ProductVariant (size : string) (price : spec_float)
    (currency : option string) : result ProductVariant :=
  match currency with
  | None => Raise ValidationError
  | Some currency =>
      if PyFloat.ge price PyFloat.zero
      then Ok {| size := size; price := price; currency := currency |}
      else Raise ValidationError
  end.

(** The loop of [_product_to_match] over [product.variants]. *)
Fixpoint variants_loop (rows : list VariantRow) (variants : list ProductVariant)
    (available_sizes : list string)
    : result (list ProductVariant * list string) :=
  match rows with
  | [] => Ok (variants, available_sizes)
  | variant :: rest =>
      match new_ProductVariant (row_size variant) (row_price variant)
                               (row_currency variant) with
      | Raise e => Raise e
      | Ok v =>
          variants_loop rest (variants ++ [v])%list
                        (available_sizes ++ [row_size variant])%list
      end
  end.

(** [ProductService._product_to_match(product, preferred_quantity)] *)
Definition _product_to_match (product : ProductRow)
    (preferred_quantity : option string) : result ProductMatch :=
  match variants_loop (row_variants product) [] [] with
  | Raise e => Raise e
  | Ok (variants, available_sizes) =>
      match
        match variants with
        | [] =>
            match new_ProductVariant "Standard" price_99 (Some "INR") with
            | Raise e => Raise e
            | Ok v => Ok ((variants ++ [v])%list, (available_sizes ++ ["Standard"])%list)
            end
        | _ :: _ => Ok (variants, available_sizes)
        end
      with
      | Raise e => Raise e
      | Ok (variants, available_sizes) =>
          Ok {| product_id := row_product_id product;
                brand := row_brand product;
                name := row_name product;
                description := row_description product;
                image_url := row_image_url product;
                available_sizes := available_sizes;
                available_quantities := [1; 2; 3; 4; 5; 10];
                variants := variants |}
      end
  end.

(** The loop [for product in products: matches.append(...)]. *)
Fixpoint matches_loop (products : list ProductRow) (quantity : option string)
    (matches : list ProductMatch) : result (list ProductMatch) :=
  match products with
  | [] => Ok matches
  | product :: rest =>
      match _product_to_match product quantity with
      | Raise e => Raise e
      | Ok m => matches_loop rest quantity (matches ++ [m])%list
      end
  end.

(** [ProductService.search_products] and [ProductService.get_all_products],
    given what the query of the database returned or raised; both catch
    every exception and return the empty list then.  Their log lines are
    left out. *)
Definition search_products (query : result (list ProductRow))
    (quantity : option string) : list ProductMatch :=
  match query with
  | Raise _ => []
  | Ok products =>
      match matches_loop products quantity [] with
      | Ok matches => matches
      | Raise _ => []
      end
  end.

Definition get_all_products (query : result (list ProductRow)) : list ProductMatch :=
  match query with
  | Raise _ => []
  | Ok products =>
      match matches_loop products None [] with
      | Ok matches => matches
      | Raise _ => []
      end
  end.

(** [ProductService.get_product_by_id], given what [.first()] returned
    (a product, or [None] when no row matches) or raised. *)
Definition get_product_by_id (query : result (option ProductRow))
    : option ProductMatch :=
  match query with
  | Raise _ => None
  | Ok None => None
  | Ok (Some product) =>
      match _product_to_match product None with
      | Ok m => Some m
      | Raise _ => None
      end
  end.

(** [x or default] for an [Optional[str]]. *)
Definition or_default (x : option string) (default : string) : string :=
  if PyStr.truthy_opt x then PyStr.text x else default.

(** [get_fallback_product(brand, name, quantity)] *)
Definition get_fallback_product (brand name quantity : option string)
    : result ProductMatch :=
  match new_ProductVariant (or_default quantity "Standard") price_99 (Some "INR") with
  | Raise e => Raise e
  | Ok v =>
      Ok {| product_id := "fallback-001";
            brand := or_default brand "Unknown";
            name := or_default name "Unknown Product";
            description := Some "Product details not found in database";
            image_url := None;
            available_sizes := [or_default quantity "Standard"];
            available_quantities := [1; 2; 3; 4; 5];
            variants := [v] |}
  end.

(** An answer of a route: a response or an [HTTPException]. *)
Inductive http (A : Type) : Type :=
| Answer (a : A)
| HTTPException (status_code : Z) (detail : string).
Arguments Answer {A} a.
Arguments HTTPException {A} status_code detail.

(** The schema [ProductSearchResponse]. *)
Record ProductSearchResponse : Type := {
  status : string;
  matches : list ProductMatch
}.

(** The route [GET /products/search]; [exn_text] is the text of an
    exception. *)
Definition search_route (exn_text : exn -> string)
    (query : result (list ProductRow)) (brand name quantity : option string)
    : http ProductSearchResponse :=
  let matches := search_products query quantity in
  match matches with
  | _ :: _ => Answer {| status := "ok"; matches := matches |}
  | [] =>
      match get_fallback_product brand name quantity with
      | Ok fallback => Answer {| status := "fallback"; matches := [fallback] |}
      | Raise e => HTTPException 500 ("Search failed: " +:+ exn_text e)
      end
  end.

(** A row the schema [ProductVariant] accepts. *)
Definition valid_row (v : VariantRow) : bool :=
  match row_currency v with
  | None => false
  | Some _ => PyFloat.ge (row_price v) PyFloat.zero
  end.

(** The variant a valid row becomes. *)
Definition of_row (v : VariantRow) : ProductVariant :=
  {| size := row_size v; price := row_price v;
     currency := PyStr.text (row_currency v) |}.

(** A product all of whose rows are valid, and the match it becomes: its
    rows as variants, or the one default variant when it has no row. *)
Definition valid_product (p : ProductRow) : bool :=
  forallb valid_row (row_variants p).

Definition default_variant : ProductVariant :=
  {| size := "Standard"; price := price_99; currency := "INR" |}.

Definition match_of (p : ProductRow) : ProductMatch :=
  let vs := match row_variants p with
            | [] => [default_variant]
            | rows => map of_row rows
            end in
  {| product_id := row_product_id p;
     brand := row_brand p;
     name := row_name p;
     description := row_description p;
     image_url := row_image_url p;
     available_sizes := map size vs;
     available_quantities := [1; 2; 3; 4; 5; 10];
     variants := vs |}.

End Catalog.


(** ** Orders (backend/app/api/routes.py, backend/app/models/schemas.py,
    backend/app/models/db_models.py) *)

(** [float(n)] for an integer, as the arithmetic of a float with an
    integer does it: the nearest binary64 number, ties to even, or
    [OverflowError] when the integer is too large. *)
Definition float_of_int (n : Z) : result spec_float :=
  match binary_normalize PyFloat.prec PyFloat.emax n 0 false with
  | S754_infinity _ => Raise OverflowError
  | x => Ok x
  end.

Module Orders.

(** The schemas [OrderItem], [OrderRequest] and [OrderResponse]. *)
Record OrderItem : Type := {
  product_id : string;
  size : string;
  quantity : Z;
  unit_price : spec_float
}.

Record OrderRequest : Type := {
  items : list OrderItem;
  total_amount : spec_float;
  currency : string
}.

Record OrderResponse : Type := {
  status : string;
  order_id : option string;
  message : option string
}.

(** The constraints of the schemas: [quantity >= 1], [unit_price >= 0],
    at least one item, [total_amount >= 0]. *)
Definition valid_item (item : OrderItem) : bool :=
  (1 <=? quantity item)%Z && PyFloat.ge (unit_price item) PyFloat.zero.

Definition valid_request (order_request : OrderRequest) : bool :=
  match items order_request with [] => false | _ :: _ => true end
  && forallb valid_item (items order_request)
  && PyFloat.ge (total_amount order_request) PyFloat.zero.

(** The rows the route builds for the tables [orders] and [order_items]. *)
Record OrderRow : Type := {
  row_order_id : string;
  row_total_amount : spec_float;
  row_currency : string;
  row_status : string
}.

Record OrderItemRow : Type := {
  item_order_id : Z;
  item_product_id : string;
  item_size : string;
  item_quantity : Z;
  item_unit_price : spec_float;
  item_line_total : spec_float
}.

(** The database session: the operations it has taken, in order, and how
    many more it takes before one raises, and what ([None]: it never
    raises).  [rollback] is taken whatever happened. *)
Inductive db_op : Type :=
| Add_order (order : OrderRow)
| Flush
| Add_item (order_item : OrderItemRow)
| Commit
| Rollback.

Record Session : Type := {
  ops : list db_op;
  budget : option (nat * exn)
}.

Definition db_do (op : db_op) (db : Session) : result unit * Session :=
  match budget db with
  | None => (Ok tt, {| ops := ops db ++ [op]; budget := None |})
  | Some (O, e) => (Raise e, db)
  | Some (S k, e) => (Ok tt, {| ops := ops db ++ [op]; budget := Some (k, e) |})
  end.

Definition rollback (db : Session) : Session :=
  {| ops := ops db ++ [Rollback]; budget := budget db |}.

(** [item.unit_price * item.quantity] *)
Definition line_total (item : OrderItem) : result spec_float :=
  match float_of_int (quantity item) with
  | Ok q => Ok (PyFloat.mul (unit_price item) q)
  | Raise e => Raise e
  end.

(** The row of an item whose line total is [total], in the order with
    primary key [order_pk]. *)
Definition item_row (order_pk : Z) (item : OrderItem) (total : spec_float)
    : OrderItemRow :=
  {| item_order_id := order_pk;
     item_product_id := product_id item;
     item_size := size item;
     item_quantity := quantity item;
     item_unit_price := unit_price item;
     item_line_total := total |}.

(** The loop [for item in order_request.items: ... db.add(order_item)]. *)
Fixpoint add_items (order_pk : Z) (items : list OrderItem) (db : Session)
    : result unit * Session :=
  match items with
  | [] => (Ok tt, db)
  | item :: rest =>
      match line_total item with
      | Raise e => (Raise e, db)
      | Ok total =>
          match db_do (Add_item (item_row order_pk item total)) db with
          | (Ok _, db) => add_items order_pk rest db
          | (Raise e, db) => (Raise e, db)
          end
      end
  end.

(** The order id: "ORD-", the date, "-" and the first six digits of the
    uuid in upper case. *)
Definition new_order_id (today hex : string) : string :=
  "ORD-" +:+ today +:+ "-" +:+ PyText.upper (PyText.take 6 hex).

(** The body of the [try], after the two checks. *)
Definition place_order (order_id : string) (order_pk : Z)
    (order_request : OrderRequest) (db : Session) : result unit * Session :=
  let order := {| row_order_id := order_id;
                  row_total_amount := total_amount order_request;
                  row_currency := currency order_request;
                  row_status := "confirmed" |} in
  match db_do (Add_order order) db with
  | (Raise e, db) => (Raise e, db)
  | (Ok _, db) =>
      match db_do Flush db with
      | (Raise e, db) => (Raise e, db)
      | (Ok _, db) =>
          match add_items order_pk (items order_request) db with
          | (Raise e, db) => (Raise e, db)
          | (Ok _, db) => db_do Commit db
          end
      end
  end.

(** The route [POST /orders]: [today] is the date [strftime] prints,
    [hex] the digits of the uuid, [order_pk] the primary key the flush
    gives the order, [exn_text] the text of an exception.  The lines for
    the logger are left out. *)
Definition create_order (today hex : string) (order_pk : Z)
    (exn_text : exn -> string) (order_request : OrderRequest) (db : Session)
    : Catalog.http OrderResponse * Session :=
  match items order_request with
  | [] =>
      (Catalog.HTTPException 400 "Order must have at least one item", db)
  | _ :: _ =>
      if PyFloat.le (total_amount order_request) PyFloat.zero
      then (Catalog.HTTPException 400 "Total amount must be positive", db)
      else
        let order_id := new_order_id today hex in
        match place_order order_id order_pk order_request db with
        | (Ok _, db) =>
            (Catalog.Answer
               {| status := "confirmed";
                  order_id := Some order_id;
                  message := Some ("Order " +:+ order_id
                                   +:+ " has been placed successfully") |},
             db)
        | (Raise e, db) =>
            (Catalog.HTTPException 500
               ("Order creation failed: " +:+ exn_text e),
             rollback db)
        end
  end.

(** What a session makes of a list of operations: it takes them one by
    one until one raises. *)
Fixpoint db_run (todo : list db_op) (db : Session) : result unit * Session :=
  match todo with
  | [] => (Ok tt, db)
  | op :: rest =>
      match db_do op db with
      | (Ok _, db) => db_run rest db
      | (Raise e, db) => (Raise e, db)
      end
  end.

(** The row the route adds for an item. *)
Definition row_of (order_pk : Z) (item : OrderItem) (row : OrderItemRow) : Prop :=
  exists q, float_of_int (quantity item) = Ok q /\
            row = item_row order_pk item (PyFloat.mul (unit_price item) q).

(** The operations of a whole transaction. *)
Definition transaction (order : OrderRow) (rows : list OrderItemRow) : list db_op :=
  Add_order order :: Flush :: (map Add_item rows ++ [Commit])%list.

(** A request with one item, and a session that has taken nothing. *)
Definition sample_order (quantity : Z) (total : spec_float) : OrderRequest :=
  {| items := [{| product_id := "PROD-001"; size := "500ml";
                  quantity := quantity; unit_price := Catalog.price_99 |}];
     total_amount := total;
     currency := "INR" |}.

Definition new_session (budget : option (nat * exn)) : Session :=
  {| ops := []; budget := budget |}.

End Orders.

(** ** The image service (backend/app/services/image_service.py) *)

(** [x + y] and [x - y] of two floats. *)
Definition float_add (x y : spec_float) : spec_float :=
  SFadd PyFloat.prec PyFloat.emax x y.
Definition float_sub (x y : spec_float) : spec_float :=
  SFsub PyFloat.prec PyFloat.emax x y.

(** A float that is neither an infinity nor NaN. *)
Definition is_finite (x : spec_float) : bool :=
  match x with
  | S754_zero _ | S754_finite _ _ _ => true
  | S754_infinity _ | S754_nan => false
  end.

(** The rest of a computation that may have raised. *)
Definition and_then {A B : Type} (r : result A) (k : A -> result B) : result B :=
  match r with
  | Ok a => k a
  | Raise e => Raise e
  end.

Module Crop.

(** A view of an image: the rows from [top] up to [bottom], the columns
    from [left] up to [right], both ends of the image counted from 0 and
    the upper ones left out. *)
Record Region : Type := {
  top : Z;
  bottom : Z;
  left : Z;
  right : Z
}.

(** Where a bound [i] of a slice falls on an axis of length [n]: a
    negative bound counts from the end, and a bound off the axis is moved
    to its nearest end. *)
Definition slice_index (n i : Z) : Z :=
  if (i <? 0)%Z then Z.max (i + n) 0 else Z.min i n.

(** [cropped.size], for an image with one channel at least: 0 when there
    is no row or no column. *)
Definition size (cropped : Region) : Z :=
  Z.max 0 (bottom cropped - top cropped) * Z.max 0 (right cropped - left cropped).

(** [int(x - n)] and [int(x + n)] for a float [x] and an integer [n]. *)
Definition int_of_difference (x : spec_float) (n : Z) : result Z :=
  and_then (float_of_int n) (fun n => int_of_float (float_sub x n)).
Definition int_of_sum (x : spec_float) (n : Z) : result Z :=
  and_then (float_of_int n) (fun n => int_of_float (float_add x n)).

(** The body of the [try] of [crop_detection], for an image of [height]
    rows and [width] columns. *)
Definition crop_body (height width : Z) (bbox : list spec_float)
    (padding : spec_float) : result Region :=
  match bbox with
  | [x1; y1; x2; y2] =>
      let box_width := float_sub x2 x1 in
      let box_height := float_sub y2 y1 in
      and_then (int_of_float (PyFloat.mul box_width padding)) (fun pad_x =>
      and_then (int_of_float (PyFloat.mul box_height padding)) (fun pad_y =>
      and_then (int_of_difference x1 pad_x) (fun a =>
      let x1_padded := Z.max 0 a in
      and_then (int_of_difference y1 pad_y) (fun a =>
      let y1_padded := Z.max 0 a in
      and_then (int_of_sum x2 pad_x) (fun b =>
      let x2_padded := Z.min width b in
      and_then (int_of_sum y2 pad_y) (fun b =>
      let y2_padded := Z.min height b in
      let cropped := {| top := slice_index height y1_padded;
                        bottom := slice_index height y2_padded;
                        left := slice_index width x1_padded;
                        right := slice_index width x2_padded |} in
      if (size cropped =? 0)%Z then Raise ValueError else Ok cropped))))))
  | _ => Raise ValueError
  end.

(** [crop_detection(image, bbox, padding)]: whatever the body raises
    becomes a [ValueError].  The lines for the logger are left out. *)
Definition crop_detection (height width : Z) (bbox : list spec_float)
    (padding : spec_float) : result Region :=
  match crop_body height width bbox padding with
  | Ok cropped => Ok cropped
  | Raise _ => Raise ValueError
  end.

(** 0.1 = 7205759403792794 * 2^-56, the padding of the prediction route. *)
Definition padding_0_1 : spec_float := S754_finite false 7205759403792794 (-56).

(** The integer [n] as a float, for [0 < n < 2^53]. *)
Definition pixels (n : positive) : spec_float :=
  match float_of_int (Zpos n) with
  | Ok x => x
  | Raise _ => S754_nan
  end.

End Crop.

(** ** Mock detections (backend/app/services/yolo_service.py) *)

Module Mock.

(** 0.1, 0.2, 0.4 = 7205759403792794 * 2^-56, 2^-55, 2^-54;
    0.6 = 5404319552844595 * 2^-53, 0.9 = 8106479329266893 * 2^-53,
    0.87 = 7836263351624663 * 2^-53 *)
Definition f_0_1 : spec_float := S754_finite false 7205759403792794 (-56).
Definition f_0_2 : spec_float := S754_finite false 7205759403792794 (-55).
Definition f_0_4 : spec_float := S754_finite false 7205759403792794 (-54).
Definition f_0_6 : spec_float := S754_finite false 5404319552844595 (-53).
Definition f_0_9 : spec_float := S754_finite false 8106479329266893 (-53).
Definition c_0_87 : spec_float := S754_finite false 7836263351624663 (-53).

(** [n * x] for an integer [n] and a float [x]. *)
Definition times (n : Z) (x : spec_float) : result spec_float :=
  and_then (float_of_int n) (fun n => Ok (PyFloat.mul n x)).

(** [YOLOService._get_mock_detections(image)] for an image of [height]
    rows and [width] columns; [uuid1] and [uuid2] are the two ids
    [uuid.uuid4()] draws.  It returns a new list of two new objects. *)
Definition _get_mock_detections (uuid1 uuid2 : string) (height width : Z) : M loc :=
  x1 <- lift (times width f_0_1) ;;
  y1 <- lift (times height f_0_1) ;;
  x2 <- lift (times width f_0_4) ;;
  y2 <- lift (times height c_0_5) ;;
  first <- new_Detection
    {| id := uuid1; bbox := [x1; y1; x2; y2]; class_name := "milk_pack";
       confidence := c_0_92; brand := Some "Amul";
       product_name := Some "Full Cream Milk"; quantity_text := Some "500ml";
       raw_text := Some "Amul Full Cream Milk 500ml" |} ;;
  x1 <- lift (times width c_0_5) ;;
  y1 <- lift (times height f_0_2) ;;
  x2 <- lift (times width f_0_9) ;;
  y2 <- lift (times height f_0_6) ;;
  second <- new_Detection
    {| id := uuid2; bbox := [x1; y1; x2; y2]; class_name := "biscuit_pack";
       confidence := c_0_87; brand := Some "Parle";
       product_name := Some "Marie Gold"; quantity_text := Some "100g";
       raw_text := Some "Parle Marie Gold Biscuits 100g" |} ;;
  first <- read_object first ;;
  second <- read_object second ;;
  mock_detections <- new_list [first; second] ;;
  logger_info ("Returning " +:+ PyStr.of_nat (length [first; second])
               +:+ " mock detections") ;;
  ret mock_detections.

(** The two mock detections, with their ids and boxes. *)
Definition mock_milk (uuid : string) (box : list spec_float) : Detection :=
  {| id := uuid; bbox := box; class_name := "milk_pack";
     confidence := c_0_92; brand := Some "Amul";
     product_name := Some "Full Cream Milk"; quantity_text := Some "500ml";
     raw_text := Some "Amul Full Cream Milk 500ml" |}.

Definition mock_biscuits (uuid : string) (box : list spec_float) : Detection :=
  {| id := uuid; bbox := box; class_name := "biscuit_pack";
     confidence := c_0_87; brand := Some "Parle";
     product_name := Some "Marie Gold"; quantity_text := Some "100g";
     raw_text := Some "Parle Marie Gold Biscuits 100g" |}.

(** [predict_products] in mock mode, where the OCR step is skipped: the
    mock detections, then steps 4 and 5.  The lines the route itself
    gives the logger are left out. *)
Definition predict_mock (uuid1 uuid2 : string) (height width : Z)
    (min_confidence : spec_float) : M (loc * string * nat) :=
  detections <- _get_mock_detections uuid1 uuid2 height width ;;
  clean_and_summarize detections min_confidence.

End Mock.

(** ** Definitions that follow the words of the specification, continued *)

(** The letters, in the order of the alphabet. *)
Definition lower_letters : string := "abcdefghijklmnopqrstuvwxyz".
Definition upper_letters : string := "ABCDEFGHIJKLMNOPQRSTUVWXYZ".

Fixpoint letter_index (c : ascii) (letters : string) : option nat :=
  match letters with
  | EmptyString => None
  | String l rest =>
      if Ascii.eqb c l then Some O else option_map S (letter_index c rest)
  end.

Definition spec_is_letter (c : ascii) : bool :=
  match letter_index c lower_letters, letter_index c upper_letters with
  | None, None => false
  | _, _ => true
  end.

(** The capital of a small letter and the small letter of a capital: the
    letter at the same place of the other alphabet; any other character
    is left as it is. *)
Definition letter_in (from to : string) (c : ascii) : ascii :=
  match letter_index c from with
  | Some k => match String.get k to with Some l => l | None => c end
  | None => c
  end.

Definition spec_upper (c : ascii) : ascii := letter_in lower_letters upper_letters c.
Definition spec_lower (c : ascii) : ascii := letter_in upper_letters lower_letters c.

(** The character at position [i] of [src] starts a word: it is the
    first one, or the one before it is no letter. *)
Definition starts_word (src : string) (i : nat) : bool :=
  match i with
  | O => true
  | S j => match String.get j src with
           | Some p => negb (spec_is_letter p)
           | None => true
           end
  end.

(** [out] is the class name [src] with underscores replaced by spaces and
    title-cased: it is as long as [src]; where [src] has an underscore it
    has a space; a character that starts a word is in upper case and any
    other one in lower case. *)
Definition nice_char (src : string) (i : nat) (c : ascii) : ascii :=
  if Ascii.eqb c "_" then " "%char
  else if starts_word src i then spec_upper c else spec_lower c.

Definition nice_name_of (src out : string) : Prop :=
  String.length out = String.length src /\
  forall (i : nat) (c : ascii),
    String.get i src = Some c -> String.get i out = Some (nice_char src i c).



(** A float whose product with 100.0 cannot overflow: a zero, or a finite
    number of exponent at most 805, that is, of magnitude below 2^858. *)
Definition below_2_858 (c : spec_float) : bool :=
  match c with
  | S754_zero _ => true
  | S754_finite _ _ e => (e <=? 805)%Z
  | S754_infinity _ | S754_nan => false
  end.

(** -0.3 = -(5404319552844595 * 2^-54) *)
Definition c_minus_0_3 : spec_float := S754_finite true 5404319552844595 (-54).


(** * Part II: properties *)

(** ** The order of the float comparisons *)

Module PyFloatOrder.
Import PyFloat.

Lemma compare_nan_l x y : is_nan x = true -> SFcompare x y = None.
Proof. destruct x; try discriminate. reflexivity. Qed.

Lemma compare_nan_r x y : is_nan y = true -> SFcompare x y = None.
Proof. destruct y; try discriminate. destruct x; reflexivity. Qed.

Lemma compare_rank x y :
  is_nan x = false -> is_nan y = false ->
  exists c, SFcompare x y = Some c /\
    match c with
    | Lt => lex_lt (rank x) (rank y)
    | Eq => rank x = rank y
    | Gt => lex_lt (rank y) (rank x)
    end.
Proof.
  intros Hx Hy.
  destruct x as [sx|sx| |sx mx ex], y as [sy|sy| |sy my ey];
    try discriminate; clear Hx Hy; cbn [SFcompare rank];
    try (destruct sx); try (destruct sy);
    try (eexists; split; [reflexivity|]; cbn; first [reflexivity | lia]).
  - eexists; split; [reflexivity|].
    destruct (Z.compare_spec ex ey) as [He|He|He]; cbn; try lia.
    change (Pos.compare_cont Eq mx my) with (Pos.compare mx my).
    destruct (Pos.compare_spec mx my) as [Hm|Hm|Hm]; cbn; subst; try lia.
    reflexivity.
  - eexists; split; [reflexivity|].
    destruct (Z.compare_spec ex ey) as [He|He|He]; cbn; try lia.
    change (Pos.compare_cont Eq mx my) with (Pos.compare mx my).
    destruct (Pos.compare_spec mx my) as [Hm|Hm|Hm]; cbn; subst; try lia.
    reflexivity.
Qed.

Lemma le_not_nan x y : le x y = true -> is_nan x = false /\ is_nan y = false.
Proof.
  unfold le, SFleb. intros H.
  destruct (is_nan x) eqn:Hx; [rewrite compare_nan_l in H by exact Hx; discriminate|].
  destruct (is_nan y) eqn:Hy; [rewrite compare_nan_r in H by exact Hy; discriminate|].
  split; reflexivity.
Qed.

#[local] Ltac by_rank x y Hx Hy :=
  let c := fresh "c" in
  let Hc := fresh "Hc" in
  let Hr := fresh "Hr" in
  destruct (compare_rank x y Hx Hy) as (c & Hc & Hr);
  unfold lt, le, ge, eq, SFltb, SFleb, SFeqb in *; rewrite ?Hc in *.

#[local] Ltac lex_solve :=
  repeat match goal with
         | H : lex_lt ?p ?q |- _ => unfold lex_lt in H
         | H : context [rank ?x] |- _ => destruct (rank x) as [[? ?] ?]
         | |- context [rank ?x] => destruct (rank x) as [[? ?] ?]
         end;
  repeat match goal with
         | H : (_, _) = (_, _) |- _ => injection H as ? ?
         end;
  try discriminate; try reflexivity; try (exfalso; lia).

(** [not (y < x)] is [x <= y] as soon as neither is NaN. *)
Lemma lt_false_le x y :
  is_nan x = false -> is_nan y = false -> lt y x = false -> le x y = true.
Proof.
  intros Hx Hy H.
  by_rank y x Hy Hx. by_rank x y Hx Hy.
  destruct c, c0; lex_solve.
Qed.

Lemma le_lt_false x y : le x y = true -> lt y x = false.
Proof.
  intros H. destruct (le_not_nan _ _ H) as [Hx Hy].
  by_rank y x Hy Hx. by_rank x y Hx Hy.
  destruct c, c0; lex_solve.
Qed.

Lemma lt_asym x y : lt x y = true -> lt y x = false.
Proof.
  intros H.
  destruct (is_nan x) eqn:Hx;
    [unfold lt, SFltb in H; rewrite compare_nan_l in H by exact Hx; discriminate|].
  destruct (is_nan y) eqn:Hy;
    [unfold lt, SFltb in H; rewrite compare_nan_r in H by exact Hy; discriminate|].
  by_rank y x Hy Hx. by_rank x y Hx Hy.
  destruct c, c0; lex_solve.
Qed.

Lemma le_trans x y z : le x y = true -> le y z = true -> le x z = true.
Proof.
  intros H1 H2.
  destruct (le_not_nan _ _ H1) as [Hx Hy].
  destruct (le_not_nan _ _ H2) as [_ Hz].
  by_rank x y Hx Hy. by_rank y z Hy Hz. by_rank x z Hx Hz.
  destruct c, c0, c1; lex_solve.
Qed.

Lemma eq_not_nan x y : eq x y = true -> is_nan x = false /\ is_nan y = false.
Proof.
  unfold eq, SFeqb. intros H.
  destruct (is_nan x) eqn:Hx; [rewrite compare_nan_l in H by exact Hx; discriminate|].
  destruct (is_nan y) eqn:Hy; [rewrite compare_nan_r in H by exact Hy; discriminate|].
  split; reflexivity.
Qed.

(** Two numbers equal to a third are not strictly ordered. *)
Lemma eq_eq_lt_false x y k :
  eq x k = true -> eq y k = true -> lt x y = false.
Proof.
  intros H1 H2.
  destruct (eq_not_nan _ _ H1) as [Hx Hk].
  destruct (eq_not_nan _ _ H2) as [Hy _].
  by_rank x k Hx Hk. by_rank y k Hy Hk. by_rank x y Hx Hy.
  destruct c, c0, c1; lex_solve.
Qed.

Lemma eq_reflexive x : is_nan x = false -> eq x x = true.
Proof.
  intros Hx. by_rank x x Hx Hx. destruct c; lex_solve.
Qed.

Lemma eq_symmetric x y : eq x y = eq y x.
Proof.
  destruct (is_nan x) eqn:Hx;
    [unfold eq, SFeqb;
     now rewrite (compare_nan_l x y Hx), (compare_nan_r y x Hx)|].
  destruct (is_nan y) eqn:Hy;
    [unfold eq, SFeqb;
     now rewrite (compare_nan_r x y Hy), (compare_nan_l y x Hy)|].
  by_rank x y Hx Hy. by_rank y x Hy Hx.
  destruct c, c0; lex_solve.
Qed.

(** Two numbers neither of which is below the other are equal. *)
Lemma lt_false_eq x y :
  is_nan x = false -> is_nan y = false ->
  lt x y = false -> lt y x = false -> eq x y = true.
Proof.
  intros Hx Hy H1 H2.
  by_rank x y Hx Hy. by_rank y x Hy Hx.
  destruct c, c0; lex_solve.
Qed.

End PyFloatOrder.

(** ** Strings *)

Example title_milk_pack :
  PyStr.title (PyStr.replace "_" " " "milk_pack") = "Milk Pack".
Proof. reflexivity. Qed.

Example title_mixed :
  PyStr.title "hELLO wORLD 3rd_x" = "Hello World 3Rd_X".
Proof. reflexivity. Qed.

Example of_Z_samples :
  (PyStr.of_Z 92, PyStr.of_Z 0, PyStr.of_Z (-7), PyStr.of_nat 10) = ("92", "0", "-7", "10").
Proof. reflexivity. Qed.

(** ** [sorted] is a stable sort *)

Section SortedFacts.
Context {A K : Type}.
Variable key : A -> K.
Variable lt : K -> K -> bool.

Local Abbreviation insert := (insert key lt).
Local Abbreviation sort_ascending := (sort_ascending key lt).
Local Abbreviation sorted := (sorted key lt).
Local Abbreviation ascending := (ascending key lt).
Local Abbreviation descending := (descending key lt).

Lemma insert_perm x l : Permutation (insert x l) (x :: l).
Proof.
  induction l as [|y l IH]; cbn; [reflexivity|].
  destruct (lt (key y) (key x)); [|reflexivity].
  rewrite IH. apply perm_swap.
Qed.

Lemma sort_ascending_perm l : Permutation (sort_ascending l) l.
Proof.
  induction l as [|x l IH]; cbn; [reflexivity|].
  rewrite insert_perm. now rewrite IH.
Qed.

Lemma sorted_perm reverse l : Permutation (sorted reverse l) l.
Proof.
  unfold sorted. destruct reverse; [|apply sort_ascending_perm].
  rewrite <- Permutation_rev, sort_ascending_perm. symmetry. apply Permutation_rev.
Qed.

(** The keys on which [<] is a strict weak order (for floats: all but
    NaN). *)
Variable comparable : K -> Prop.
Hypothesis Hasym : forall a b, lt a b = true -> lt b a = false.
Hypothesis Hnegtrans :
  forall a b c, comparable a -> comparable b -> comparable c ->
    lt c b = false -> lt b a = false -> lt c a = false.

Lemma insert_sorted x l :
  comparable (key x) -> all_comparable key comparable l ->
  StronglySorted ascending l -> StronglySorted ascending (insert x l).
Proof using Hasym Hnegtrans.
  intros Hx Hl Hs. induction Hs as [|y l Hs IH Hy]; cbn.
  - repeat constructor.
  - inversion Hl as [|? ? Hky Hl']; subst.
    destruct (lt (key y) (key x)) eqn:Hlt.
    + constructor; [now apply IH|].
      eapply Permutation_Forall; [symmetry; apply insert_perm|].
      constructor; [now apply Hasym | exact Hy].
    + constructor; [now constructor|].
      constructor; [exact Hlt|].
      rewrite List.Forall_forall in Hy, Hl' |- *. intros z Hz.
      unfold ascending in *. eapply (Hnegtrans _ (key y)); auto.
Qed.

Lemma sort_ascending_sorted l :
  all_comparable key comparable l -> StronglySorted ascending (sort_ascending l).
Proof using Hasym Hnegtrans.
  induction l as [|x l IH]; cbn; intros Hl; [constructor|].
  inversion Hl; subst. apply insert_sorted; auto.
  eapply Permutation_Forall; [symmetry; apply sort_ascending_perm|assumption].
Qed.

Lemma StronglySorted_app_inv (R : A -> A -> Prop) l1 l2 :
  StronglySorted R l1 -> StronglySorted R l2 ->
  (forall a b, In a l1 -> In b l2 -> R a b) ->
  StronglySorted R (l1 ++ l2).
Proof.
  intros H1 H2 H12. induction H1 as [|a l1 H1 IH Ha]; cbn; [exact H2|].
  constructor.
  - apply IH. intros x y Hx Hy. apply H12; [right; exact Hx | exact Hy].
  - rewrite List.Forall_app. split; [exact Ha|].
    rewrite List.Forall_forall. intros b Hb. apply H12; [left; reflexivity | exact Hb].
Qed.

Lemma StronglySorted_rev (R : A -> A -> Prop) l :
  StronglySorted R l -> StronglySorted (fun a b => R b a) (rev l).
Proof.
  induction 1 as [|a l Hs IH Ha]; cbn; [constructor|].
  apply StronglySorted_app_inv; [exact IH | repeat constructor |].
  intros x y Hx [<-|[]]. rewrite List.Forall_forall in Ha. apply Ha.
  now apply in_rev.
Qed.

Lemma sorted_reverse_descending l :
  all_comparable key comparable l -> StronglySorted descending (sorted true l).
Proof using Hasym Hnegtrans.
  intros Hl. unfold sorted.
  apply (StronglySorted_rev ascending), sort_ascending_sorted.
  eapply Permutation_Forall; [apply Permutation_rev | exact Hl].
Qed.

(** Stability: the elements whose key equals [k] come out in the order
    they went in. *)
Variable eqk : K -> K -> bool.
Hypothesis Heq_lt :
  forall x y k, eqk x k = true -> eqk y k = true -> lt x y = false.

Lemma insert_stable k x l : with_key key eqk k (insert x l) = with_key key eqk k (x :: l).
Proof using Heq_lt.
  unfold with_key. induction l as [|y l IH]; [reflexivity|].
  cbn [insert]. destruct (lt (key y) (key x)) eqn:Hlt; [|reflexivity].
  cbn [List.filter] in *. rewrite IH.
  destruct (eqk (key x) k) eqn:Hx, (eqk (key y) k) eqn:Hy; try reflexivity.
  rewrite (Heq_lt _ _ _ Hy Hx) in Hlt. discriminate.
Qed.

Lemma sort_ascending_stable k l : with_key key eqk k (sort_ascending l) = with_key key eqk k l.
Proof using Heq_lt.
  induction l as [|x l IH]; [reflexivity|].
  cbn [sort_ascending]. rewrite insert_stable.
  unfold with_key in *. cbn [List.filter]. now rewrite IH.
Qed.

Lemma with_key_rev k l : with_key key eqk k (rev l) = rev (with_key key eqk k l).
Proof.
  unfold with_key. induction l as [|x l IH]; [reflexivity|].
  cbn. rewrite List.filter_app, IH. cbn.
  destruct (eqk (key x) k); cbn; [reflexivity | apply app_nil_r].
Qed.

Lemma sorted_stable reverse k l : with_key key eqk k (sorted reverse l) = with_key key eqk k l.
Proof using Heq_lt.
  unfold sorted. destruct reverse; [|apply sort_ascending_stable].
  now rewrite with_key_rev, sort_ascending_stable, with_key_rev, rev_involutive.
Qed.

(** A descending list is determined by its elements of each key, taken in
    order: two stable descending sorts of a list agree. *)
Hypothesis Heq_refl : forall k, comparable k -> eqk k k = true.
Hypothesis Heq_sym : forall x y, eqk x y = eqk y x.
Hypothesis Htotal :
  forall x y, comparable x -> comparable y ->
    lt x y = false -> lt y x = false -> eqk x y = true.

Lemma with_key_head k a l1 l2 :
  with_key key eqk k l1 = a :: l2 -> In a l1 /\ eqk (key a) k = true.
Proof.
  unfold with_key. intros H.
  assert (Ha : In a (List.filter (fun a => eqk (key a) k) l1))
    by (rewrite H; now left).
  now apply List.filter_In in Ha.
Qed.

Lemma descending_stable_unique l1 : forall l2,
  all_comparable key comparable l1 -> all_comparable key comparable l2 ->
  StronglySorted descending l1 -> StronglySorted descending l2 ->
  (forall k, with_key key eqk k l1 = with_key key eqk k l2) ->
  l1 = l2.
Proof using Heq_refl Heq_sym Htotal.
  induction l1 as [|a l1 IH]; intros l2 Hc1 Hc2 Hs1 Hs2 Hk.
  - destruct l2 as [|b l2]; [reflexivity|]. exfalso.
    inversion Hc2 as [|? ? Hb _]; subst.
    specialize (Hk (key b)). unfold with_key in Hk. cbn in Hk.
    rewrite (Heq_refl _ Hb) in Hk. discriminate.
  - inversion Hc1 as [|? ? Ha Hc1']; subst.
    destruct l2 as [|b l2].
    { exfalso. specialize (Hk (key a)). unfold with_key in Hk. cbn in Hk.
      rewrite (Heq_refl _ Ha) in Hk. discriminate. }
    inversion Hc2 as [|? ? Hb Hc2']; subst.
    inversion Hs1 as [|? ? Hs1' Hfa]; subst.
    inversion Hs2 as [|? ? Hs2' Hfb]; subst.
    assert (Hab : a = b).
    { pose proof (Hk (key a)) as Hka. unfold with_key in Hka. cbn in Hka.
      rewrite (Heq_refl _ Ha) in Hka.
      destruct (eqk (key b) (key a)) eqn:Hba; [now injection Hka|].
      exfalso.
      symmetry in Hka. apply with_key_head in Hka as [Hin_a _].
      rewrite List.Forall_forall in Hfb. specialize (Hfb a Hin_a).
      pose proof (Hk (key b)) as Hkb. unfold with_key in Hkb. cbn in Hkb.
      rewrite (Heq_refl _ Hb) in Hkb. rewrite Heq_sym, Hba in Hkb.
      apply with_key_head in Hkb as [Hin_b _].
      rewrite List.Forall_forall in Hfa. specialize (Hfa b Hin_b).
      rewrite (Htotal (key b) (key a) Hb Ha Hfb Hfa) in Hba. discriminate. }
    subst b. f_equal. apply IH; auto.
    intros k. specialize (Hk k). unfold with_key in *. cbn in Hk.
    destruct (eqk (key a) k); [now injection Hk | exact Hk].
Qed.

End SortedFacts.

(** ** Arithmetic of [confidence * 100]

    The product of a confidence of the schema and 100 does not overflow:
    the rounding of [SFmul] ends on a zero or on a finite number. *)

Section Rounding.
Import PyFloat.

Lemma digits2_pos_size p : digits2_pos p = Pos.size p.
Proof. induction p as [p IH|p IH|]; cbn; now rewrite ?IH. Qed.

Lemma Zdigits2_log2 p : Zdigits2 (Zpos p) = Z.log2 (Zpos p) + 1.
Proof.
  cbn [Zdigits2]. rewrite digits2_pos_size.
  destruct p as [p|p|]; cbn; try reflexivity; lia.
Qed.

(** A non-negative number below [2^k] has at most [k] binary digits. *)
Lemma Zdigits2_bound z k : 0 <= k -> 0 <= z < 2 ^ k -> Zdigits2 z <= k.
Proof.
  intros Hk [Hz Hlt]. destruct z as [|p|p]; cbn [Zdigits2]; try lia.
  change (Zpos (digits2_pos p)) with (Zdigits2 (Zpos p)).
  rewrite Zdigits2_log2.
  assert (Z.log2 (Zpos p) < k) by (apply Z.log2_lt_pow2; lia). lia.
Qed.

Lemma digits_bound_lt p k : 0 <= k -> Zpos (digits2_pos p) <= k -> Zpos p < 2 ^ k.
Proof.
  intros Hk H. change (Zpos (digits2_pos p)) with (Zdigits2 (Zpos p)) in H.
  rewrite Zdigits2_log2 in H.
  destruct (Z.eq_dec k 0) as [->|Hk0].
  - pose proof (Z.log2_nonneg (Zpos p)). lia.
  - apply Z.log2_lt_pow2; lia.
Qed.

(** Shifting right keeps a non-negative mantissa non-negative and does
    not make it larger. *)
Lemma shr_1_bound mrs : 0 <= shr_m mrs -> 0 <= shr_m (shr_1 mrs) <= shr_m mrs.
Proof.
  destruct mrs as [m r s]. cbn [shr_m]. intros Hm.
  destruct m as [|[p|p|]|p]; cbn; lia.
Qed.

Lemma iter_shr_1_bound p : forall mrs,
  0 <= shr_m mrs -> 0 <= shr_m (SpecFloat.iter_pos shr_1 p mrs) <= shr_m mrs.
Proof.
  induction p as [p IH|p IH|]; intros mrs Hm; cbn [SpecFloat.iter_pos].
  - pose proof (shr_1_bound mrs Hm) as H1.
    pose proof (IH _ (proj1 H1)) as H2.
    pose proof (IH _ (proj1 H2)) as H3. lia.
  - pose proof (IH _ Hm) as H2.
    pose proof (IH _ (proj1 H2)) as H3. lia.
  - now apply shr_1_bound.
Qed.

Lemma shr_fexp_bound m e l mrs e' :
  0 <= m -> shr_fexp prec emax m e l = (mrs, e') ->
  0 <= shr_m mrs <= m /\ e' = Z.max e (fexp prec emax (Zdigits2 m + e)).
Proof.
  intros Hm. unfold shr_fexp, shr.
  assert (Hrec : shr_m (shr_record_of_loc m l) = m)
    by (destruct l as [|[]]; reflexivity).
  destruct (fexp prec emax (Zdigits2 m + e) - e) as [|p|p] eqn:Hn;
    intros [= <- <-].
  - rewrite Hrec. lia.
  - pose proof (iter_shr_1_bound p (shr_record_of_loc m l)) as H.
    rewrite Hrec in H. specialize (H Hm). lia.
  - rewrite Hrec. lia.
Qed.

Lemma round_nearest_even_bound m l :
  m <= round_nearest_even m l <= m + 1.
Proof.
  destruct l as [|[]]; cbn; try lia. destruct (Z.even m); lia.
Qed.

(** Rounding a non-negative mantissa of at most [k] digits: the result
    is a zero or a finite number of the same sign, as long as the
    exponent stays well below [emax]. *)
Lemma binary_round_aux_finite s m e k :
  0 <= k <= emax -> 0 <= m < 2 ^ k -> e + 2 * k + prec <= emax ->
  binary_round_aux prec emax s m e loc_Exact = S754_zero s \/
  exists m' e', binary_round_aux prec emax s m e loc_Exact = S754_finite s m' e'.
Proof.
  intros Hk Hm He. unfold binary_round_aux.
  destruct (shr_fexp prec emax m e loc_Exact) as [mrs1 e1] eqn:H1.
  apply shr_fexp_bound in H1 as [Hm1 He1]; [|lia].
  set (m2 := round_nearest_even (shr_m mrs1) (loc_of_shr_record mrs1)).
  pose proof (round_nearest_even_bound (shr_m mrs1) (loc_of_shr_record mrs1)) as Hm2.
  fold m2 in Hm2.
  destruct (shr_fexp prec emax m2 e1 loc_Exact) as [mrs2 e2] eqn:H2.
  apply shr_fexp_bound in H2 as [Hm3 He2]; [|lia].
  destruct (shr_m mrs2) as [|p|p] eqn:Hp; [now left| |lia].
  right. exists p, e2.
  assert (Hd1 : Zdigits2 m <= k) by (apply Zdigits2_bound; lia).
  assert (Hd2 : Zdigits2 m2 <= k + 1).
  { apply Zdigits2_bound; [lia|]. rewrite Z.pow_add_r by lia.
    change (2 ^ 1) with 2. lia. }
  unfold fexp, emin, prec, emax in *.
  destruct (Z.leb_spec e2 (1024 - 53)); [reflexivity | lia].
Qed.

End Rounding.

Section ConfidencePct.
Import PyFloat.

(** A confidence the schema accepts is a zero or a positive finite
    number with exponent at most -52 and a mantissa below 2^53. *)
Lemma confidence_in_range_cases c :
  is_float c -> confidence_in_range c = true ->
  (exists s, c = S754_zero s) \/
  (exists m e, c = S754_finite false m e /\ e <= -52 /\ Zpos m < 2 ^ 53).
Proof.
  unfold is_float, confidence_in_range, ge, le, SFleb.
  intros Hf Hr. apply andb_true_iff in Hr as [H0 H1].
  destruct c as [s|s| |s m e].
  - left. now exists s.
  - cbn in H0, H1. destruct s; discriminate.
  - discriminate.
  - right. exists m, e. cbn in H0. destruct s; [discriminate|].
    cbn [SFcompare one] in H1.
    split; [reflexivity|].
    cbn in Hf. unfold bounded, canonical_mantissa in Hf.
    apply andb_true_iff in Hf as [Hc _]. apply Z.eqb_eq in Hc.
    split.
    + destruct (Z.compare_spec e (-52)); [lia | lia | discriminate].
    + apply digits_bound_lt; [lia|].
      unfold fexp, emin, prec, emax in Hc. lia.
Qed.

Lemma mul_hundred_finite c :
  is_float c -> confidence_in_range c = true ->
  (exists s, mul c hundred = S754_zero s) \/
  (exists m e, mul c hundred = S754_finite false m e).
Proof.
  intros Hf Hr.
  destruct (confidence_in_range_cases c Hf Hr) as [[s ->]|(m & e & -> & He & Hm)].
  - left. exists (xorb s false). reflexivity.
  - unfold mul, hundred. cbn [SFmul xorb].
    destruct (binary_round_aux_finite false
                (Zpos (m * 7036874417766400)) (e + -46) 106) as [H|H].
    + unfold emax. lia.
    + rewrite Pos2Z.inj_mul.
      assert (2 ^ 106 = 2 ^ 53 * 2 ^ 53) as -> by reflexivity.
      assert (7036874417766400 < 2 ^ 53) by reflexivity. nia.
    + unfold prec, emax. lia.
    + left. now exists false.
    + right. exact H.
Qed.

(** What [int] returns on a zero or a positive finite float is the
    floor of the number. *)
Lemma int_of_float_floor m e :
  exists p, int_of_float (S754_finite false m e) = Ok p /\
    0 <= p /\
    (inject_Z p <= to_Q (S754_finite false m e))%Q /\
    (to_Q (S754_finite false m e) < inject_Z (p + 1))%Q.
Proof.
  cbn [int_of_float to_Q]. eexists; split; [reflexivity|].
  destruct (Z.leb_spec 0 e) as [He|He].
  - rewrite Z.shiftl_mul_pow2 by lia.
    split; [apply Z.mul_nonneg_nonneg; [lia | apply Z.pow_nonneg; lia]|].
    split; [apply Qle_refl|]. rewrite <- Zlt_Qlt. lia.
  - rewrite Z.shiftl_div_pow2 by lia.
    assert (Hd : Zpos (2 ^ Z.to_pos (- e)) = 2 ^ (- e)).
    { rewrite Pos2Z.inj_pow, Z2Pos.id by lia. reflexivity. }
    assert (Hpos : 0 < 2 ^ (- e)) by (apply Z.pow_pos_nonneg; lia).
    split; [apply Z.div_pos; lia|].
    unfold Qle, Qlt. cbn [Qnum Qden inject_Z]. rewrite Hd.
    pose proof (Z.mul_div_le (Zpos m) (2 ^ (- e)) Hpos).
    pose proof (Z.mul_succ_div_gt (Zpos m) (2 ^ (- e)) Hpos).
    lia.
Qed.

(** On a [Detection] of the schema, [int(confidence * 100)] returns, and
    returns the floor of the product. *)
Lemma confidence_pct_valid d :
  valid_detection d ->
  exists p, confidence_pct d = Ok p /\
    0 <= p /\
    (inject_Z p <= to_Q (mul (confidence d) hundred))%Q /\
    (to_Q (mul (confidence d) hundred) < inject_Z (p + 1))%Q.
Proof.
  intros [Hf Hr]. unfold confidence_pct.
  destruct (mul_hundred_finite _ Hf Hr) as [[s ->]|(m & e & ->)].
  - exists 0. cbn. repeat split; try lia; try discriminate.
  - apply int_of_float_floor.
Qed.

End ConfidencePct.

(** ** [clean_detections] *)

Section CleanDetections.

Lemma float_lt_negtrans a b c :
  not_nan a -> not_nan b -> not_nan c ->
  PyFloat.lt c b = false -> PyFloat.lt b a = false -> PyFloat.lt c a = false.
Proof.
  intros Ha Hb Hc H1 H2. apply PyFloatOrder.le_lt_false.
  apply (PyFloatOrder.le_trans _ b); now apply PyFloatOrder.lt_false_le.
Qed.

(** No detection that passes the filter has a NaN confidence. *)
Lemma kept_comparable t L : all_comparable confidence not_nan (kept t L).
Proof.
  unfold all_comparable, kept. rewrite List.Forall_forall. intros d Hd.
  apply List.filter_In in Hd as [_ Hd]. now apply PyFloatOrder.le_not_nan in Hd.
Qed.

Lemma StronglySorted_weaken {A} (P : A -> Prop) (R R' : A -> A -> Prop) l :
  (forall a b, P a -> P b -> R a b -> R' a b) ->
  Forall P l -> StronglySorted R l -> StronglySorted R' l.
Proof.
  intros HR HP Hs. induction Hs as [|a l Hs IH Ha]; [constructor|].
  inversion HP as [|? ? Hpa HP']; subst. constructor; [now apply IH|].
  rewrite List.Forall_forall in Ha, HP' |- *. intros b Hb.
  apply HR; auto.
Qed.

Lemma ranked_perm fs : Permutation (ranked fs) fs.
Proof. apply sorted_perm. Qed.

Lemma ranked_descending t L :
  StronglySorted (fun a b => PyFloat.ge (confidence a) (confidence b) = true)
                 (ranked (kept t L)).
Proof.
  apply (StronglySorted_weaken (fun d => not_nan (confidence d))
                               (descending confidence PyFloat.lt)).
  - intros a b Ha Hb Hab. unfold descending in Hab.
    now apply PyFloatOrder.lt_false_le.
  - eapply Permutation_Forall; [symmetry; apply ranked_perm|].
    apply kept_comparable.
  - apply (sorted_reverse_descending confidence PyFloat.lt not_nan).
    + apply PyFloatOrder.lt_asym.
    + apply float_lt_negtrans.
    + apply kept_comparable.
Qed.

Lemma ranked_stable c fs :
  List.filter (fun d => PyFloat.eq (confidence d) c) (ranked fs)
  = List.filter (fun d => PyFloat.eq (confidence d) c) fs.
Proof.
  apply (sorted_stable confidence PyFloat.lt PyFloat.eq).
  intros x y k. apply PyFloatOrder.eq_eq_lt_false.
Qed.

(** The three properties determine the list [clean_detections] returns:
    any stable sort in the place of [sorted] gives the same list. *)
Lemma ranked_unique t L out :
  Permutation out (kept t L) ->
  StronglySorted (fun a b => PyFloat.ge (confidence a) (confidence b) = true) out ->
  (forall c, List.filter (fun d => PyFloat.eq (confidence d) c) out
             = List.filter (fun d => PyFloat.eq (confidence d) c) (kept t L)) ->
  out = ranked (kept t L).
Proof.
  intros Hperm Hsorted Hstable.
  assert (Hc : all_comparable confidence not_nan out).
  { eapply Permutation_Forall; [symmetry; exact Hperm | apply kept_comparable]. }
  apply (descending_stable_unique confidence PyFloat.lt not_nan PyFloat.eq).
  - apply PyFloatOrder.eq_reflexive.
  - apply PyFloatOrder.eq_symmetric.
  - apply PyFloatOrder.lt_false_eq.
  - exact Hc.
  - eapply Permutation_Forall; [symmetry; apply ranked_perm | apply kept_comparable].
  - apply (StronglySorted_weaken (fun d => not_nan (confidence d))
             (fun a b => PyFloat.ge (confidence a) (confidence b) = true));
      [|exact Hc | exact Hsorted].
    intros a b _ _ Hab. now apply PyFloatOrder.le_lt_false.
  - apply (sorted_reverse_descending confidence PyFloat.lt not_nan).
    + apply PyFloatOrder.lt_asym.
    + apply float_lt_negtrans.
    + apply kept_comparable.
  - intros c. unfold with_key. rewrite Hstable. symmetry. apply ranked_stable.
Qed.

(** The run of [clean_detections] on a store that holds the list. *)
Lemma clean_detections_run w l L t :
  lists w !! l = Some L ->
  let l1 := fresh (dom (lists w)) in
  let m1 := <[l1 := kept t L]> (lists w) in
  let l2 := fresh (dom m1) in
  clean_detections l t w =
    (Ok l2,
     {| lists := <[l2 := ranked (kept t L)]> m1;
        objects := objects w;
        log := log w ++ ["Cleaned " +:+ PyStr.of_nat (length L) +:+ " -> "
                          +:+ PyStr.of_nat (length (ranked (kept t L)))
                          +:+ " detections"] |}).
Proof.
  intros HL l1 m1 l2.
  assert (Hl1 : l <> l1).
  { intros Heq. apply (is_fresh (dom (lists w))). fold l1. rewrite <- Heq.
    apply elem_of_dom. rewrite HL. eauto. }
  assert (Hl2 : l <> l2).
  { intros Heq. apply (is_fresh (dom m1)). fold l2. rewrite <- Heq.
    apply elem_of_dom. subst m1.
    rewrite lookup_insert_ne by congruence. rewrite HL. eauto. }
  unfold clean_detections, bind, read_list, new_list, logger_debug, ret.
  cbn [lists objects log]. rewrite HL. cbn [lists objects log].
  fold l1. rewrite lookup_insert_eq. cbn [lists objects log].
  fold (kept t L) m1 l2.
  rewrite (lookup_insert_ne _ l2 l) by congruence.
  subst m1. rewrite (lookup_insert_ne _ l1 l) by congruence.
  rewrite HL. cbn [lists objects log].
  rewrite lookup_insert_eq. reflexivity.
Qed.

End CleanDetections.

(** C1.  [clean_detections] on a list object holding [L], with floor [t],
  returns a new list object which holds exactly the elements of [L] whose
  confidence is [>= t] (a permutation of them), in descending order of
  confidence, the elements of each confidence in the order they have in
  [L]; the list object it was given still holds [L], no other list object
  and no [Detection] object of the store is changed. *)
Theorem clean_detections_filters_and_ranks :
forall (w : world) (l : loc) (L : list Detection) (t : spec_float),
  lists w !! l = Some L ->
  exists (r : loc) (w' : world) (out : list Detection),
    clean_detections l t w = (Ok r, w') /\
    lists w' !! r = Some out /\
    Permutation out (List.filter (fun d => PyFloat.ge (confidence d) t) L) /\
    StronglySorted
      (fun a b => PyFloat.ge (confidence a) (confidence b) = true) out /\
    (forall c,
        List.filter (fun d => PyFloat.eq (confidence d) c) out
        = List.filter (fun d => PyFloat.eq (confidence d) c)
            (List.filter (fun d => PyFloat.ge (confidence d) t) L)) /\
    r <> l /\
    lists w' !! l = Some L /\
    (forall l', is_Some (lists w !! l') -> lists w' !! l' = lists w !! l') /\
    objects w' = objects w.
Proof.
intros w l L t HL.
pose proof (clean_detections_run w l L t HL) as Hrun. cbn zeta in Hrun.
set (l1 := fresh (dom (lists w))) in *.
set (m1 := <[l1 := kept t L]> (lists w)) in *.
set (l2 := fresh (dom m1)) in *.
assert (Hfresh1 : forall l', is_Some (lists w !! l') -> l' <> l1).
{ intros l' Hl' ->. apply (is_fresh (dom (lists w))).
  now apply elem_of_dom. }
assert (Hfresh2 : forall l', is_Some (lists w !! l') -> l' <> l2).
{ intros l' Hl' ->. apply (is_fresh (dom m1)).
  apply elem_of_dom. subst m1. rewrite lookup_insert_ne; [exact Hl'|].
  intros Heq. now apply (Hfresh1 _ Hl'). }
assert (Hkeep : forall l', is_Some (lists w !! l') ->
                  <[l2 := ranked (kept t L)]> m1 !! l' = lists w !! l').
{ intros l' Hl'. rewrite lookup_insert_ne.
  - subst m1. rewrite lookup_insert_ne; [reflexivity|].
    intros Heq. now apply (Hfresh1 _ Hl').
  - intros Heq. now apply (Hfresh2 _ Hl'). }
assert (HlS : is_Some (lists w !! l)) by (rewrite HL; eauto).
eexists l2, _, (ranked (kept t L)). split; [exact Hrun|].
cbn [lists objects].
split; [apply lookup_insert_eq|].
split; [apply ranked_perm|].
split; [apply ranked_descending|].
split; [intros c; apply ranked_stable|].
split; [intros Heq; now apply (Hfresh2 _ HlS)|].
split; [rewrite Hkeep by exact HlS; exact HL|].
split; [exact Hkeep | reflexivity].
Qed.

Example clean_detections_sample :
  exists r w',
    clean_detections 1%positive c_0_5 sample_world = (Ok r, w') /\
    lists w' !! r = Some [sample "b" c_0_92; sample "a" c_0_5; sample "c" c_0_5] /\
    log w' = ["Cleaned 4 -> 3 detections"].
Proof. eexists _, _. split; [reflexivity|]. split; vm_compute; reflexivity. Qed.

Lemma clean_detections_filters_and_ranks_witness :
  lists sample_world !! 1%positive = Some sample_list /\
  exists (r : loc) (w' : world) (out : list Detection),
    clean_detections 1%positive c_0_5 sample_world = (Ok r, w') /\
    lists w' !! r = Some out /\
    Permutation out
      (List.filter (fun d => PyFloat.ge (confidence d) c_0_5) sample_list) /\
    StronglySorted
      (fun a b => PyFloat.ge (confidence a) (confidence b) = true) out /\
    (forall c,
        List.filter (fun d => PyFloat.eq (confidence d) c) out
        = List.filter (fun d => PyFloat.eq (confidence d) c)
            (List.filter (fun d => PyFloat.ge (confidence d) c_0_5) sample_list)) /\
    r <> 1%positive /\
    lists w' !! 1%positive = Some sample_list /\
    (forall l', is_Some (lists sample_world !! l') ->
                lists w' !! l' = lists sample_world !! l') /\
    objects w' = objects sample_world.
Proof.
  split; [vm_compute; reflexivity|].
  apply (clean_detections_filters_and_ranks sample_world 1%positive sample_list c_0_5).
  vm_compute; reflexivity.
Defined.

(** ** [build_summary] and [format_detection_label] *)

Section Summary.

(** The description the loop builds and the label are the renderings of
    one selection of parts. *)
Lemma item_desc_spec d : item_desc d = spec_description d.
Proof.
  unfold item_desc, spec_description, select_parts, spec_name, present.
  destruct (brand d) as [[|? ?]|], (product_name d) as [[|? ?]|],
    (class_name d) as [|? ?], (quantity_text d) as [[|? ?]|]; reflexivity.
Qed.

Lemma format_detection_label_spec d : format_detection_label d = spec_label d.
Proof.
  unfold format_detection_label, spec_label, select_parts, spec_name, present.
  destruct (brand d) as [[|? ?]|], (product_name d) as [[|? ?]|],
    (class_name d) as [|? ?], (quantity_text d) as [[|? ?]|]; reflexivity.
Qed.

Lemma summary_loop_spec L : forall i acc pcts,
  pcts_of L pcts ->
  summary_loop i L acc = Ok (acc ++ spec_sentences i L pcts)%list.
Proof.
  induction L as [|d L IH]; intros i acc pcts H; inversion H; subst.
  - cbn. now rewrite app_nil_r.
  - cbn [summary_loop spec_sentences].
    match goal with Hp : confidence_pct d = _ |- _ => rewrite Hp end.
    erewrite IH by eassumption.
    rewrite <- app_assoc. unfold item_sentence. now rewrite item_desc_spec.
Qed.

Lemma build_summary_shape L w pcts :
  L <> [] -> pcts_of L pcts ->
  build_summary L w
  = (Ok (spec_summary L pcts), logged w ("Built summary: " +:+ spec_summary L pcts)).
Proof.
  intros Hne Hp. destruct L as [|d L]; [congruence|].
  unfold build_summary, bind, lift.
  rewrite (summary_loop_spec _ _ _ pcts Hp). reflexivity.
Qed.

(** On detections of the schema every percentage exists and is the floor
    of [confidence * 100]. *)
Lemma valid_pcts L :
  Forall valid_detection L ->
  exists pcts, pcts_of L pcts /\
    Forall2 (fun d p => floor_of (PyFloat.mul (confidence d) PyFloat.hundred) p) L pcts.
Proof.
  induction 1 as [|d L Hd HL (pcts & IH1 & IH2)].
  - exists []. split; constructor.
  - destruct (confidence_pct_valid d Hd) as (p & Hp & _ & Hlo & Hhi).
    exists (p :: pcts). split; constructor; auto. now split.
Qed.

(** When [int] raises on a detection, so does the loop, whatever the
    store. *)
Lemma build_summary_fst L w1 w2 :
  fst (build_summary L w1) = fst (build_summary L w2).
Proof.
  destruct L as [|d L]; [reflexivity|].
  unfold build_summary, bind, lift.
  destruct (summary_loop _ _ _); reflexivity.
Qed.

End Summary.

(** ** Nice names *)

Section NiceNames.









(** A nice name is determined by the class name. *)
Lemma nice_name_unique src out1 out2 :
  nice_name_of src out1 -> nice_name_of src out2 -> out1 = out2.
Proof.
  intros [Hl1 H1] [Hl2 H2].
  assert (Hget : forall i, String.get i out1 = String.get i out2).
  { intros i. destruct (String.get i src) as [c|] eqn:Hc.
    - now rewrite (H1 i c Hc), (H2 i c Hc).
    - assert (Hi : (String.length src <= i)%nat).
      { destruct (Nat.le_gt_cases (String.length src) i) as [H|H]; [exact H|].
        exfalso. revert i Hc H. clear. induction src as [|a src IH]; intros [|i] Hc H;
          cbn in *; try lia; try discriminate. apply (IH i Hc). lia. }
      assert (Hnone : forall s i, (String.length s <= i)%nat -> String.get i s = None).
      { clear. induction s as [|a s IH]; intros [|i] H; cbn in *;
          try reflexivity; try lia. apply IH. lia. }
      rewrite !Hnone by lia. reflexivity. }
  clear - Hget. revert out2 Hget.
  induction out1 as [|a out1 IH]; intros [|b out2] Hget.
  - reflexivity.
  - specialize (Hget O). discriminate.
  - specialize (Hget O). discriminate.
  - pose proof (Hget O) as H0. cbn in H0. injection H0 as ->. f_equal.
    apply IH. intros i. exact (Hget (S i)).
Qed.


End NiceNames.

(** ** Where [build_summary] returns *)

Section TotalityFacts.
Import PyFloat.

Lemma confidence_pct_finite d :
  is_finite (mul (confidence d) hundred) = true ->
  exists p, confidence_pct d = Ok p.
Proof.
  unfold confidence_pct. destruct (mul (confidence d) hundred);
    intros H; try discriminate; cbn; eauto.
Qed.

Lemma confidence_pct_not_finite d :
  is_finite (mul (confidence d) hundred) = false ->
  exists e, confidence_pct d = Raise e /\ (e = ValueError \/ e = OverflowError).
Proof.
  unfold confidence_pct. destruct (mul (confidence d) hundred);
    intros H; try discriminate; cbn; eauto.
Qed.

Lemma finite_pcts L :
  Forall (fun d => is_finite (mul (confidence d) hundred) = true) L ->
  exists pcts, pcts_of L pcts.
Proof.
  induction 1 as [|d L Hd _ [pcts IH]].
  - exists []. constructor.
  - destruct (confidence_pct_finite d Hd) as [p Hp].
    exists (p :: pcts). now constructor.
Qed.

Lemma summary_loop_raises L : forall i acc,
  Exists (fun d => is_finite (mul (confidence d) hundred) = false) L ->
  exists e, summary_loop i L acc = Raise e /\ (e = ValueError \/ e = OverflowError).
Proof.
  induction L as [|d L IH]; intros i acc Hex; [inversion Hex|].
  cbn [summary_loop].
  destruct (is_finite (mul (confidence d) hundred)) eqn:Hd.
  - destruct (confidence_pct_finite d Hd) as [p ->].
    apply IH. inversion Hex as [? ? H|? ? H]; subst; [congruence | exact H].
  - destruct (confidence_pct_not_finite d Hd) as (e & -> & He). eauto.
Qed.

(** The product of 100.0 and a float of magnitude below 2^858 is finite. *)
Lemma mul_hundred_is_finite c :
  is_float c -> below_2_858 c = true -> is_finite (mul c hundred) = true.
Proof.
  intros Hf Hb. destruct c as [s|s| |s m e]; try discriminate; [reflexivity|].
  cbn [below_2_858] in Hb. apply Z.leb_le in Hb.
  unfold is_float in Hf. cbn in Hf. unfold bounded, canonical_mantissa in Hf.
  apply andb_true_iff in Hf as [Hc _]. apply Z.eqb_eq in Hc.
  assert (Hm : Zpos m < 2 ^ 53).
  { apply digits_bound_lt; [lia|]. unfold fexp, emin, prec, emax in Hc. lia. }
  clear Hc. unfold mul, hundred. cbn [SFmul].
  destruct (binary_round_aux_finite (xorb s false)
              (Zpos (m * 7036874417766400)) (e + -46) 106) as [H|(m' & e' & H)];
    try (rewrite H; reflexivity).
  - unfold emax. lia.
  - rewrite Pos2Z.inj_mul.
    assert (2 ^ 106 = 2 ^ 53 * 2 ^ 53) as -> by reflexivity.
    assert (7036874417766400 < 2 ^ 53) by reflexivity. nia.
  - unfold prec, emax. lia.
Qed.

End TotalityFacts.

(** C5.  [build_summary] of the empty list returns exactly
    "No products detected." (and leaves the store as it is). *)
Theorem build_summary_empty :
  forall w : world, build_summary [] w = (Ok "No products detected.", w).
Proof. intros w. reflexivity. Qed.

(** C6.  On a non-empty list of [N] detections of the schema,
    [build_summary] returns the header "Detected N item." with an "s"
    after "item" exactly when [N > 1], followed by one sentence per
    detection, in the order of the list and numbered from 1, all joined
    by single spaces; the percentages in the sentences are those [int]
    returns.  The summary of two items starts "Detected 2 items." and
    goes on with "Item 1: ..." and "Item 2: ...". *)
Theorem build_summary_header_and_sentences :
  (forall (L : list Detection) (w : world),
      L <> [] -> Forall valid_detection L ->
      exists (pcts : list Z) (w' : world),
        Forall2 (fun d p => confidence_pct d = Ok p) L pcts /\
        build_summary L w
        = (Ok (PyStr.join " "
                 (("Detected " +:+ PyStr.of_nat (length L) +:+ " item"
                   +:+ (if (1 <? length L)%nat then "s" else "") +:+ ".")
                  :: spec_sentences 1 L pcts)), w')) /\
  (forall w : world,
      fst (build_summary [amul_milk; sample "b" c_0_5] w)
      = Ok ("Detected 2 items. "
            +:+ "Item 1: Amul Full Cream Milk 500ml. Confidence 92 percent. "
            +:+ "Item 2: Biscuit Pack. Confidence 50 percent.")).
Proof.
  split.
  - intros L w Hne HL.
    destruct (valid_pcts L HL) as (pcts & Hp & _).
    exists pcts, (logged w ("Built summary: " +:+ spec_summary L pcts)).
    split; [exact Hp|]. now apply build_summary_shape.
  - intros w. rewrite (build_summary_fst _ w empty_world). reflexivity.
Qed.

Lemma build_summary_header_and_sentences_witness :
  [amul_milk] <> [] /\ Forall valid_detection [amul_milk] /\
  exists (pcts : list Z) (w' : world),
    Forall2 (fun d p => confidence_pct d = Ok p) [amul_milk] pcts /\
    build_summary [amul_milk] empty_world
    = (Ok (PyStr.join " "
             (("Detected " +:+ PyStr.of_nat (length [amul_milk]) +:+ " item"
               +:+ (if (1 <? length [amul_milk])%nat then "s" else "") +:+ ".")
              :: spec_sentences 1 [amul_milk] pcts)), w').
Proof.
  assert (Hv : Forall valid_detection [amul_milk]).
  { repeat constructor; vm_compute; reflexivity. }
  split; [discriminate|]. split; [exact Hv|].
  apply (proj1 build_summary_header_and_sentences [amul_milk] empty_world);
    [discriminate | exact Hv].
Defined.



(** C4.  The percentage printed in the sentence of a detection is
    [int(confidence * 100)]: the integer part of the product, not the
    nearest integer.  For the confidence 0.929 the product is above 92.5
    and the sentence says 92. *)
Theorem build_summary_percentage_truncates :
  (forall (L : list Detection) (w : world),
      L <> [] -> Forall valid_detection L ->
      exists (pcts : list Z) (w' : world),
        build_summary L w = (Ok (spec_summary L pcts), w') /\
        Forall2 (fun d p =>
                   confidence_pct d = Ok p /\
                   (inject_Z p <= PyFloat.to_Q (PyFloat.mul (confidence d) PyFloat.hundred))%Q /\
                   (PyFloat.to_Q (PyFloat.mul (confidence d) PyFloat.hundred) < inject_Z (p + 1))%Q)
                L pcts) /\
  (confidence_pct (sample "a" c_0_929) = Ok 92 /\
   (inject_Z 92 + (1 # 2) < PyFloat.to_Q (PyFloat.mul c_0_929 PyFloat.hundred))%Q /\
   forall w : world,
     fst (build_summary [sample "a" c_0_929] w)
     = Ok "Detected 1 item. Item 1: Biscuit Pack. Confidence 92 percent.").
Proof.
  split.
  - intros L w Hne HL.
    destruct (valid_pcts L HL) as (pcts & Hp & Hfl).
    exists pcts, (logged w ("Built summary: " +:+ spec_summary L pcts)).
    split; [now apply build_summary_shape|].
    clear Hne HL. unfold pcts_of in Hp.
    induction Hp as [|d p L pcts Hd Hp IH]; inversion Hfl; subst; constructor.
    + split; [exact Hd|]. assumption.
    + now apply IH.
  - split; [reflexivity|]. split; [vm_compute; reflexivity|].
    intros w. rewrite (build_summary_fst _ w empty_world). reflexivity.
Qed.

Lemma build_summary_percentage_truncates_witness :
  [sample "a" c_0_929] <> [] /\ Forall valid_detection [sample "a" c_0_929] /\
  exists (pcts : list Z) (w' : world),
    build_summary [sample "a" c_0_929] empty_world
    = (Ok (spec_summary [sample "a" c_0_929] pcts), w') /\
    Forall2 (fun d p =>
               confidence_pct d = Ok p /\
               (inject_Z p <= PyFloat.to_Q (PyFloat.mul (confidence d) PyFloat.hundred))%Q /\
               (PyFloat.to_Q (PyFloat.mul (confidence d) PyFloat.hundred) < inject_Z (p + 1))%Q)
            [sample "a" c_0_929] pcts.
Proof.
  assert (Hv : Forall valid_detection [sample "a" c_0_929]).
  { repeat constructor; vm_compute; reflexivity. }
  split; [discriminate|]. split; [exact Hv|].
  apply (proj1 build_summary_percentage_truncates [sample "a" c_0_929] empty_world);
    [discriminate | exact Hv].
Defined.



(** ** Empty strings *)






(** ** [merge_ocr_with_detection] *)

(** The run of [merge_ocr_with_detection] on a store that holds the
    detection. *)
Lemma merge_ocr_with_detection_run w l d ocr :
  objects w !! l = Some d ->
  merge_ocr_with_detection l ocr w =
    if confidence_in_range (confidence d)
    then (Ok (fresh (dom (objects w))),
          {| lists := lists w;
             objects := <[fresh (dom (objects w)) := merged d ocr]> (objects w);
             log := log w |})
    else (Raise ValidationError, w).
Proof.
  intros Hd.
  unfold merge_ocr_with_detection, bind, read_object, new_Detection, new_object, raise.
  rewrite Hd. cbn [confidence].
  destruct (confidence_in_range (confidence d)); reflexivity.
Qed.

Lemma fresh_object_ne (w : world) l :
  is_Some (objects w !! l) -> l <> fresh (dom (objects w)).
Proof.
  intros Hl Heq. apply (is_fresh (dom (objects w))). rewrite <- Heq.
  now apply elem_of_dom.
Qed.

Lemma dict_get_None (ocr : gmap string (option string)) k :
  dict_get ocr k = None <-> ocr !! k = None \/ ocr !! k = Some None.
Proof.
  unfold dict_get. destruct (ocr !! k) as [[v|]|]; split; intros H;
    try discriminate; auto; destruct H; congruence.
Qed.

(** C2.  On a [Detection] object [d] of the schema and an OCR result,
    [merge_ocr_with_detection] returns a new [Detection] object whose id,
    bounding box, class name and confidence are those of [d] and whose four
    text fields are what the OCR result holds for them: a field the OCR
    result lacks, or holds as [None], is absent in the result whatever [d]
    had there.  The object [d] and every other object of the store stay as
    they were. *)
Theorem merge_ocr_with_detection_replaces_text :
  (forall (w : world) (l : loc) (d : Detection) (ocr : gmap string (option string)),
      objects w !! l = Some d ->
      confidence_in_range (confidence d) = true ->
      exists (r : loc) (w' : world) (d' : Detection),
        merge_ocr_with_detection l ocr w = (Ok r, w') /\
        objects w' !! r = Some d' /\
        id d' = id d /\ bbox d' = bbox d /\
        class_name d' = class_name d /\ confidence d' = confidence d /\
        brand d' = dict_get ocr "brand" /\
        product_name d' = dict_get ocr "product_name" /\
        quantity_text d' = dict_get ocr "quantity_text" /\
        raw_text d' = dict_get ocr "raw_text" /\
        r <> l /\
        objects w' !! l = Some d /\
        (forall l', is_Some (objects w !! l') -> objects w' !! l' = objects w !! l') /\
        lists w' = lists w) /\
  (forall (ocr : gmap string (option string)) (k : string),
      dict_get ocr k = None <-> ocr !! k = None \/ ocr !! k = Some None) /\
  (exists (r : loc) (w' : world),
      merge_ocr_with_detection 1%positive ocr_brand_only (world_with amul_milk)
      = (Ok r, w') /\
      objects w' !! r
      = Some {| id := "det-1"; bbox := []; class_name := "milk_pack";
                confidence := c_0_92;
                brand := Some "Britannia"; product_name := None;
                quantity_text := None; raw_text := Some "Brand: Britannia" |} /\
      objects w' !! 1%positive = Some amul_milk).
Proof.
  split; [|split].
  - intros w l d ocr Hd Hr.
    pose proof (merge_ocr_with_detection_run w l d ocr Hd) as Hrun.
    rewrite Hr in Hrun.
    assert (Hne : forall l', is_Some (objects w !! l') ->
                    l' <> fresh (dom (objects w))) by apply fresh_object_ne.
    assert (HlS : is_Some (objects w !! l)) by (rewrite Hd; eauto).
    eexists _, _, (merged d ocr). split; [exact Hrun|].
    cbn [lists objects].
    split; [apply lookup_insert_eq|].
    do 8 (split; [reflexivity|]).
    split; [intros Heq; now apply (Hne l HlS)|].
    split.
    { rewrite lookup_insert_ne; [exact Hd|]. intros Heq. now apply (Hne l HlS). }
    split; [|reflexivity].
    intros l' Hl'. rewrite lookup_insert_ne; [reflexivity|].
    intros Heq. now apply (Hne l' Hl').
  - apply dict_get_None.
  - eexists _, _. split; [reflexivity|]. split; vm_compute; reflexivity.
Qed.

Lemma merge_ocr_with_detection_replaces_text_witness :
  objects (world_with amul_milk) !! 1%positive = Some amul_milk /\
  confidence_in_range (confidence amul_milk) = true /\
  exists (r : loc) (w' : world) (d' : Detection),
    merge_ocr_with_detection 1%positive ocr_brand_only (world_with amul_milk)
    = (Ok r, w') /\
    objects w' !! r = Some d' /\
    id d' = id amul_milk /\ bbox d' = bbox amul_milk /\
    class_name d' = class_name amul_milk /\ confidence d' = confidence amul_milk /\
    brand d' = dict_get ocr_brand_only "brand" /\
    product_name d' = dict_get ocr_brand_only "product_name" /\
    quantity_text d' = dict_get ocr_brand_only "quantity_text" /\
    raw_text d' = dict_get ocr_brand_only "raw_text" /\
    r <> 1%positive /\
    objects w' !! 1%positive = Some amul_milk /\
    (forall l', is_Some (objects (world_with amul_milk) !! l') ->
                objects w' !! l' = objects (world_with amul_milk) !! l') /\
    lists w' = lists (world_with amul_milk).
Proof.
  split; [vm_compute; reflexivity|]. split; [vm_compute; reflexivity|].
  apply (proj1 merge_ocr_with_detection_replaces_text
           (world_with amul_milk) 1%positive amul_milk ocr_brand_only);
    vm_compute; reflexivity.
Defined.

(** ** Totality *)

(** Outside the schema the service does raise: building the merged
    [Detection] from one of confidence 1.5 fails the validation of the
    schema, and [int] raises on an infinite or NaN product. *)
Lemma fusion_raises_outside_schema :
  fst (merge_ocr_with_detection 1%positive ocr_brand_only
         (world_with (sample "a" c_1_5)))
  = Raise ValidationError /\
  fst (build_summary [sample "a" (S754_infinity false)] empty_world)
  = Raise OverflowError /\
  fst (build_summary [sample "a" S754_nan] empty_world) = Raise ValueError.
Proof. repeat split; vm_compute; reflexivity. Qed.

(** C8, amended.  [clean_detections] and [format_detection_label] do
    not raise for any confidence at all.  [merge_ocr_with_detection]
    builds a [Detection], which the schema validates: it returns when the
    confidence is within [0, 1] and raises the validation error of the
    schema when it is not.  [build_summary] returns exactly when the
    product of every confidence with 100.0 is a finite float, which is so
    for every confidence of magnitude below 2^858, inside [0, 1] or not
    (1.5 is spoken as "150 percent", -0.3 as "-30 percent"); when a
    product is infinite or NaN it raises the error of [int], an
    [OverflowError] or a [ValueError].  A detection with an empty class
    name and no text field is described as "Unknown product" and labelled
    "Unknown Product". *)
Theorem fusion_total_domain :
  (forall (w : world) (l : loc) (d : Detection) (ocr : gmap string (option string)),
      objects w !! l = Some d ->
      confidence_in_range (confidence d) = true ->
      exists (r : loc) (w' : world), merge_ocr_with_detection l ocr w = (Ok r, w')) /\
  (forall (w : world) (l : loc) (d : Detection) (ocr : gmap string (option string)),
      objects w !! l = Some d ->
      confidence_in_range (confidence d) = false ->
      merge_ocr_with_detection l ocr w = (Raise ValidationError, w)) /\
  (forall (w : world) (l : loc) (L : list Detection) (t : spec_float),
      lists w !! l = Some L ->
      exists (r : loc) (w' : world), clean_detections l t w = (Ok r, w')) /\
  (forall (w : world) (L : list Detection),
      Forall (fun d => is_finite (PyFloat.mul (confidence d) PyFloat.hundred) = true) L ->
      exists (s : string) (w' : world), build_summary L w = (Ok s, w')) /\
  (forall (w : world) (L : list Detection),
      Exists (fun d => is_finite (PyFloat.mul (confidence d) PyFloat.hundred) = false) L ->
      exists e : exn,
        build_summary L w = (Raise e, w) /\ (e = ValueError \/ e = OverflowError)) /\
  (forall c : spec_float,
      PyFloat.is_float c -> below_2_858 c = true ->
      is_finite (PyFloat.mul c PyFloat.hundred) = true) /\
  (forall w : world,
      fst (build_summary [sample "a" c_1_5] w)
      = Ok "Detected 1 item. Item 1: Biscuit Pack. Confidence 150 percent." /\
      fst (build_summary [sample "a" c_minus_0_3] w)
      = Ok "Detected 1 item. Item 1: Biscuit Pack. Confidence -30 percent.") /\
  (forall (d : Detection),
      class_name d = "" -> brand d = None -> product_name d = None ->
      quantity_text d = None ->
      item_desc d = "Unknown product" /\
      format_detection_label d = "Unknown Product").
Proof.
  split; [|split; [|split; [|split; [|split; [|split; [|split]]]]]].
  - intros w l d ocr Hd Hr. rewrite (merge_ocr_with_detection_run w l d ocr Hd), Hr.
    eauto.
  - intros w l d ocr Hd Hr. rewrite (merge_ocr_with_detection_run w l d ocr Hd), Hr.
    reflexivity.
  - intros w l L t HL. rewrite (clean_detections_run w l L t HL). eauto.
  - intros w L HL. destruct L as [|d L].
    + eexists _, _. reflexivity.
    + destruct (finite_pcts _ HL) as [pcts Hp].
      rewrite (build_summary_shape _ w pcts); [eauto | discriminate | exact Hp].
  - intros w L Hex. destruct L as [|d L]; [inversion Hex|].
    unfold build_summary, bind, lift.
    match goal with
    | |- context [summary_loop 1%nat (d :: L) ?acc] =>
        destruct (summary_loop_raises (d :: L) 1%nat acc Hex) as (e & -> & He)
    end.
    exists e. split; [reflexivity | exact He].
  - apply mul_hundred_is_finite.
  - intros w. rewrite !(build_summary_fst _ w empty_world). split; reflexivity.
  - intros d Hc Hb Hp Hq. unfold item_desc, format_detection_label.
    rewrite Hc, Hb, Hp, Hq. split; reflexivity.
Qed.

Lemma fusion_total_domain_witness :
  (objects (world_with amul_milk) !! 1%positive = Some amul_milk /\
   confidence_in_range (confidence amul_milk) = true /\
   exists (r : loc) (w' : world),
     merge_ocr_with_detection 1%positive ocr_brand_only (world_with amul_milk)
     = (Ok r, w')) /\
  (objects (world_with (sample "a" c_1_5)) !! 1%positive = Some (sample "a" c_1_5) /\
   confidence_in_range (confidence (sample "a" c_1_5)) = false /\
   merge_ocr_with_detection 1%positive ocr_brand_only (world_with (sample "a" c_1_5))
   = (Raise ValidationError, world_with (sample "a" c_1_5))) /\
  (lists sample_world !! 1%positive = Some sample_list /\
   exists (r : loc) (w' : world),
     clean_detections 1%positive c_0_5 sample_world = (Ok r, w')) /\
  (Forall (fun d => is_finite (PyFloat.mul (confidence d) PyFloat.hundred) = true)
          [amul_milk; sample "b" c_1_5; sample "c" c_minus_0_3] /\
   exists (s : string) (w' : world),
     build_summary [amul_milk; sample "b" c_1_5; sample "c" c_minus_0_3] empty_world
     = (Ok s, w')) /\
  (Exists (fun d => is_finite (PyFloat.mul (confidence d) PyFloat.hundred) = false)
          [amul_milk; sample "b" S754_nan] /\
   exists e : exn,
     build_summary [amul_milk; sample "b" S754_nan] empty_world
     = (Raise e, empty_world) /\ (e = ValueError \/ e = OverflowError)) /\
  (PyFloat.is_float c_1_5 /\ below_2_858 c_1_5 = true /\
   is_finite (PyFloat.mul c_1_5 PyFloat.hundred) = true) /\
  (class_name (no_parts c_1_5) = "" /\ brand (no_parts c_1_5) = None /\
   product_name (no_parts c_1_5) = None /\ quantity_text (no_parts c_1_5) = None /\
   item_desc (no_parts c_1_5) = "Unknown product" /\
   format_detection_label (no_parts c_1_5) = "Unknown Product").
Proof.
  destruct fusion_total_domain
    as (Hmerge & Hraise & Hclean & Hsum & Hfail & Hbelow & _ & Hunk).
  assert (Hv : Forall (fun d => is_finite (PyFloat.mul (confidence d) PyFloat.hundred)
                                = true)
                      [amul_milk; sample "b" c_1_5; sample "c" c_minus_0_3]).
  { repeat constructor; vm_compute; reflexivity. }
  assert (Hx : Exists (fun d => is_finite (PyFloat.mul (confidence d) PyFloat.hundred)
                                = false)
                      [amul_milk; sample "b" S754_nan]).
  { apply Exists_cons_tl. apply Exists_cons_hd. reflexivity. }
  split; [|split; [|split; [|split; [|split; [|split]]]]].
  - split; [vm_compute; reflexivity|]. split; [vm_compute; reflexivity|].
    apply (Hmerge (world_with amul_milk) 1%positive amul_milk); vm_compute; reflexivity.
  - split; [vm_compute; reflexivity|]. split; [vm_compute; reflexivity|].
    apply (Hraise (world_with (sample "a" c_1_5)) 1%positive (sample "a" c_1_5));
      vm_compute; reflexivity.
  - split; [vm_compute; reflexivity|].
    apply (Hclean sample_world 1%positive sample_list). vm_compute; reflexivity.
  - split; [exact Hv|]. apply Hsum. exact Hv.
  - split; [exact Hx|]. apply Hfail. exact Hx.
  - assert (Hf : PyFloat.is_float c_1_5) by (vm_compute; reflexivity).
    split; [exact Hf|]. split; [reflexivity|]. apply Hbelow; [exact Hf | reflexivity].
  - repeat (split; [reflexivity|]). apply Hunk; reflexivity.
Defined.

(** The sample confidences are the binary64 numbers the decimal literals
    denote (0.92 is 0x1.d70a3d70a3d71p-1 and 0.929 is 0x1.dba5e353f7ceep-1),
    and the product of the model is the product of the machine. *)
Module Literals.
Import PrimFloat.

Example sample_confidences_are_floats :
  Forall PyFloat.is_float
    [PyFloat.one; PyFloat.hundred; c_0_92; c_0_929; c_1_5; c_0_5; c_0_25].
Proof. repeat constructor. Qed.

Example sample_confidences_are_the_literals :
  FloatOps.Prim2SF 0x1.d70a3d70a3d71p-1%float = c_0_92 /\
  FloatOps.Prim2SF 0x1.dba5e353f7ceep-1%float = c_0_929 /\
  FloatOps.Prim2SF 100%float = PyFloat.hundred /\
  FloatOps.Prim2SF 1%float = PyFloat.one /\
  FloatOps.Prim2SF (0x1.dba5e353f7ceep-1 * 100)%float
  = PyFloat.mul c_0_929 PyFloat.hundred.
Proof. repeat split; vm_compute; reflexivity. Qed.

End Literals.

(** * Part III: further properties of the backend *)

(** ** [clean_detections], again *)

Lemma filter_all_true {A} (f : A -> bool) (l : list A) :
  (forall a, In a l -> f a = true) -> List.filter f l = l.
Proof.
  induction l as [|a l IH]; intros H; [reflexivity|].
  cbn. rewrite (H a) by (now left). f_equal. apply IH.
  intros b Hb. apply H. now right.
Qed.

Lemma ranked_In t L d :
  In d (ranked (kept t L)) -> In d L /\ PyFloat.ge (confidence d) t = true.
Proof.
  intros Hd. apply (Permutation_in _ (ranked_perm _)) in Hd.
  unfold kept in Hd. now apply List.filter_In in Hd.
Qed.

(** Cleaning what was cleaned, with the same floor or a lower one, changes
    nothing. *)
Lemma ranked_kept_again t1 t2 L :
  t2 = t1 \/ PyFloat.le t2 t1 = true ->
  ranked (kept t2 (ranked (kept t1 L))) = ranked (kept t1 L).
Proof.
  intros Ht.
  assert (Hk : kept t2 (ranked (kept t1 L)) = ranked (kept t1 L)).
  { apply filter_all_true. intros d Hd. apply ranked_In in Hd as [_ Hd].
    destruct Ht as [->|Ht]; [exact Hd|].
    unfold PyFloat.ge in *. now apply (PyFloatOrder.le_trans _ t1). }
  symmetry. apply ranked_unique.
  - now rewrite Hk.
  - apply ranked_descending.
  - intros c. now rewrite Hk.
Qed.

(** What a run of [clean_detections] returns. *)
Lemma clean_detections_returns w l L t :
  lists w !! l = Some L ->
  exists (r : loc) (w' : world),
    clean_detections l t w = (Ok r, w') /\
    lists w' !! r = Some (ranked (kept t L)).
Proof.
  intros HL. pose proof (clean_detections_run w l L t HL) as Hrun.
  cbn zeta in Hrun. eexists _, _. split; [exact Hrun|].
  cbn [lists]. apply lookup_insert_eq.
Qed.

(** X1.  Running [clean_detections] on the list it returned, with the
    same floor or with a lower one, returns a new list object with the
    same detections in the same order. *)
Theorem clean_detections_twice :
  forall (w : world) (l : loc) (L : list Detection) (t1 t2 : spec_float),
    lists w !! l = Some L ->
    t2 = t1 \/ PyFloat.le t2 t1 = true ->
    exists (r1 r2 : loc) (w1 w2 : world) (out : list Detection),
      clean_detections l t1 w = (Ok r1, w1) /\
      lists w1 !! r1 = Some out /\
      clean_detections r1 t2 w1 = (Ok r2, w2) /\
      lists w2 !! r2 = Some out /\
      lists w2 !! r1 = Some out /\
      r2 <> r1.
Proof.
  intros w l L t1 t2 HL Ht.
  destruct (clean_detections_returns w l L t1 HL)
    as (r1 & w1 & Hrun1 & Hr1).
  destruct (clean_detections_returns w1 r1 _ t2 Hr1)
    as (r2 & w2 & Hrun2 & Hr2).
  rewrite (ranked_kept_again t1 t2 L Ht) in Hr2.
  exists r1, r2, w1, w2, (ranked (kept t1 L)).
  repeat (split; [assumption|]).
  pose proof (clean_detections_run w1 r1 _ t2 Hr1) as Hrun. cbn zeta in Hrun.
  rewrite Hrun in Hrun2. injection Hrun2 as Hr Hw. subst r2 w2.
  cbn [lists] in *.
  set (l1 := fresh (dom (lists w1))) in *.
  set (m1 := <[l1 := kept t2 (ranked (kept t1 L))]> (lists w1)) in *.
  assert (Hne1 : r1 <> l1).
  { intros Heq. apply (is_fresh (dom (lists w1))). fold l1. rewrite <- Heq.
    apply elem_of_dom. rewrite Hr1. eauto. }
  assert (Hne2 : r1 <> fresh (dom m1)).
  { intros Heq. apply (is_fresh (dom m1)). rewrite <- Heq.
    apply elem_of_dom. subst m1. rewrite lookup_insert_ne by congruence.
    rewrite Hr1. eauto. }
  split; [|congruence].
  rewrite lookup_insert_ne by congruence. subst m1.
  rewrite lookup_insert_ne by congruence. exact Hr1.
Qed.

Lemma kept_nan_floor t L : PyFloat.is_nan t = true -> kept t L = [].
Proof.
  intros Ht. unfold kept. induction L as [|d L IH]; [reflexivity|].
  cbn. unfold PyFloat.ge, SFleb at 1.
  rewrite (PyFloatOrder.compare_nan_l t (confidence d) Ht). exact IH.
Qed.

(** X2.  The edges of [clean_detections]: the list it returns is never
    longer than the one it was given; a detection whose confidence is NaN
    is never in it; with a NaN floor it is empty; and with a floor of zero
    or below it holds every detection whose confidence the schema accepts. *)
Theorem clean_detections_edges :
  forall (w : world) (l : loc) (L : list Detection) (t : spec_float),
    lists w !! l = Some L ->
    exists (r : loc) (w' : world) (out : list Detection),
      clean_detections l t w = (Ok r, w') /\
      lists w' !! r = Some out /\
      (length out <= length L)%nat /\
      (forall d, In d out -> PyFloat.is_nan (confidence d) = false) /\
      (PyFloat.is_nan t = true -> out = []) /\
      (PyFloat.le t PyFloat.zero = true ->
       Forall (fun d => confidence_in_range (confidence d) = true) L ->
       Permutation out L).
Proof.
  intros w l L t HL.
  destruct (clean_detections_returns w l L t HL) as (r & w' & Hrun & Hr).
  exists r, w', (ranked (kept t L)). split; [exact Hrun|]. split; [exact Hr|].
  split; [|split; [|split]].
  - rewrite (Permutation_length (ranked_perm _)). apply List.filter_length_le.
  - intros d Hd. apply ranked_In in Hd as [_ Hd].
    now apply PyFloatOrder.le_not_nan in Hd.
  - intros Ht. now rewrite (kept_nan_floor t L Ht).
  - intros Ht HLr. rewrite ranked_perm.
    assert (Hk : kept t L = L); [|now rewrite Hk].
    apply filter_all_true. intros d Hd.
    rewrite List.Forall_forall in HLr. specialize (HLr d Hd).
    unfold confidence_in_range in HLr. apply andb_true_iff in HLr as [H0 _].
    unfold PyFloat.ge in *. now apply (PyFloatOrder.le_trans _ PyFloat.zero).
Qed.

Lemma clean_detections_edges_witness :
  lists sample_world !! 1%positive = Some sample_list /\
  PyFloat.is_nan S754_nan = true /\
  exists (r : loc) (w' : world),
    clean_detections 1%positive S754_nan sample_world = (Ok r, w') /\
    lists w' !! r = Some [].
Proof.
  split; [vm_compute; reflexivity|]. split; [reflexivity|].
  destruct (clean_detections_edges sample_world 1%positive sample_list S754_nan)
    as (r & w' & out & Hrun & Hr & _ & _ & Hnan & _); [vm_compute; reflexivity|].
  exists r, w'. split; [exact Hrun|]. now rewrite <- (Hnan eq_refl).
Defined.

Lemma clean_detections_twice_witness :
  lists sample_world !! 1%positive = Some sample_list /\
  (c_0_25 = c_0_5 \/ PyFloat.le c_0_25 c_0_5 = true) /\
  exists (r1 r2 : loc) (w1 w2 : world) (out : list Detection),
    clean_detections 1%positive c_0_5 sample_world = (Ok r1, w1) /\
    lists w1 !! r1 = Some out /\
    clean_detections r1 c_0_25 w1 = (Ok r2, w2) /\
    lists w2 !! r2 = Some out /\
    lists w2 !! r1 = Some out /\
    r2 <> r1.
Proof.
  split; [vm_compute; reflexivity|]. split; [right; vm_compute; reflexivity|].
  apply (clean_detections_twice sample_world 1%positive sample_list c_0_5 c_0_25);
    [vm_compute; reflexivity | right; vm_compute; reflexivity].
Defined.

(** ** [merge_ocr_with_detection], again *)

(** X3.  Merging is not cumulative: after a merge of one OCR result and a
    merge of a second one into the object the first merge returned, the
    last object holds the identity of the first detection and the text
    fields of the second OCR result only; the two earlier objects are
    what they were. *)
Theorem merge_ocr_with_detection_last_wins :
  forall (w : world) (l : loc) (d : Detection)
         (ocr1 ocr2 : gmap string (option string)),
    objects w !! l = Some d ->
    confidence_in_range (confidence d) = true ->
    exists (r1 r2 : loc) (w1 w2 : world),
      merge_ocr_with_detection l ocr1 w = (Ok r1, w1) /\
      merge_ocr_with_detection r1 ocr2 w1 = (Ok r2, w2) /\
      objects w2 !! r2 = Some (merged d ocr2) /\
      objects w2 !! r1 = Some (merged d ocr1) /\
      objects w2 !! l = Some d /\
      r1 <> l /\ r2 <> l /\ r2 <> r1.
Proof.
  intros w l d ocr1 ocr2 Hd Hr.
  pose proof (merge_ocr_with_detection_run w l d ocr1 Hd) as Hrun1.
  rewrite Hr in Hrun1.
  set (r1 := fresh (dom (objects w))) in *.
  set (w1 := {| lists := lists w;
                objects := <[r1 := merged d ocr1]> (objects w);
                log := log w |}) in *.
  assert (Hl1 : l <> r1) by (apply fresh_object_ne; rewrite Hd; eauto).
  assert (Hd1 : objects w1 !! r1 = Some (merged d ocr1)) by apply lookup_insert_eq.
  assert (Hdl : objects w1 !! l = Some d).
  { cbn [objects w1]. now rewrite lookup_insert_ne by congruence. }
  pose proof (merge_ocr_with_detection_run w1 r1 _ ocr2 Hd1) as Hrun2.
  change (confidence (merged d ocr1)) with (confidence d) in Hrun2.
  rewrite Hr in Hrun2.
  set (r2 := fresh (dom (objects w1))) in *.
  assert (Hl2 : l <> r2) by (apply fresh_object_ne; rewrite Hdl; eauto).
  assert (H12 : r1 <> r2) by (apply fresh_object_ne; rewrite Hd1; eauto).
  eexists r1, r2, w1, _. split; [exact Hrun1|]. split; [exact Hrun2|].
  cbn [objects].
  split; [apply lookup_insert_eq|].
  split; [now rewrite lookup_insert_ne by congruence|].
  split; [now rewrite lookup_insert_ne by congruence|].
  repeat split; congruence.
Qed.

Lemma merge_ocr_with_detection_last_wins_witness :
  objects (world_with amul_milk) !! 1%positive = Some amul_milk /\
  confidence_in_range (confidence amul_milk) = true /\
  exists (r1 r2 : loc) (w1 w2 : world),
    merge_ocr_with_detection 1%positive ocr_brand_only (world_with amul_milk)
    = (Ok r1, w1) /\
    merge_ocr_with_detection r1 ∅ w1 = (Ok r2, w2) /\
    objects w2 !! r2 = Some (merged amul_milk ∅) /\
    objects w2 !! r1 = Some (merged amul_milk ocr_brand_only) /\
    objects w2 !! 1%positive = Some amul_milk /\
    r1 <> 1%positive /\ r2 <> 1%positive /\ r2 <> r1.
Proof.
  split; [vm_compute; reflexivity|]. split; [vm_compute; reflexivity|].
  apply (merge_ocr_with_detection_last_wins (world_with amul_milk) 1%positive
           amul_milk ocr_brand_only ∅); vm_compute; reflexivity.
Defined.

(** ** Descriptions and labels, again *)

(** X4.  A description and a label are never the empty string, and the
    label of a detection without quantity text is its description, unless
    no part is present at all. *)
Theorem description_and_label_not_empty :
  forall d : Detection,
    item_desc d <> "" /\
    format_detection_label d <> "" /\
    (PyStr.truthy_opt (quantity_text d) = false ->
     item_desc d <> "Unknown product" ->
     format_detection_label d = item_desc d).
Proof.
  intros d. unfold item_desc, format_detection_label.
  destruct (brand d) as [[|? ?]|], (product_name d) as [[|? ?]|],
    (class_name d) as [|? ?], (quantity_text d) as [[|? ?]|]; cbn;
    repeat split; try discriminate; try reflexivity; try congruence.
Qed.

Lemma description_and_label_not_empty_witness :
  PyStr.truthy_opt (quantity_text (sample "a" c_0_5)) = false /\
  item_desc (sample "a" c_0_5) <> "Unknown product" /\
  format_detection_label (sample "a" c_0_5) = item_desc (sample "a" c_0_5).
Proof.
  split; [reflexivity|]. split; [discriminate|].
  apply (description_and_label_not_empty (sample "a" c_0_5));
    [reflexivity | discriminate].
Defined.

(** ** The summary as a text to speak *)

Lemma strip_not_space c s :
  PyText.is_space c = false -> PyStr.truthy (PyText.strip (String c s)) = true.
Proof.
  intros Hc. unfold PyText.strip. cbn [PyText.lstrip]. rewrite Hc.
  cbn [PyText.rstrip]. rewrite Hc. destruct (PyText.rstrip s); reflexivity.
Qed.

Lemma summary_loop_extends L : forall i acc parts,
  summary_loop i L acc = Ok parts -> exists more, parts = (acc ++ more)%list.
Proof.
  induction L as [|d L IH]; intros i acc parts H; cbn in H.
  - injection H as <-. exists []. now rewrite app_nil_r.
  - destruct (confidence_pct d); [|discriminate].
    apply IH in H as [more ->]. rewrite <- app_assoc. eauto.
Qed.

Lemma join_head sep c s parts :
  exists rest, PyStr.join sep (String c s :: parts) = String c rest.
Proof.
  unfold PyStr.join. destruct parts as [|p parts]; cbn; eauto.
Qed.

(** A summary starts with the "D" of its header or the "N" of
    "No products detected.". *)
Lemma build_summary_first_char L w s w' :
  build_summary L w = (Ok s, w') ->
  exists rest, s = String "D" rest \/ s = String "N" rest.
Proof.
  destruct L as [|d L]; cbn [build_summary].
  - intros [= <- _]. eexists. right. reflexivity.
  - unfold bind, lift.
    destruct (summary_loop _ _ _) as [parts|e] eqn:Hloop; [|discriminate].
    intros [= <- _].
    apply summary_loop_extends in Hloop as [more ->].
    cbn [app String.append]. 
    destruct (join_head " " "D" ("etected " +:+ PyStr.of_nat (length (d :: L))
                +:+ " item" +:+ (if (1 <? length (d :: L))%nat then "s" else "")
                +:+ ".") more) as [rest Hrest].
    exists rest. left. exact Hrest.
Qed.

(** X5.  A summary [build_summary] returns is never empty and never blank,
    so the guard of [generate_audio] against an empty text does not stop
    it: with the service enabled, the audio of a summary is the file the
    synthesis saved, and there is none only when the synthesis raised. *)
Theorem summary_is_spoken :
  forall (L : list Detection) (w w' : world) (s : string)
         (uuid4 : string) (save : string -> string -> string -> result unit)
         (exn_text : exn -> string) (language : string) (w0 : world),
    build_summary L w = (Ok s, w') ->
    PyStr.truthy s = true /\
    PyStr.truthy (PyText.strip s) = true /\
    generate_audio true uuid4 save exn_text s language w0
    = match save s language (uuid4 +:+ ".mp3") with
      | Ok _ => (Ok (Some ("/audio/" +:+ uuid4 +:+ ".mp3")),
                 logged w0 ("Generated audio: /audio/" +:+ uuid4 +:+ ".mp3"))
      | Raise e => (Ok None, logged w0 ("TTS generation failed: " +:+ exn_text e))
      end.
Proof.
  intros L w w' s uuid4 save exn_text language w0 Hs.
  destruct (build_summary_first_char L w s w' Hs) as [rest Hrest].
  assert (Hstrip : PyStr.truthy (PyText.strip s) = true)
    by (destruct Hrest as [-> | ->]; now apply strip_not_space).
  assert (Htruthy : PyStr.truthy s = true) by (destruct Hrest as [-> | ->]; reflexivity).
  split; [exact Htruthy|]. split; [exact Hstrip|].
  unfold generate_audio. rewrite Htruthy, Hstrip. cbn [negb orb].
  unfold try_except, bind, lift, logger_info, logger_error, logger_debug, ret, logged.
  destruct (save s language (uuid4 +:+ ".mp3")); reflexivity.
Qed.

Lemma summary_is_spoken_witness :
  build_summary [] empty_world = (Ok "No products detected.", empty_world) /\
  PyStr.truthy "No products detected." = true /\
  PyStr.truthy (PyText.strip "No products detected.") = true /\
  generate_audio true "f00d" (fun _ _ _ => Ok tt) (fun _ => "error")
                 "No products detected." "en" empty_world
  = (Ok (Some "/audio/f00d.mp3"), logged empty_world "Generated audio: /audio/f00d.mp3").
Proof.
  split; [reflexivity|].
  apply (summary_is_spoken [] empty_world empty_world "No products detected."
           "f00d" (fun _ _ _ => Ok tt) (fun _ => "error") "en" empty_world).
  reflexivity.
Defined.

(** ** Filtering, ranking and summarizing in a row *)

Lemma ranked_kept_valid t L :
  Forall valid_detection L -> Forall valid_detection (ranked (kept t L)).
Proof.
  intros HL. rewrite List.Forall_forall in HL |- *. intros d Hd.
  apply ranked_In in Hd as [Hd _]. now apply HL.
Qed.

Lemma spec_summary_first_char L pcts :
  exists rest, spec_summary L pcts = String "D" rest.
Proof.
  unfold spec_summary, spec_header. cbn [String.append].
  apply join_head.
Qed.

(** X6.  Steps 4 and 5 of the prediction route, on detections of the
    schema: they do not raise; [total_items] is the number of detections
    whose confidence is at least the floor; the summary is "No products
    detected." exactly when that number is zero, and otherwise it is the
    summary of the kept detections in their ranked order, whose header
    carries the same number; the log receives the line of the filter and
    then the line of the summary. *)
Theorem clean_and_summarize_agree :
  forall (w : world) (l : loc) (L : list Detection) (t : spec_float),
    lists w !! l = Some L ->
    Forall valid_detection L ->
    exists (r : loc) (w' : world) (out : list Detection) (s : string),
      clean_and_summarize l t w = (Ok (r, s, length out), w') /\
      lists w' !! r = Some out /\
      out = sorted confidence PyFloat.lt true
              (List.filter (fun d => PyFloat.ge (confidence d) t) L) /\
      (out = [] <-> s = "No products detected.") /\
      (out <> [] ->
       exists pcts : list Z,
         Forall2 (fun d p => confidence_pct d = Ok p) out pcts /\
         s = spec_summary out pcts) /\
      (out = [] ->
       log w' = (log w ++ ["Cleaned " +:+ PyStr.of_nat (length L)
                           +:+ " -> 0 detections"])%list) /\
      (out <> [] ->
       log w' = (log w ++ ["Cleaned " +:+ PyStr.of_nat (length L) +:+ " -> "
                           +:+ PyStr.of_nat (length out) +:+ " detections";
                           "Built summary: " +:+ s])%list).
Proof.
  intros w l L t HL Hv.
  pose proof (clean_detections_run w l L t HL) as Hrun. cbn zeta in Hrun.
  pose proof (ranked_kept_valid t L Hv) as Hvo.
  unfold clean_and_summarize, bind at 1. rewrite Hrun.
  unfold bind at 1, read_list. cbn [lists]. rewrite lookup_insert_eq.
  change (sorted confidence PyFloat.lt true
            (List.filter (fun d => PyFloat.ge (confidence d) t) L))
    with (ranked (kept t L)).
  remember (ranked (kept t L)) as out eqn:Hout.
  destruct out as [|d out'].
  - eexists _, _, [], _. split; [reflexivity|]. cbn [lists log].
    rewrite lookup_insert_eq.
    split; [reflexivity|]. split; [reflexivity|].
    split; [split; reflexivity|].
    split; [congruence|]. split; [reflexivity | congruence].
  - destruct (valid_pcts _ Hvo) as (pcts & Hp & _).
    unfold bind. rewrite (build_summary_shape (d :: out') _ pcts); [|discriminate|exact Hp].
    eexists _, _, (d :: out'), _. split; [reflexivity|]. cbn [lists log logged].
    rewrite lookup_insert_eq.
    split; [reflexivity|]. split; [reflexivity|].
    split.
    { split; [discriminate|]. intros H.
      destruct (spec_summary_first_char (d :: out') pcts) as [rest Hrest].
      rewrite Hrest in H. discriminate. }
    split; [intros _; exists pcts; now split|].
    split; [discriminate|]. intros _. now rewrite <- app_assoc.
Qed.

Lemma clean_and_summarize_agree_witness :
  lists sample_world !! 1%positive = Some sample_list /\
  Forall valid_detection sample_list /\
  exists (r : loc) (w' : world) (out : list Detection) (s : string),
    clean_and_summarize 1%positive c_0_5 sample_world = (Ok (r, s, length out), w') /\
    lists w' !! r = Some out /\
    out = sorted confidence PyFloat.lt true
            (List.filter (fun d => PyFloat.ge (confidence d) c_0_5) sample_list) /\
    (out = [] <-> s = "No products detected.").
Proof.
  assert (Hv : Forall valid_detection sample_list).
  { repeat constructor; vm_compute; reflexivity. }
  split; [vm_compute; reflexivity|]. split; [exact Hv|].
  destruct (clean_and_summarize_agree sample_world 1%positive sample_list c_0_5)
    as (r & w' & out & s & H1 & H2 & H3 & H4 & _);
    [vm_compute; reflexivity | exact Hv |].
  exists r, w', out, s. repeat split; assumption || apply H4.
Defined.

Example clean_and_summarize_sample :
  exists r w',
    clean_and_summarize 1%positive c_0_5 sample_world
    = (Ok (r, "Detected 3 items. Item 1: Biscuit Pack. Confidence 92 percent. "
              +:+ "Item 2: Biscuit Pack. Confidence 50 percent. "
              +:+ "Item 3: Biscuit Pack. Confidence 50 percent.", 3%nat), w').
Proof. eexists _, _. vm_compute. reflexivity. Qed.

(** ** The enrichment loop of the prediction route *)

Section EnrichmentFacts.
Context {Image : Type}.
Variable crop_detection : list spec_float -> result Image.
Variable process_crop : Image -> gmap string (option string).
Variable exn_text : exn -> string.

Lemma enriched_from_earlier w w1 w' ds rs :
  objects_kept w w1 ->
  Forall (fun l => is_Some (objects w !! l)) ds ->
  Forall2 (enriched_from crop_detection process_crop w1 w') ds rs ->
  Forall2 (enriched_from crop_detection process_crop w w') ds rs.
Proof.
  intros Hkept Hb Hrels. induction Hrels as [|l r ds rs Hlr Hrest IH].
  - constructor.
  - inversion Hb as [|? ? [d Hd] Hb']; subst. constructor; [|now apply IH].
    destruct Hlr as (d0 & Hd0 & Hcase).
    assert (d0 = d) by (apply Hkept in Hd; congruence). subst d0.
    exists d. split; [exact Hd|].
    destruct (crop_detection (bbox d)); [|exact Hcase].
    destruct (confidence_in_range (confidence d)); [|exact Hcase].
    destruct Hcase as (Hne & Hfresh & Hobj).
    split; [exact Hne|]. split; [|exact Hobj].
    destruct (objects w !! r) as [x|] eqn:Hx; [|reflexivity].
    apply Hkept in Hx. congruence.
Qed.

Lemma enrich_loop_spec (detections : list loc) : forall (acc : list loc) (w : world),
  Forall (fun l => is_Some (objects w !! l)) detections ->
  exists (more : list loc) (w' : world),
    enrich_loop crop_detection process_crop exn_text detections acc w
    = (Ok (acc ++ more)%list, w') /\
    Forall2 (enriched_from crop_detection process_crop w w') detections more /\
    objects_kept w w' /\
    lists w' = lists w.
Proof.
  induction detections as [|l detections IH]; intros acc w Hb.
  - exists [], w. cbn. rewrite app_nil_r.
    split; [reflexivity|]. split; [constructor|]. split; [now intros ? ?|reflexivity].
  - inversion Hb as [|? ? [d Hd] Hb']; subst.
    (* one turn of the loop *)
    assert (Hstep : exists (r : loc) (w1 : world),
      try_except
        (d <- read_object l ;;
         crop <- lift (crop_detection (bbox d)) ;;
         enriched <- merge_ocr_with_detection l (process_crop crop) ;;
         ret (acc ++ [enriched])%list)
        (fun e =>
           d <- read_object l ;;
           logger_warning ("OCR failed for detection " +:+ id d +:+ ": "
                           +:+ exn_text e) ;;
           ret (acc ++ [l])%list) w
      = (Ok (acc ++ [r])%list, w1) /\
      enriched_from crop_detection process_crop w w1 l r /\
      objects_kept w w1 /\ lists w1 = lists w).
    { unfold try_except, bind at 1, read_object at 1. rewrite Hd.
      unfold bind at 1, lift.
      destruct (crop_detection (bbox d)) as [crop|e] eqn:Hcrop.
      - unfold bind at 1. rewrite (merge_ocr_with_detection_run w l d _ Hd).
        destruct (confidence_in_range (confidence d)) eqn:Hr.
        + eexists _, _. split; [reflexivity|]. split; [|split; [|reflexivity]].
          * exists d. split; [exact Hd|]. rewrite Hcrop, Hr. cbn [objects].
            split; [|split; [|apply lookup_insert_eq]].
            -- intros Heq. apply (fresh_object_ne w l); [rewrite Hd; eauto|congruence].
            -- apply not_elem_of_dom. apply is_fresh.
          * intros l' d' Hl'. cbn [objects]. rewrite lookup_insert_ne; [exact Hl'|].
            intros Heq. apply (fresh_object_ne w l'); [rewrite Hl'; eauto|congruence].
        + unfold bind, read_object. rewrite Hd. cbn.
          eexists _, _. split; [reflexivity|]. split; [|split; [|reflexivity]].
          * exists d. split; [exact Hd|]. now rewrite Hcrop, Hr.
          * now intros ? ?.
      - unfold bind, read_object. rewrite Hd. cbn.
        eexists _, _. split; [reflexivity|]. split; [|split; [|reflexivity]].
        + exists d. split; [exact Hd|]. now rewrite Hcrop.
        + now intros ? ?. }
    destruct Hstep as (r & w1 & Hstep & Hrel & Hkept & Hlists).
    assert (Hb1 : Forall (fun l => is_Some (objects w1 !! l)) detections).
    { rewrite List.Forall_forall in Hb' |- *. intros l' Hl'.
      destruct (Hb' l' Hl') as [d' Hd']. rewrite (Hkept _ _ Hd'). eauto. }
    destruct (IH (acc ++ [r])%list w1 Hb1) as (more & w' & Hrun & Hrels & Hkept' & Hlists').
    exists (r :: more), w'. split; [|split; [|split]].
    + cbn [enrich_loop]. unfold bind at 1. rewrite Hstep.
      rewrite Hrun. now rewrite <- app_assoc.
    + constructor.
      * destruct Hrel as (d0 & Hd0 & Hcase). exists d0. split; [exact Hd0|].
        destruct (crop_detection (bbox d0)); [|exact Hcase].
        destruct (confidence_in_range (confidence d0)); [|exact Hcase].
        destruct Hcase as (Hne & Hfresh & Hobj).
        split; [exact Hne|]. split; [exact Hfresh|]. now apply Hkept'.
      * now apply (enriched_from_earlier w w1 w').
    + intros l' d' Hl'. now apply Hkept', Hkept.
    + congruence.
Qed.

(** X7.  The enrichment loop of the prediction route, run on references
    to existing [Detection] objects, never raises, whatever the crop and
    the merge do.  It returns as many references as it was given, in the
    same order: to a new object that holds the detection with the OCR text
    merged in, or to the detection itself when the crop raised or the
    schema refused the merged detection.  Either way the object has the
    id, bounding box, class name and confidence of the detection it comes
    from, and no object that existed is changed. *)
Theorem enrich_keeps_every_detection :
  forall (detections : list loc) (w : world),
    Forall (fun l => is_Some (objects w !! l)) detections ->
    exists (enriched : list loc) (w' : world),
      enrich crop_detection process_crop exn_text detections w = (Ok enriched, w') /\
      length enriched = length detections /\
      Forall2 (enriched_from crop_detection process_crop w w') detections enriched /\
      Forall2 (fun l r =>
                 exists d d' : Detection,
                   objects w !! l = Some d /\ objects w' !! r = Some d' /\
                   id d' = id d /\ bbox d' = bbox d /\
                   class_name d' = class_name d /\ confidence d' = confidence d)
              detections enriched /\
      (forall l d, objects w !! l = Some d -> objects w' !! l = Some d) /\
      lists w' = lists w.
Proof.
  intros detections w Hb.
  destruct (enrich_loop_spec detections [] w Hb)
    as (enriched & w' & Hrun & Hrels & Hkept & Hlists).
  exists enriched, w'. split; [exact Hrun|].
  split; [symmetry; eapply Forall2_length; exact Hrels|].
  split; [exact Hrels|]. split; [|split; [exact Hkept | exact Hlists]].
  clear Hrun Hb. induction Hrels as [|l r ds rs Hlr Hrest IH]; constructor; [|exact IH].
  destruct Hlr as (d & Hd & Hcase). exists d.
  destruct (crop_detection (bbox d)) as [crop|e].
  - destruct (confidence_in_range (confidence d)).
    + destruct Hcase as (_ & _ & Hobj). exists (merged d (process_crop crop)).
      repeat split; assumption.
    + subst r. exists d. repeat split; auto.
  - subst r. exists d. repeat split; auto.
Qed.

End EnrichmentFacts.

Lemma enrich_keeps_every_detection_witness :
  Forall (fun l => is_Some (objects (world_with amul_milk) !! l)) [1%positive] /\
  exists (enriched : list loc) (w' : world),
    enrich (fun _ => Ok tt) (fun _ : unit => ocr_brand_only) (fun _ => "error")
           [1%positive] (world_with amul_milk) = (Ok enriched, w') /\
    length enriched = length [1%positive].
Proof.
  assert (Hb : Forall (fun l => is_Some (objects (world_with amul_milk) !! l))
                      [1%positive]).
  { repeat constructor. exists amul_milk. vm_compute. reflexivity. }
  split; [exact Hb|].
  destruct (enrich_keeps_every_detection (fun _ => Ok tt)
              (fun _ : unit => ocr_brand_only) (fun _ => "error")
              [1%positive] (world_with amul_milk) Hb)
    as (enriched & w' & Hrun & Hlen & _).
  exists enriched, w'. split; assumption.
Defined.

Example enrich_sample :
  exists w',
    enrich (fun bbox => match bbox with [] => Raise ValueError | _ => Ok tt end)
           (fun _ : unit => ocr_brand_only) (fun _ => "Failed to crop detection")
           [1%positive] (world_with amul_milk) = (Ok [1%positive], w') /\
    log w' = ["OCR failed for detection det-1: Failed to crop detection"].
Proof. eexists. split; vm_compute; reflexivity. Qed.

(** ** Strings: strip and split *)

Section TextFacts.
Import PyText.

Lemma append_String c x y : String c x +:+ y = String c (x +:+ y).
Proof. reflexivity. Qed.

Lemma append_Empty y : "" +:+ y = y.
Proof. reflexivity. Qed.

Lemma lstrip_head s :
  lstrip s = "" \/ exists c s', lstrip s = String c s' /\ is_space c = false.
Proof.
  induction s as [|c s IH]; [now left|].
  cbn. destruct (is_space c) eqn:Hc; [exact IH|]. right. eauto.
Qed.

Lemma lstrip_idem s : lstrip (lstrip s) = lstrip s.
Proof.
  destruct (lstrip_head s) as [->|(c & s' & -> & Hc)]; [reflexivity|].
  cbn. now rewrite Hc.
Qed.

Lemma rstrip_cons c s :
  rstrip s <> "" -> rstrip (String c s) = String c (rstrip s).
Proof. intros H. cbn [rstrip]. destruct (rstrip s); [congruence | reflexivity]. Qed.

Lemma rstrip_idem s : rstrip (rstrip s) = rstrip s.
Proof.
  induction s as [|c s IH]; [reflexivity|].
  cbn [rstrip]. destruct (rstrip s) as [|c' r] eqn:Hr.
  - destruct (is_space c) eqn:Hc; [reflexivity|]. cbn. now rewrite Hc.
  - rewrite rstrip_cons; rewrite IH; [reflexivity | discriminate].
Qed.

(** Stripping on the right keeps a first character that is not white
    space. *)
Lemma rstrip_head c s :
  is_space c = false -> exists r, rstrip (String c s) = String c r.
Proof.
  intros Hc. cbn [rstrip]. rewrite Hc. destruct (rstrip s); eauto.
Qed.

Lemma lstrip_strip s : lstrip (strip s) = strip s.
Proof.
  unfold strip. destruct (lstrip_head s) as [->|(c & s' & -> & Hc)]; [reflexivity|].
  destruct (rstrip_head c s' Hc) as [r ->]. cbn. now rewrite Hc.
Qed.

Lemma rstrip_strip s : rstrip (strip s) = strip s.
Proof. unfold strip. apply rstrip_idem. Qed.

Lemma rstrip_app x y :
  rstrip y <> "" -> rstrip (x +:+ y) = x +:+ rstrip y.
Proof.
  intros Hy. induction x as [|c x IH]; [reflexivity|].
  rewrite !append_String. rewrite rstrip_cons; rewrite IH; [reflexivity|].
  destruct x; [exact Hy | rewrite append_String; discriminate].
Qed.

(** No piece of a split holds the separator; stripping and cutting do not
    bring a character in. *)
Lemma contains_lstrip c s : contains c s = false -> contains c (lstrip s) = false.
Proof.
  induction s as [|a s IH]; [reflexivity|]. cbn. intros H.
  apply orb_false_iff in H as [Ha Hs].
  destruct (is_space a); [now apply IH|]. cbn. now rewrite Ha, Hs.
Qed.

Lemma contains_rstrip c s : contains c s = false -> contains c (rstrip s) = false.
Proof.
  induction s as [|a s IH]; [reflexivity|]. cbn [contains rstrip]. intros H.
  apply orb_false_iff in H as [Ha Hs]. specialize (IH Hs).
  destruct (rstrip s) as [|a' r].
  - destruct (is_space a); [reflexivity|]. cbn. now rewrite Ha.
  - cbn [contains] in *. now rewrite Ha, IH.
Qed.

Lemma contains_strip c s : contains c s = false -> contains c (strip s) = false.
Proof. intros H. now apply contains_rstrip, contains_lstrip. Qed.

Lemma contains_split sep s : Forall (fun p => contains sep p = false) (split sep s).
Proof.
  induction s as [|a s IH]; [repeat constructor|].
  cbn [split]. destruct (Ascii.eqb a sep) eqn:Ha; [now constructor|].
  destruct (split sep s) as [|p ps]; [repeat constructor; cbn; now rewrite Ha|].
  inversion IH; subst. constructor; [|assumption]. cbn. now rewrite Ha.
Qed.

Lemma contains_split_once c sep s :
  contains c s = false ->
  Forall (fun p => contains c p = false) (split_once sep s).
Proof.
  induction s as [|a s IH]; [repeat constructor|].
  cbn [contains split_once]. intros H. apply orb_false_iff in H as [Ha Hs].
  destruct (Ascii.eqb a sep); [repeat constructor; exact Hs|].
  specialize (IH Hs).
  destruct (split_once sep s) as [|p ps]; [repeat constructor; cbn; now rewrite Ha|].
  inversion IH; subst. constructor; [|assumption]. cbn. now rewrite Ha.
Qed.

Lemma split_no_sep sep s : contains sep s = false -> split sep s = [s].
Proof.
  induction s as [|a s IH]; [reflexivity|]. cbn. intros H.
  apply orb_false_iff in H as [Ha Hs]. now rewrite Ha, (IH Hs).
Qed.

Lemma split_app sep x y :
  contains sep x = false -> split sep (x +:+ String sep y) = x :: split sep y.
Proof.
  induction x as [|a x IH].
  - intros _. rewrite append_Empty. cbn. now rewrite Ascii.eqb_refl.
  - intros H. cbn in H. apply orb_false_iff in H as [Ha Hx].
    rewrite append_String. cbn. now rewrite Ha, (IH Hx).
Qed.

Lemma contains_app c x y :
  contains c (x +:+ y) = contains c x || contains c y.
Proof.
  induction x as [|a x IH]; [reflexivity|].
  rewrite append_String. cbn. now rewrite IH, orb_assoc.
Qed.

End TextFacts.

(** ** The OCR service *)

Lemma has_ocr_keys_insert m k v :
  In k ocr_keys -> has_ocr_keys m -> has_ocr_keys (<[k := v]> m).
Proof.
  intros Hk Hm k'. rewrite lookup_insert. destruct (decide (k = k')) as [<-|Hne].
  - split; [intros _; exact Hk | eauto].
  - apply Hm.
Qed.

Lemma has_ocr_keys_initial v0 v1 v2 v3 :
  has_ocr_keys {["brand" := v0; "product_name" := v1;
                 "quantity_text" := v2; "raw_text" := v3]}.
Proof.
  intros k. unfold ocr_keys. cbn [In].
  rewrite lookup_insert. destruct (decide ("brand" = k)) as [<-|H0]; [split; eauto|].
  rewrite lookup_insert. destruct (decide ("product_name" = k)) as [<-|H1]; [split; eauto|].
  rewrite lookup_insert. destruct (decide ("quantity_text" = k)) as [<-|H2]; [split; eauto|].
  rewrite lookup_singleton. destruct (decide ("raw_text" = k)) as [<-|H3]; [split; eauto 6|].
  split; [intros [? ?]; discriminate|]. intros [?|[?|[?|[?|[]]]]]; congruence.
Qed.

(** The loop keeps the keys of the dict and does not touch "raw_text". *)
Lemma parse_lines_keys lines : forall result,
  has_ocr_keys result ->
  has_ocr_keys (parse_lines lines result) /\
  parse_lines lines result !! "raw_text" = result !! "raw_text".
Proof.
  induction lines as [|line lines IH]; intros result Hr; [now split|].
  cbn [parse_lines].
  destruct (negb (PyStr.truthy (PyText.strip line))
            || negb (PyText.contains PyText.colon (PyText.strip line)));
    [now apply IH|].
  destruct (PyText.split_once PyText.colon (PyText.strip line))
    as [|key [|value [|? ?]]]; try (now split).
  destruct (String.eqb (PyText.lower (PyText.strip value)) "unknown"
            || negb (PyStr.truthy (PyText.strip value))); [now apply IH|].
  repeat match goal with
         | |- context [if String.eqb ?a ?b then _ else _] =>
             destruct (String.eqb a b)
         end;
    try (now apply IH);
    match goal with
    | |- context [parse_lines lines (<[?k := ?v]> result)] =>
        destruct (IH (<[k := v]> result)) as [IH1 IH2];
          [apply has_ocr_keys_insert; [unfold ocr_keys; cbn; tauto | exact Hr]|];
          split; [exact IH1|]; rewrite IH2; now rewrite lookup_insert_ne
    end.
Qed.

Lemma default_result_get k : dict_get default_result k = None.
Proof.
  unfold dict_get, default_result.
  rewrite lookup_insert. destruct (decide ("brand" = k)); [reflexivity|].
  rewrite lookup_insert. destruct (decide ("product_name" = k)); [reflexivity|].
  rewrite lookup_insert. destruct (decide ("quantity_text" = k)); [reflexivity|].
  rewrite lookup_singleton. destruct (decide ("raw_text" = k)); reflexivity.
Qed.

(** X8.  What [process_crop] returns always has the four keys "brand",
    "product_name", "quantity_text" and "raw_text" and no other.  When the
    service is not configured, when the call raised, or when it gave no
    text, all four hold [None]; when it gave a text of ASCII characters,
    "raw_text" holds the text stripped of the white space around it. *)
Theorem process_crop_keys :
  (forall (configured : bool) (response : result (option string)) (k : string),
      is_Some (process_crop configured response !! k)
      <-> k = "brand" \/ k = "product_name" \/ k = "quantity_text" \/ k = "raw_text") /\
  (forall (configured : bool) (response : result (option string)) (k : string),
      configured = false \/ response = Ok None \/ response = Ok (Some "")
      \/ (exists e, response = Raise e) ->
      dict_get (process_crop configured response) k = None) /\
  (forall text : string,
      PyText.isascii text = true ->
      PyStr.truthy text = true ->
      dict_get (process_crop true (Ok (Some text))) "raw_text"
      = Some (PyText.strip text)).
Proof.
  split; [|split].
  - intros configured response k.
    assert (Hkeys : has_ocr_keys (process_crop configured response)).
    { unfold process_crop.
      destruct configured; cbn [negb]; [|apply has_ocr_keys_initial].
      destruct response as [[text|]|e]; try apply has_ocr_keys_initial.
      destruct (PyStr.truthy text); [|apply has_ocr_keys_initial].
      apply parse_lines_keys, has_ocr_keys_initial. }
    rewrite (Hkeys k). unfold ocr_keys. cbn [In]. intuition congruence.
  - intros configured response k H. unfold process_crop.
    destruct configured; cbn [negb]; [|apply default_result_get].
    destruct H as [H|[->|[->|[e ->]]]]; try discriminate; apply default_result_get.
  - intros text _ Ht. unfold process_crop, _parse_ocr_response. cbn [negb].
    rewrite Ht. unfold dict_get.
    rewrite (proj2 (parse_lines_keys _ _ (has_ocr_keys_initial _ _ _ _))).
    do 3 (rewrite lookup_insert_ne by discriminate).
    now rewrite lookup_singleton_eq.
Qed.

Lemma process_crop_keys_witness :
  PyText.isascii " Brand: Amul " = true /\
  PyStr.truthy " Brand: Amul " = true /\
  dict_get (process_crop true (Ok (Some " Brand: Amul "))) "raw_text"
  = Some "Brand: Amul".
Proof.
  split; [reflexivity|]. split; [reflexivity|].
  apply (proj2 (proj2 process_crop_keys) " Brand: Amul "); reflexivity.
Defined.

Lemma clean_fields_insert m k v :
  clean_value v -> clean_fields m -> clean_fields (<[k := Some v]> m).
Proof.
  intros Hv Hm k' v' Hk'. rewrite lookup_insert.
  destruct (decide (k = k')); [intros [= <-]; exact Hv | now apply Hm].
Qed.

Lemma clean_fields_initial v3 :
  clean_fields {["brand" := None; "product_name" := None;
                 "quantity_text" := None; "raw_text" := v3]}.
Proof.
  intros k v Hk. cbn [In] in Hk.
  destruct Hk as [<-|[<-|[<-|[]]]];
    repeat (rewrite lookup_insert_ne by discriminate);
    rewrite lookup_insert_eq; discriminate.
Qed.

(** The value the loop stores for a line is clean. *)
Lemma stored_value_clean value :
  PyText.contains PyText.newline value = false ->
  String.eqb (PyText.lower (PyText.strip value)) "unknown"
  || negb (PyStr.truthy (PyText.strip value)) = false ->
  clean_value (PyText.strip value).
Proof.
  intros Hnl Hcond. apply orb_false_iff in Hcond as [Hunk Htruthy].
  apply negb_false_iff in Htruthy. apply String.eqb_neq in Hunk.
  unfold clean_value. split; [|split; [|split; [|split]]].
  - intros Heq. rewrite Heq in Htruthy. discriminate.
  - apply lstrip_strip.
  - apply rstrip_strip.
  - now apply contains_strip.
  - exact Hunk.
Qed.

Lemma parse_lines_clean lines : forall result,
  Forall (fun line => PyText.contains PyText.newline line = false) lines ->
  clean_fields result -> clean_fields (parse_lines lines result).
Proof.
  induction lines as [|line lines IH]; intros result Hnl Hr; [exact Hr|].
  inversion Hnl as [|? ? Hline Hnl']; subst.
  cbn [parse_lines].
  destruct (negb (PyStr.truthy (PyText.strip line))
            || negb (PyText.contains PyText.colon (PyText.strip line)));
    [now apply IH|].
  pose proof (contains_split_once PyText.newline PyText.colon (PyText.strip line)
                (contains_strip _ _ Hline)) as Hpieces.
  destruct (PyText.split_once PyText.colon (PyText.strip line))
    as [|key [|value [|? ?]]]; try exact Hr.
  inversion Hpieces as [|? ? _ Hrest]; subst.
  inversion Hrest as [|? ? Hvalue _]; subst.
  destruct (String.eqb (PyText.lower (PyText.strip value)) "unknown"
            || negb (PyStr.truthy (PyText.strip value))) eqn:Hcond;
    [now apply IH|].
  pose proof (stored_value_clean value Hvalue Hcond) as Hclean.
  repeat match goal with
         | |- context [if String.eqb ?a ?b then _ else _] =>
             destruct (String.eqb a b)
         end;
    apply IH; auto using clean_fields_insert.
Qed.

Lemma process_crop_clean configured response :
  clean_fields (process_crop configured response).
Proof.
  unfold process_crop.
  destruct configured; cbn [negb]; [|apply clean_fields_initial].
  destruct response as [[text|]|e]; try apply clean_fields_initial.
  destruct (PyStr.truthy text); [|apply clean_fields_initial].
  apply parse_lines_clean; [apply contains_split | apply clean_fields_initial].
Qed.

Lemma dict_get_Some (m : gmap string (option string)) k v :
  dict_get m k = Some v <-> m !! k = Some (Some v).
Proof.
  unfold dict_get. destruct (m !! k) as [[x|]|]; split; intros H;
    try discriminate; congruence.
Qed.

Lemma blank_to_absent_clean o :
  (forall v, o = Some v -> clean_value v) -> blank_to_absent o = o.
Proof.
  intros H. destruct o as [[|c s]|]; try reflexivity.
  destruct (H "" eq_refl) as [Hne _]. congruence.
Qed.

(** X9.  For a response of ASCII characters, a brand, product name or
    quantity text in what [process_crop] returns is never an empty string:
    it has no white space at either end, no line feed (the character the
    response is cut into lines at; a carriage return inside a value
    stays), and is not the word "unknown" in any casing.  So in a
    detection merged from such an OCR result these three fields are either
    absent or non-empty, and making empty fields absent changes nothing. *)
Theorem process_crop_fields_clean :
  forall (configured : bool) (response : result (option string)),
    ascii_response response ->
    (forall (k v : string),
        k = "brand" \/ k = "product_name" \/ k = "quantity_text" ->
        dict_get (process_crop configured response) k = Some v ->
        v <> "" /\ PyText.strip v = v /\
        PyText.contains PyText.newline v = false /\
        PyText.lower v <> "unknown") /\
    (forall d : Detection,
        without_blanks (merged d (process_crop configured response))
        = merged d (process_crop configured response)).
Proof.
  intros configured response _.
  pose proof (process_crop_clean configured response) as Hclean.
  assert (Hget : forall k v,
             In k ["brand"; "product_name"; "quantity_text"] ->
             dict_get (process_crop configured response) k = Some v ->
             clean_value v).
  { intros k v Hk Hv. apply dict_get_Some in Hv. now apply (Hclean k). }
  split.
  - intros k v Hk Hv.
    destruct (Hget k v) as (Hne & Hl & Hr & Hnl & Hunk);
      [destruct Hk as [->|[->| ->]]; cbn; tauto | exact Hv |].
    repeat split; try assumption. unfold PyText.strip. now rewrite Hl, Hr.
  - intros d. unfold without_blanks, merged.
    cbn [id bbox class_name confidence brand product_name quantity_text raw_text].
    rewrite !blank_to_absent_clean; [reflexivity| | |];
      intros v Hv; eapply Hget; try exact Hv; cbn; tauto.
Qed.

Lemma process_crop_fields_clean_witness :
  ascii_response (Ok (Some "Brand:  Amul ")) /\
  ("brand" = "brand" \/ "brand" = "product_name" \/ "brand" = "quantity_text") /\
  dict_get (process_crop true (Ok (Some "Brand:  Amul "))) "brand" = Some "Amul" /\
  ("Amul" <> "" /\ PyText.strip "Amul" = "Amul" /\
   PyText.contains PyText.newline "Amul" = false /\
   PyText.lower "Amul" <> "unknown").
Proof.
  assert (Hget : dict_get (process_crop true (Ok (Some "Brand:  Amul "))) "brand"
                 = Some "Amul") by (vm_compute; reflexivity).
  assert (Ha : ascii_response (Ok (Some "Brand:  Amul ")))
    by (intros text [= <-]; reflexivity).
  split; [exact Ha|]. split; [now left|]. split; [exact Hget|].
  apply (proj1 (process_crop_fields_clean true (Ok (Some "Brand:  Amul ")) Ha)
           "brand" "Amul"); [now left | exact Hget].
Defined.

(** *** Reading back an answer in the format of the prompt *)

Section RoundTrip.
Import PyText.

Lemma split_once_app sep x y :
  contains sep x = false -> split_once sep (x +:+ String sep y) = [x; y].
Proof.
  induction x as [|a x IH].
  - intros _. rewrite append_Empty. cbn. now rewrite Ascii.eqb_refl.
  - intros H. cbn in H. apply orb_false_iff in H as [Ha Hx].
    rewrite append_String. cbn. now rewrite Ha, (IH Hx).
Qed.

Lemma app_not_empty c x y : String c x +:+ y <> "".
Proof. rewrite append_String. discriminate. Qed.

Lemma strip_value v : clean_value v -> strip (String " " v) = v.
Proof.
  intros (_ & Hl & Hr & _). unfold strip. cbn [lstrip].
  change (is_space " ") with true. cbn iota. now rewrite Hl, Hr.
Qed.

(** One turn of the loop on a line "Name: value". *)
Lemma parse_lines_field (c : ascii) (name v : string) rest result :
  is_space c = false ->
  contains colon (String c name) = false ->
  strip (String c name) = String c name ->
  clean_value v ->
  parse_lines ((String c name +:+ String colon (String " " v)) :: rest) result
  = let key := lower (String c name) in
    if String.eqb key "brand"
    then parse_lines rest (<["brand" := Some v]> result)
    else if String.eqb key "product"
    then parse_lines rest (<["product_name" := Some v]> result)
    else if String.eqb key "quantity"
    then parse_lines rest (<["quantity_text" := Some v]> result)
    else parse_lines rest result.
Proof.
  intros Hc Hcolon Hname Hv.
  assert (Hline : strip (String c name +:+ String colon (String " " v))
                  = String c name +:+ String colon (String " " v)).
  { destruct Hv as (Hne & _ & Hr & _). unfold strip.
    rewrite append_String. cbn [lstrip]. rewrite Hc. rewrite <- append_String.
    assert (Hy : rstrip (String colon (String " " v)) = String colon (String " " v)).
    { rewrite !rstrip_cons; rewrite ?Hr; try reflexivity; try exact Hne.
      rewrite rstrip_cons; rewrite Hr; [discriminate | exact Hne]. }
    rewrite rstrip_app; rewrite Hy; [reflexivity | discriminate]. }
  cbn [parse_lines]. rewrite Hline.
  rewrite contains_app. cbn [contains colon]. rewrite Ascii.eqb_refl.
  rewrite orb_true_r. rewrite append_String. cbn [PyStr.truthy negb orb].
  rewrite <- append_String.
  rewrite (split_once_app colon (String c name) (String " " v) Hcolon).
  rewrite Hname, (strip_value v Hv).
  destruct Hv as (Hne & _ & _ & _ & Hunk).
  apply String.eqb_neq in Hunk. rewrite Hunk.
  destruct v as [|a v]; [congruence|]. reflexivity.
Qed.

Lemma parse_brand_line v rest result :
  clean_value v ->
  parse_lines (("Brand: " +:+ v) :: rest) result
  = parse_lines rest (<["brand" := Some v]> result).
Proof.
  intros Hv.
  change ("Brand: " +:+ v) with (String "B" "rand" +:+ String colon (String " " v)).
  rewrite parse_lines_field by (reflexivity || exact Hv). reflexivity.
Qed.

Lemma parse_product_line v rest result :
  clean_value v ->
  parse_lines (("Product: " +:+ v) :: rest) result
  = parse_lines rest (<["product_name" := Some v]> result).
Proof.
  intros Hv.
  change ("Product: " +:+ v) with (String "P" "roduct" +:+ String colon (String " " v)).
  rewrite parse_lines_field by (reflexivity || exact Hv). reflexivity.
Qed.

Lemma parse_quantity_line v rest result :
  clean_value v ->
  parse_lines (("Quantity: " +:+ v) :: rest) result
  = parse_lines rest (<["quantity_text" := Some v]> result).
Proof.
  intros Hv.
  change ("Quantity: " +:+ v) with (String "Q" "uantity" +:+ String colon (String " " v)).
  rewrite parse_lines_field by (reflexivity || exact Hv). reflexivity.
Qed.

Lemma rstrip_fixed_app x y :
  rstrip y = y -> y <> "" -> rstrip (x +:+ y) = x +:+ y /\ x +:+ y <> "".
Proof.
  intros Hr Hne. split; [rewrite rstrip_app; rewrite Hr; [reflexivity | exact Hne]|].
  destruct x; [exact Hne | apply app_not_empty].
Qed.

Lemma rstrip_fixed_cons c y :
  rstrip y = y -> y <> "" -> rstrip (String c y) = String c y.
Proof. intros Hr Hne. rewrite rstrip_cons; rewrite Hr; [reflexivity | exact Hne]. Qed.

Lemma line_no_newline name v :
  contains newline name = false -> clean_value v ->
  contains newline (name +:+ v) = false.
Proof.
  intros Hname (_ & _ & _ & Hnl & _). now rewrite contains_app, Hname, Hnl.
Qed.

(** X10.  An answer in the format the prompt asks for is read back: for a
    brand, a product name and a quantity of ASCII characters that are
    clean values (not empty, no white space at either end, no line feed,
    not "unknown" in any casing), the three lines "Brand: ...",
    "Product: ...", "Quantity: ..." parse to exactly these three fields,
    and "raw_text" is the answer itself. *)
Theorem parse_ocr_response_round_trip :
  forall b p q : string,
    PyText.isascii b = true -> PyText.isascii p = true ->
    PyText.isascii q = true ->
    clean_value b -> clean_value p -> clean_value q ->
    dict_get (_parse_ocr_response (ocr_answer b p q)) "brand" = Some b /\
    dict_get (_parse_ocr_response (ocr_answer b p q)) "product_name" = Some p /\
    dict_get (_parse_ocr_response (ocr_answer b p q)) "quantity_text" = Some q /\
    dict_get (_parse_ocr_response (ocr_answer b p q)) "raw_text"
    = Some (ocr_answer b p q).
Proof.
  intros b p q _ _ _ Hb Hp Hq.
  assert (Htruthy : PyStr.truthy (ocr_answer b p q) = true) by reflexivity.
  assert (Hstrip : strip (ocr_answer b p q) = ocr_answer b p q).
  { unfold strip.
    assert (Hl : lstrip (ocr_answer b p q) = ocr_answer b p q) by reflexivity.
    rewrite Hl. unfold ocr_answer.
    destruct Hq as (Hqne & _ & Hqr & _).
    destruct (rstrip_fixed_app "Quantity: " q Hqr Hqne) as [H3 H3ne].
    pose proof (rstrip_fixed_cons newline _ H3 H3ne) as H3'.
    destruct (rstrip_fixed_app ("Product: " +:+ p) _ H3' ltac:(discriminate))
      as [H2 H2ne].
    pose proof (rstrip_fixed_cons newline _ H2 H2ne) as H2'.
    now destruct (rstrip_fixed_app ("Brand: " +:+ b) _ H2' ltac:(discriminate)). }
  assert (Hlines : split newline (ocr_answer b p q)
                   = ["Brand: " +:+ b; "Product: " +:+ p; "Quantity: " +:+ q]).
  { unfold ocr_answer.
    rewrite split_app by (now apply line_no_newline).
    rewrite split_app by (now apply line_no_newline).
    rewrite split_no_sep by (now apply line_no_newline). reflexivity. }
  unfold _parse_ocr_response. rewrite Htruthy, Hstrip, Hlines.
  rewrite (parse_brand_line b _ _ Hb), (parse_product_line p _ _ Hp),
    (parse_quantity_line q _ _ Hq).
  cbn [parse_lines]. unfold dict_get.
  repeat split.
Qed.

End RoundTrip.

Lemma parse_ocr_response_round_trip_witness :
  PyText.isascii "Amul" = true /\ PyText.isascii "Full Cream Milk" = true /\
  PyText.isascii "500ml" = true /\
  clean_value "Amul" /\ clean_value "Full Cream Milk" /\ clean_value "500ml" /\
  dict_get (_parse_ocr_response (ocr_answer "Amul" "Full Cream Milk" "500ml")) "brand"
  = Some "Amul" /\
  dict_get (_parse_ocr_response (ocr_answer "Amul" "Full Cream Milk" "500ml"))
    "product_name" = Some "Full Cream Milk" /\
  dict_get (_parse_ocr_response (ocr_answer "Amul" "Full Cream Milk" "500ml"))
    "quantity_text" = Some "500ml" /\
  dict_get (_parse_ocr_response (ocr_answer "Amul" "Full Cream Milk" "500ml"))
    "raw_text" = Some (ocr_answer "Amul" "Full Cream Milk" "500ml").
Proof.
  assert (Hb : clean_value "Amul") by (repeat split; discriminate || reflexivity).
  assert (Hp : clean_value "Full Cream Milk")
    by (repeat split; discriminate || reflexivity).
  assert (Hq : clean_value "500ml") by (repeat split; discriminate || reflexivity).
  do 3 (split; [reflexivity|]).
  split; [exact Hb|]. split; [exact Hp|]. split; [exact Hq|].
  apply parse_ocr_response_round_trip; assumption || reflexivity.
Defined.

(** ** The product catalogue *)

Section CatalogFacts.
Import Catalog.

Lemma new_ProductVariant_row v :
  new_ProductVariant (row_size v) (row_price v) (row_currency v)
  = if valid_row v then Ok (of_row v) else Raise ValidationError.
Proof.
  unfold new_ProductVariant, valid_row, of_row.
  destruct (row_currency v); [|reflexivity].
  destruct (PyFloat.ge (row_price v) PyFloat.zero); reflexivity.
Qed.

Lemma variants_loop_spec rows : forall vs sizes,
  variants_loop rows vs sizes
  = if forallb valid_row rows
    then Ok ((vs ++ map of_row rows)%list, (sizes ++ map row_size rows)%list)
    else Raise ValidationError.
Proof.
  induction rows as [|v rows IH]; intros vs sizes; cbn [variants_loop forallb map].
  - now rewrite !app_nil_r.
  - rewrite new_ProductVariant_row. destruct (valid_row v); [|reflexivity].
    rewrite IH. cbn [andb]. destruct (forallb valid_row rows); [|reflexivity].
    now rewrite <- !app_assoc.
Qed.

Lemma sizes_of_rows rows : map size (map of_row rows) = map row_size rows.
Proof. rewrite map_map. reflexivity. Qed.

Lemma product_to_match_spec p quantity :
  _product_to_match p quantity
  = if valid_product p then Ok (match_of p) else Raise ValidationError.
Proof.
  unfold _product_to_match, valid_product, match_of.
  rewrite variants_loop_spec. destruct (forallb valid_row (row_variants p)); [|reflexivity].
  cbn [app]. destruct (row_variants p) as [|v rows]; [reflexivity|].
  cbn [map]. now rewrite sizes_of_rows.
Qed.

Lemma matches_loop_spec products quantity : forall acc,
  matches_loop products quantity acc
  = if forallb valid_product products
    then Ok (acc ++ map match_of products)%list
    else Raise ValidationError.
Proof.
  induction products as [|p products IH]; intros acc; cbn [matches_loop forallb map].
  - now rewrite app_nil_r.
  - rewrite product_to_match_spec. destruct (valid_product p); [|reflexivity].
    rewrite IH. cbn [andb]. destruct (forallb valid_product products); [|reflexivity].
    now rewrite <- app_assoc.
Qed.

Lemma or_default_not_empty x default :
  default <> "" -> or_default x default <> "".
Proof.
  intros Hd. unfold or_default. destruct x as [[|c s]|]; cbn; congruence.
Qed.

Lemma get_fallback_product_spec brand name quantity :
  get_fallback_product brand name quantity
  = Ok {| product_id := "fallback-001";
          brand := or_default brand "Unknown";
          name := or_default name "Unknown Product";
          description := Some "Product details not found in database";
          image_url := None;
          available_sizes := [or_default quantity "Standard"];
          available_quantities := [1; 2; 3; 4; 5];
          variants := [{| size := or_default quantity "Standard";
                          price := price_99; currency := "INR" |}] |}.
Proof. reflexivity. Qed.

(** X11.  [_product_to_match] on a product whose variant rows all have a
    currency and a price of at least 0 returns a match with the fields of
    the product, at least one variant, and one available size per variant,
    in the order of the variants: the rows of the product, or the variant
    "Standard" at 99.0 INR when it has none.  One row with a NULL currency
    or with a price that is negative or NaN makes it raise the validation
    error of the schema.  The preferred quantity plays no part. *)
Theorem product_to_match_variants :
  forall (p : ProductRow) (quantity : option string),
    (forallb valid_row (row_variants p) = true ->
     exists m : ProductMatch,
       _product_to_match p quantity = Ok m /\
       variants m <> [] /\
       available_sizes m = map size (variants m) /\
       (row_variants p <> [] -> variants m = map of_row (row_variants p)) /\
       (row_variants p = [] ->
        variants m = [{| size := "Standard"; price := price_99; currency := "INR" |}]) /\
       product_id m = row_product_id p /\ brand m = row_brand p /\
       name m = row_name p /\ description m = row_description p /\
       image_url m = row_image_url p /\
       available_quantities m = [1; 2; 3; 4; 5; 10]) /\
    (forallb valid_row (row_variants p) = false ->
     _product_to_match p quantity = Raise ValidationError) /\
    _product_to_match p quantity = _product_to_match p None.
Proof.
  intros p quantity. rewrite !product_to_match_spec. unfold valid_product.
  split; [|split; [|reflexivity]].
  - intros Hv. rewrite Hv. exists (match_of p). split; [reflexivity|].
    unfold match_of. cbn [variants available_sizes product_id brand name
                          description image_url available_quantities].
    destruct (row_variants p) as [|v rows]; repeat split; intros;
      try discriminate; try reflexivity; congruence.
  - intros Hv. now rewrite Hv.
Qed.

Lemma product_to_match_variants_witness :
  forallb valid_row [] = true /\
  exists m : ProductMatch,
    _product_to_match
      {| row_product_id := "PROD-001"; row_brand := "Amul";
         row_name := "Full Cream Milk"; row_description := None;
         row_image_url := None; row_variants := [] |} None = Ok m /\
    variants m = [{| size := "Standard"; price := price_99; currency := "INR" |}].
Proof.
  split; [reflexivity|].
  destruct (proj1 (product_to_match_variants
                     {| row_product_id := "PROD-001"; row_brand := "Amul";
                        row_name := "Full Cream Milk"; row_description := None;
                        row_image_url := None; row_variants := [] |} None) eq_refl)
    as (m & Hm & _ & _ & _ & Hdef & _).
  exists m. split; [exact Hm | now apply Hdef].
Defined.

(** X12.  The search route never answers with an exception and never with
    an empty list of matches.  When the query returned at least one product
    and every row of every product is valid, the status is "ok" and there
    is one match per product, in order.  When the query raised, returned
    nothing, or returned one product with one invalid row, the status is
    "fallback" and the only match is the fallback product made from the
    brand, name and quantity of the request. *)
Theorem search_route_never_empty :
  forall (exn_text : exn -> string) (query : result (list ProductRow))
         (brand name quantity : option string),
    exists resp : ProductSearchResponse,
      search_route exn_text query brand name quantity = Answer resp /\
      matches resp <> [] /\
      (forall products,
          query = Ok products -> products <> [] ->
          Forall (fun p => forallb valid_row (row_variants p) = true) products ->
          status resp = "ok" /\ matches resp = map match_of products) /\
      ((exists e, query = Raise e) \/ query = Ok [] \/
       (exists products, query = Ok products /\
          Exists (fun p => forallb valid_row (row_variants p) = false) products) ->
       status resp = "fallback" /\
       exists fallback,
         get_fallback_product brand name quantity = Ok fallback /\
         matches resp = [fallback]).
Proof.
  intros exn_text query brand name quantity.
  unfold search_route, search_products. rewrite get_fallback_product_spec.
  destruct query as [products|e].
  - rewrite matches_loop_spec. cbn [app].
    destruct (forallb valid_product products) eqn:Hall.
    + destruct products as [|p products].
      * eexists. split; [reflexivity|]. cbn [matches status].
        split; [discriminate|]. split; [intros ? [= <-] ?; congruence|].
        intros _. split; eauto.
      * cbn [map]. eexists. split; [reflexivity|]. cbn [matches status].
        split; [discriminate|]. split.
        -- intros ps [= <-] _ _. split; reflexivity.
        -- intros [[e He]|[He|(ps & [= <-] & Hex)]]; try discriminate.
           exfalso. apply List.Exists_exists in Hex as (x & Hx & Hbad).
           rewrite forallb_forall in Hall. specialize (Hall x Hx).
           unfold valid_product in Hall. congruence.
    + eexists. split; [reflexivity|]. cbn [matches status].
      split; [discriminate|]. split.
      * intros ps [= <-] _ Hv. exfalso.
        assert (forallb valid_product products = true); [|congruence].
        apply forallb_forall. rewrite List.Forall_forall in Hv. exact Hv.
      * intros _. split; eauto.
  - eexists. split; [reflexivity|]. cbn [matches status].
    split; [discriminate|]. split; [discriminate|]. intros _. split; eauto.
Qed.

Lemma search_route_never_empty_witness :
  (exists e, (Raise OverflowError : result (list ProductRow)) = Raise e) /\
  exists resp : ProductSearchResponse,
    search_route (fun _ => "error") (Raise OverflowError) (Some "Amul") None None
    = Answer resp /\
    status resp = "fallback".
Proof.
  split; [eauto|].
  destruct (search_route_never_empty (fun _ => "error") (Raise OverflowError)
              (Some "Amul") None None) as (resp & Hrun & _ & _ & Hfb).
  exists resp. split; [exact Hrun|]. apply Hfb. left. eauto.
Defined.

(** X13.  The fallback product: building it never raises; its brand and
    its name are never empty ("Unknown" and "Unknown Product" stand in for
    an absent or empty one); it has exactly one variant, at 99.0 INR,
    whose size is its one available size: the quantity of the request, or
    "Standard" when that is absent or empty. *)
Theorem fallback_product_shape :
  forall brand name quantity : option string,
    exists m : ProductMatch,
      get_fallback_product brand name quantity = Ok m /\
      product_id m = "fallback-001" /\
      Catalog.brand m <> "" /\ Catalog.name m <> "" /\
      (forall s, brand = Some s -> s <> "" -> Catalog.brand m = s) /\
      (forall s, name = Some s -> s <> "" -> Catalog.name m = s) /\
      (exists v, variants m = [v] /\ available_sizes m = [size v] /\
                 size v <> "" /\ price v = price_99 /\ currency v = "INR" /\
                 (forall s, quantity = Some s -> s <> "" -> size v = s) /\
                 (quantity = None \/ quantity = Some "" -> size v = "Standard")).
Proof.
  intros brand name quantity. rewrite get_fallback_product_spec.
  eexists. split; [reflexivity|].
  cbn [product_id Catalog.brand Catalog.name variants available_sizes].
  split; [reflexivity|].
  split; [apply or_default_not_empty; discriminate|].
  split; [apply or_default_not_empty; discriminate|].
  split; [intros s -> Hs; destruct s; [congruence | reflexivity]|].
  split; [intros s -> Hs; destruct s; [congruence | reflexivity]|].
  eexists. split; [reflexivity|]. cbn [size price currency].
  split; [reflexivity|].
  split; [apply or_default_not_empty; discriminate|].
  split; [reflexivity|]. split; [reflexivity|].
  split; [intros s -> Hs; destruct s; [congruence | reflexivity]|].
  intros [-> | ->]; reflexivity.
Qed.

Lemma fallback_product_shape_witness :
  exists m : ProductMatch,
    get_fallback_product (Some "Amul") None (Some "") = Ok m /\
    Catalog.brand m = "Amul" /\ Catalog.name m = "Unknown Product" /\
    available_sizes m = ["Standard"].
Proof.
  destruct (fallback_product_shape (Some "Amul") None (Some ""))
    as (m & Hm & _ & _ & _ & Hb & _ & v & Hv & Hs & _ & _ & _ & _ & Hstd).
  exists m. split; [exact Hm|].
  split; [apply (Hb "Amul"); [reflexivity | discriminate]|].
  rewrite get_fallback_product_spec in Hm. injection Hm as <-.
  split; [reflexivity|]. reflexivity.
Defined.

(** X14.  The readers of the catalogue give all or nothing.  On the
    products a query returned, [get_all_products] and [search_products]
    return the same list, whatever the quantity: one match per product, in
    order, when every variant row of every product is valid, and the empty
    list as soon as one row of one product is not, so that one bad row
    hides every product.  [get_product_by_id] returns [None] for a
    product with a bad row, as it does for a product that is not found and
    for a query that raised. *)
Theorem catalogue_readers_all_or_nothing :
  forall (products : list ProductRow) (quantity : option string),
    search_products (Ok products) quantity = get_all_products (Ok products) /\
    (Forall (fun p => forallb valid_row (row_variants p) = true) products ->
     get_all_products (Ok products) = map match_of products /\
     length (get_all_products (Ok products)) = length products) /\
    (Exists (fun p => forallb valid_row (row_variants p) = false) products ->
     get_all_products (Ok products) = []) /\
    (forall p,
       get_product_by_id (Ok (Some p))
       = if forallb valid_row (row_variants p) then Some (match_of p) else None) /\
    (forall e, get_product_by_id (Raise e) = get_product_by_id (Ok None)).
Proof.
  intros products quantity. unfold search_products, get_all_products.
  rewrite !matches_loop_spec. cbn [app].
  split; [reflexivity|]. split; [|split; [|split]].
  - intros Hv.
    assert (Hall : forallb valid_product products = true).
    { apply forallb_forall. rewrite List.Forall_forall in Hv. exact Hv. }
    rewrite Hall. split; [reflexivity|]. now rewrite length_map.
  - intros Hex. apply List.Exists_exists in Hex as (x & Hx & Hbad).
    destruct (forallb valid_product products) eqn:Hall; [|reflexivity].
    rewrite forallb_forall in Hall. specialize (Hall x Hx).
    unfold valid_product in Hall. congruence.
  - intros p. unfold get_product_by_id. rewrite product_to_match_spec.
    unfold valid_product. now destruct (forallb valid_row (row_variants p)).
  - reflexivity.
Qed.

End CatalogFacts.

(** ** The percentage is at most 100 *)

Section PercentageBound.
Import PyFloat.

(** Shifting right by [p] bits divides by [2^p], rounding down. *)
Lemma shr_1_half mrs : 0 <= shr_m mrs -> 2 * shr_m (shr_1 mrs) <= shr_m mrs.
Proof.
  destruct mrs as [m r s]. cbn [shr_m]. intros Hm.
  destruct m as [|[p|p|]|p]; cbn; lia.
Qed.

Lemma iter_shr_1_div p : forall mrs,
  0 <= shr_m mrs ->
  shr_m (SpecFloat.iter_pos shr_1 p mrs) * 2 ^ Zpos p <= shr_m mrs.
Proof.
  induction p as [p IH|p IH|]; intros mrs Hm; cbn [SpecFloat.iter_pos].
  - pose proof (shr_1_bound mrs Hm) as [H1 _].
    pose proof (shr_1_half mrs Hm) as H1'.
    pose proof (iter_shr_1_bound p _ H1) as [H2 _].
    pose proof (IH _ H1) as H2'.
    pose proof (iter_shr_1_bound p _ H2) as [H3 _].
    pose proof (IH _ H2) as H3'.
    assert (Hpow : 2 ^ Zpos p~1 = 2 * (2 ^ Zpos p * 2 ^ Zpos p)).
    { rewrite Pos2Z.inj_xI.
      replace (2 * Zpos p + 1) with (Zpos p + Zpos p + 1) by lia.
      rewrite !Z.pow_add_r by lia. change (2 ^ 1) with 2. ring. }
    rewrite Hpow.
    assert (0 < 2 ^ Zpos p) by (apply Z.pow_pos_nonneg; lia). nia.
  - pose proof (iter_shr_1_bound p _ Hm) as [H2 _].
    pose proof (IH _ Hm) as H2'.
    pose proof (iter_shr_1_bound p _ H2) as [H3 _].
    pose proof (IH _ H2) as H3'.
    assert (Hpow : 2 ^ Zpos p~0 = 2 ^ Zpos p * 2 ^ Zpos p).
    { change (Zpos p~0) with (2 * Zpos p). apply Z.pow_twice_r. }
    rewrite Hpow.
    assert (0 < 2 ^ Zpos p) by (apply Z.pow_pos_nonneg; lia). nia.
  - change (2 ^ 1) with 2. pose proof (shr_1_half mrs Hm). lia.
Qed.

Lemma shr_fexp_value m e l mrs e' :
  0 <= m -> shr_fexp prec emax m e l = (mrs, e') ->
  e <= e' /\ shr_m mrs * 2 ^ (e' - e) <= m.
Proof.
  intros Hm. unfold shr_fexp, shr.
  assert (Hrec : shr_m (shr_record_of_loc m l) = m)
    by (destruct l as [|[]]; reflexivity).
  destruct (fexp prec emax (Zdigits2 m + e) - e) as [|p|p] eqn:Hn;
    intros [= <- <-].
  - rewrite Hrec, Z.sub_diag. cbn. lia.
  - replace (e + Zpos p - e) with (Zpos p) by lia.
    pose proof (iter_shr_1_div p (shr_record_of_loc m l)) as H.
    rewrite Hrec in H. specialize (H Hm). lia.
  - rewrite Hrec, Z.sub_diag. cbn. lia.
Qed.

(** The mantissa and exponent of a confidence the schema accepts. *)
Lemma confidence_at_most_one m e :
  is_float (S754_finite false m e) ->
  confidence_in_range (S754_finite false m e) = true ->
  -1074 <= e <= -52 /\ Zpos m <= 2 ^ (- e) /\ Zpos m < 2 ^ 53.
Proof.
  unfold is_float, confidence_in_range, ge, le, SFleb.
  intros Hf Hr. apply andb_true_iff in Hr as [_ H1].
  cbn [SFcompare one] in H1.
  cbn in Hf. unfold bounded, canonical_mantissa in Hf.
  apply andb_true_iff in Hf as [Hc _]. apply Z.eqb_eq in Hc.
  assert (Hm : Zpos m < 2 ^ 53).
  { apply digits_bound_lt; [lia|]. unfold fexp, emin, prec, emax in Hc. lia. }
  assert (He : -1074 <= e) by (unfold fexp, emin, prec, emax in Hc; lia).
  destruct (Z.compare_spec e (-52)) as [Heq|Hlt|Hgt]; [| |discriminate].
  - split; [clear H1 Hc; lia|]. split; [|exact Hm].
    assert (Hle : (m <= 4503599627370496)%positive).
    { unfold Pos.le, Pos.compare.
      destruct (Pos.compare_cont Eq m 4503599627370496); discriminate. }
    clear H1 Hc Hm He. subst e.
    change (2 ^ (- -52)) with 4503599627370496. exact Hle.
  - clear H1. split; [clear Hc; lia|]. split; [|exact Hm].
    assert (2 ^ 53 <= 2 ^ (- e)) by (apply Z.pow_le_mono_r; lia).
    clear Hc. lia.
Qed.

(** The product with 100.0 is rounded to binary64, twice shifted and once
    rounded to nearest even; the error of the rounding is below one, so
    the integer part of the result does not pass 100. *)
Lemma mul_hundred_at_most m e p :
  -1074 <= e <= -52 -> Zpos m <= 2 ^ (- e) -> Zpos m < 2 ^ 53 ->
  int_of_float (mul (S754_finite false m e) hundred) = Ok p -> 0 <= p <= 100.
Proof.
  intros He Hm Hm53. unfold mul, hundred. cbn [SFmul xorb].
  unfold binary_round_aux.
  set (M := Zpos (m * 7036874417766400)).
  set (e0 := e + -46).
  assert (HM : 0 <= M <= 100 * 2 ^ (- e0) /\ M < 2 ^ 106).
  { unfold M, e0. rewrite Pos2Z.inj_mul.
    replace (- (e + -46)) with (46 + - e) by lia.
    rewrite Z.pow_add_r by lia.
    assert (H46 : Zpos 7036874417766400 = 100 * 2 ^ 46) by reflexivity.
    rewrite H46.
    assert (H106 : 2 ^ 106 = 2 ^ 53 * (128 * 2 ^ 46)) by reflexivity.
    rewrite H106.
    assert (0 < 2 ^ 46) by reflexivity.
    assert (0 < 2 ^ 53) by reflexivity.
    generalize dependent (2 ^ 46). generalize dependent (2 ^ 53).
    generalize dependent (2 ^ (- e)). intros. nia. }
  destruct (shr_fexp prec emax M e0 loc_Exact) as [mrs1 e1] eqn:H1.
  pose proof (shr_fexp_bound _ _ _ _ _ (proj1 (proj1 HM)) H1) as [Hm1 He1].
  pose proof (shr_fexp_value _ _ _ _ _ (proj1 (proj1 HM)) H1) as [Hle1 Hv1].
  set (m2 := round_nearest_even (shr_m mrs1) (loc_of_shr_record mrs1)).
  pose proof (round_nearest_even_bound (shr_m mrs1) (loc_of_shr_record mrs1)) as Hm2.
  fold m2 in Hm2.
  destruct (shr_fexp prec emax m2 e1 loc_Exact) as [mrs2 e2] eqn:H2.
  assert (Hm2' : 0 <= m2) by lia.
  pose proof (shr_fexp_bound _ _ _ _ _ Hm2' H2) as [Hm3 _].
  pose proof (shr_fexp_value _ _ _ _ _ Hm2' H2) as [Hle2 Hv2].
  assert (Hd : Zdigits2 M <= 106) by (apply Zdigits2_bound; lia).
  assert (He1' : e1 <= -45).
  { rewrite He1. unfold fexp, emin, prec, emax, e0. lia. }
  clear He1 Hd.
  (* the first rounding *)
  assert (Hb1 : shr_m mrs1 <= 100 * 2 ^ (- e1)).
  { assert (Hpow : 2 ^ (- e0) = 2 ^ (e1 - e0) * 2 ^ (- e1)).
    { rewrite <- Z.pow_add_r by lia. f_equal; lia. }
    assert (0 < 2 ^ (e1 - e0)) by (apply Z.pow_pos_nonneg; lia).
    rewrite Hpow in HM.
    generalize dependent (2 ^ (e1 - e0)). generalize dependent (2 ^ (- e1)).
    intros. nia. }
  destruct (shr_m mrs2) as [|p2|p2] eqn:Hp.
  - cbn. intros [= <-]. lia.
  - destruct (e2 <=? emax - prec)%Z; [|discriminate].
    cbn [int_of_float]. intros [= <-].
    assert (H45 : 2 ^ 45 <= 2 ^ (- e1)) by (apply Z.pow_le_mono_r; lia).
    assert (H45' : 2 <= 2 ^ 45) by (apply Z.leb_le; reflexivity).
    destruct (Z.le_gt_cases 0 e2) as [Hpos|Hneg].
    + rewrite Z.shiftl_mul_pow2 by lia.
      assert (Hpow : 2 ^ (e2 - e1) = 2 ^ e2 * 2 ^ (- e1)).
      { rewrite <- Z.pow_add_r by lia. f_equal; lia. }
      rewrite Hpow in Hv2.
      assert (0 < 2 ^ e2) by (apply Z.pow_pos_nonneg; lia).
      generalize dependent (2 ^ e2). generalize dependent (2 ^ (- e1)).
      intros. nia.
    + rewrite Z.shiftl_div_pow2 by lia.
      assert (Hpow : 2 ^ (- e1) = 2 ^ (- e2) * 2 ^ (e2 - e1)).
      { rewrite <- Z.pow_add_r by lia. f_equal; lia. }
      assert (0 < 2 ^ (e2 - e1)) by (apply Z.pow_pos_nonneg; lia).
      assert (2 ^ 1 <= 2 ^ (- e2)) by (apply Z.pow_le_mono_r; lia).
      change (2 ^ 1) with 2 in *.
      rewrite Hpow in Hb1.
      split; [apply Z.div_pos; lia|].
      apply Z.lt_succ_r. apply Z.div_lt_upper_bound; [lia|].
      generalize dependent (2 ^ (e2 - e1)). generalize dependent (2 ^ (- e2)).
      intros. nia.
  - lia.
Qed.

Lemma confidence_pct_bound d :
  valid_detection d -> exists p, confidence_pct d = Ok p /\ 0 <= p <= 100.
Proof.
  intros [Hf Hr]. unfold confidence_pct.
  destruct (confidence_in_range_cases _ Hf Hr) as [[s Hc]|(m & e & Hc & _)];
    rewrite Hc in *.
  - exists 0. split; [reflexivity | lia].
  - destruct (confidence_at_most_one m e Hf Hr) as (He & Hm & Hm53).
    destruct (mul_hundred_finite _ Hf Hr) as [[s Hz]|(m' & e' & Hfin)].
    + rewrite Hz. exists 0. split; [reflexivity | lia].
    + pose proof (mul_hundred_at_most m e) as Hb. rewrite Hfin in *.
      eexists. split; [reflexivity|]. apply Hb; auto.
Qed.

End PercentageBound.

(** X15.  Every percentage a summary speaks lies between 0 and 100: on
    detections of the schema [int(detection.confidence * 100)] returns a
    whole number [p] with [0 <= p <= 100], although the product is a
    rounded binary64 number, and these are the numbers of the sentences
    "Confidence p percent." of [build_summary]. *)
Theorem percentages_within_hundred L w :
  L <> [] -> Forall valid_detection L ->
  exists pcts,
    Forall2 (fun d p => confidence_pct d = Ok p /\ 0 <= p <= 100) L pcts /\
    fst (build_summary L w) = Ok (spec_summary L pcts).
Proof.
  intros Hne HL.
  assert (Hp : exists pcts,
             Forall2 (fun d p => confidence_pct d = Ok p /\ 0 <= p <= 100) L pcts).
  { clear Hne. induction HL as [|d L Hd HL [pcts IH]].
    - exists []. constructor.
    - destruct (confidence_pct_bound d Hd) as (p & Hp & Hb).
      exists (p :: pcts). constructor; auto. }
  destruct Hp as [pcts Hp]. exists pcts. split; [exact Hp|].
  rewrite (build_summary_shape L w pcts); [reflexivity | exact Hne |].
  unfold pcts_of. clear Hne HL.
  induction Hp as [|d p L pcts [Hd _] Hp IH]; constructor; auto.
Qed.

Lemma percentages_within_hundred_witness :
  exists pcts,
    Forall2 (fun d p => confidence_pct d = Ok p /\ 0 <= p <= 100)
            [amul_milk; sample "b" PyFloat.one] pcts /\
    fst (build_summary [amul_milk; sample "b" PyFloat.one] empty_world)
    = Ok (spec_summary [amul_milk; sample "b" PyFloat.one] pcts).
Proof.
  apply (percentages_within_hundred [amul_milk; sample "b" PyFloat.one] empty_world).
  - discriminate.
  - repeat constructor; vm_compute; reflexivity.
Defined.

Section FloatOfInt.
Import PyFloat.

Lemma iter_xO_value sh p : Zpos (Pos.iter xO p sh) = Zpos p * 2 ^ Zpos sh.
Proof.
  induction sh as [|sh IH] using Pos.peano_ind.
  - cbn [Pos.iter]. change (2 ^ 1) with 2. lia.
  - rewrite Pos.iter_succ, Pos2Z.inj_xO, IH, Pos2Z.inj_succ, Z.pow_succ_r by lia.
    ring.
Qed.

(** An integer of at most 53 bits is a float. *)
Lemma float_of_int_small n :
  0 <= n < 2 ^ 53 -> exists q, float_of_int n = Ok q.
Proof.
  intros [Hn Hlt]. unfold float_of_int, binary_normalize.
  destruct n as [|p|p]; [eexists; reflexivity| |lia].
  unfold binary_round.
  destruct (shl_align p 0 (fexp prec emax (Zpos (digits2_pos p) + 0)))
    as [mz ez] eqn:Hs.
  assert (Hd : 1 <= Zpos (digits2_pos p) <= 53).
  { split; [lia|]. apply (Zdigits2_bound (Zpos p) 53); lia. }
  assert (Hp : Zpos p < 2 ^ Zpos (digits2_pos p))
    by (apply digits_bound_lt; lia).
  assert (Hb : Zpos mz < 2 ^ 53 /\ ez <= 0).
  { unfold shl_align, fexp, emin, prec, emax in Hs.
    destruct (Z.max (Zpos (digits2_pos p) + 0 - 53) (3 - 1024 - 53) - 0)
      as [|sh|sh] eqn:Hsh; injection Hs as <- <-; try (split; lia).
    split; [|lia]. rewrite iter_xO_value.
    assert (Hpow : 2 ^ 53 = 2 ^ Zpos (digits2_pos p) * 2 ^ Zpos sh).
    { rewrite <- Z.pow_add_r by lia. f_equal; lia. }
    rewrite Hpow. apply Z.mul_lt_mono_pos_r; [|exact Hp].
    apply Z.pow_pos_nonneg; lia. }
  destruct (binary_round_aux_finite false (Zpos mz) ez 53) as [H|(m' & e' & H)];
    try (unfold prec, emax; lia); rewrite H; eexists; reflexivity.
Qed.

End FloatOfInt.

(** ** Orders *)

Section OrdersFacts.
Import Orders.
Local Open Scope list_scope.

Lemma db_run_app l1 l2 db :
  db_run (l1 ++ l2) db
  = match db_run l1 db with
    | (Ok _, db') => db_run l2 db'
    | (Raise e, db') => (Raise e, db')
    end.
Proof.
  revert db. induction l1 as [|op l1 IH]; intros db; cbn [db_run app].
  - reflexivity.
  - destruct (db_do op db) as [[[]|e] db']; [apply IH | reflexivity].
Qed.

(** A session takes the operations its budget allows. *)
Lemma db_run_spec l : forall db,
  db_run l db
  = match budget db with
    | None => (Ok tt, {| ops := ops db ++ l; budget := None |})
    | Some (k, e) =>
        if (k <? length l)%nat
        then (Raise e, {| ops := ops db ++ firstn k l; budget := Some (O, e) |})
        else (Ok tt, {| ops := ops db ++ l; budget := Some ((k - length l)%nat, e) |})
    end.
Proof.
  induction l as [|op l IH]; intros [o b]; cbn [db_run budget ops length].
  - rewrite app_nil_r. destruct b as [[k e]|]; [|reflexivity].
    cbn. now rewrite Nat.sub_0_r.
  - unfold db_do. cbn [budget ops].
    destruct b as [[[|k] e]|].
    + cbn. now rewrite app_nil_r.
    + rewrite IH. cbn [budget ops firstn].
      change (S k <? S (length l))%nat with (k <? length l)%nat.
      rewrite <- !app_assoc. cbn [app Nat.sub]. reflexivity.
    + rewrite IH. cbn [budget ops]. now rewrite <- app_assoc.
Qed.

Lemma add_items_run pk items rows : forall db,
  Forall2 (row_of pk) items rows ->
  add_items pk items db = db_run (map Add_item rows) db.
Proof.
  intros db H. revert db.
  induction H as [|item row items rows (q & Hq & ->) _ IH]; intros db;
    cbn [add_items map db_run]; [reflexivity|].
  unfold line_total. rewrite Hq.
  destruct (db_do _ db) as [[[]|e] db']; [apply IH | reflexivity].
Qed.

Lemma place_order_run order_id pk r rows db :
  Forall2 (row_of pk) (items r) rows ->
  place_order order_id pk r db
  = db_run (transaction {| row_order_id := order_id;
                           row_total_amount := total_amount r;
                           row_currency := currency r;
                           row_status := "confirmed" |} rows) db.
Proof.
  intros H. unfold place_order, transaction. cbn [db_run].
  destruct (db_do (Add_order _) db) as [[[]|e] db1]; [|reflexivity].
  destruct (db_do Flush db1) as [[[]|e] db2]; [|reflexivity].
  rewrite db_run_app, (add_items_run _ _ rows) by exact H.
  destruct (db_run (map Add_item rows) db2) as [[[]|e] db3]; [|reflexivity].
  cbn [db_run]. destruct (db_do Commit db3) as [[[]|e] db4]; reflexivity.
Qed.


Lemma transaction_length order rows :
  length (transaction order rows) = (length rows + 3)%nat.
Proof.
  unfold transaction. cbn [length]. rewrite length_app, length_map. cbn. lia.
Qed.

Lemma rows_exist pk items :
  Forall (fun item => valid_item item = true /\ quantity item < 2 ^ 53) items ->
  exists rows, Forall2 (row_of pk) items rows.
Proof.
  induction 1 as [|item items [Hv Hq] _ [rows IH]].
  - exists []. constructor.
  - unfold valid_item in Hv. apply andb_true_iff in Hv as [Hone _].
    apply Z.leb_le in Hone.
    destruct (float_of_int_small (quantity item)) as [q Hfq]; [lia|].
    eexists (_ :: rows). constructor; [|exact IH].
    exists q. split; [exact Hfq | reflexivity].
Qed.

(** A total the schema accepts is not positive only when it is a zero. *)
Lemma total_not_positive x :
  PyFloat.ge x PyFloat.zero = true ->
  PyFloat.le x PyFloat.zero = PyFloat.eq x PyFloat.zero.
Proof.
  unfold PyFloat.ge, PyFloat.le, PyFloat.eq, PyFloat.zero, SFleb, SFeqb.
  destruct x as [s|[]| |[] m e]; cbn; try discriminate; reflexivity.
Qed.

Lemma positive_total x :
  PyFloat.lt PyFloat.zero x = true -> PyFloat.le x PyFloat.zero = false.
Proof.
  unfold PyFloat.lt, PyFloat.le, PyFloat.zero, SFltb, SFleb.
  destruct x as [s|[]| |[] m e]; cbn; try discriminate; reflexivity.
Qed.

Lemma db_do_ops op db :
  (exists db', db_do op db = (Ok tt, db') /\ ops db' = ops db ++ [op]) \/
  (exists e, db_do op db = (Raise e, db)).
Proof.
  unfold db_do. destruct (budget db) as [[[|k] e]|]; eauto.
Qed.

(** What the loop over the items leaves in the session. *)
Lemma add_items_ops pk items : forall db,
  exists done,
    ops (snd (add_items pk items db)) = ops db ++ done /\
    ~ In Commit done /\
    (forall u, fst (add_items pk items db) = Ok u ->
       exists rows, done = map Add_item rows /\ Forall2 (row_of pk) items rows).
Proof.
  induction items as [|item items IH]; intros db; cbn [add_items].
  - exists []. cbn [snd fst]. rewrite app_nil_r. split; [reflexivity|].
    split; [intros []|]. intros _ _. exists []. split; [reflexivity | constructor].
  - unfold line_total. destruct (float_of_int (quantity item)) as [q|e] eqn:Hq.
    + destruct (db_do_ops (Add_item (item_row pk item (PyFloat.mul (unit_price item) q))) db)
        as [(db' & -> & Hops)|(e & ->)].
      * destruct (IH db') as (done & Hdone & Hno & Hok).
        exists (Add_item (item_row pk item (PyFloat.mul (unit_price item) q)) :: done).
        rewrite Hdone, Hops, <- app_assoc. split; [reflexivity|].
        split; [intros [Hc|Hc]; [discriminate | contradiction]|].
        intros u Hu. destruct (Hok u Hu) as (rows & -> & Hrows).
        eexists (_ :: rows). split; [reflexivity|].
        constructor; [|exact Hrows]. exists q. split; [exact Hq | reflexivity].
      * exists []. cbn [snd fst]. rewrite app_nil_r. split; [reflexivity|].
        split; [intros []|]. discriminate.
    + exists []. cbn [snd fst]. rewrite app_nil_r. split; [reflexivity|].
      split; [intros []|]. discriminate.
Qed.

(** With a session that never raises, the loop raises at the first item
    whose quantity is no float. *)
Lemma add_items_overflow pk item items : forall db,
  budget db = None -> In item items ->
  float_of_int (quantity item) = Raise OverflowError ->
  exists db', add_items pk items db = (Raise OverflowError, db').
Proof.
  induction items as [|i items IH]; intros db Hb Hin Hov; [destruct Hin|].
  cbn [add_items]. unfold line_total.
  destruct (float_of_int (quantity i)) as [q|e] eqn:Hq.
  - destruct Hin as [->|Hin]; [congruence|].
    unfold db_do. rewrite Hb. apply IH; [reflexivity | exact Hin | exact Hov].
  - exists db. f_equal. f_equal. revert Hq. unfold float_of_int.
    destruct (binary_normalize _ _ _ _ _); congruence.
Qed.

(** X16.  The two checks of [create_order] on a request of the schema:
    the first, for a request without items, never fires, since the schema
    asks for one item at least; the second fires exactly for a total of
    zero, which the schema accepts ([total_amount >= 0]) and the route
    answers with the status 400 and the detail "Total amount must be
    positive", leaving the session as it was. *)
Theorem create_order_guards :
  forall (today hex : string) (pk : Z) (exn_text : exn -> string)
         (r : OrderRequest) (db : Session),
    valid_request r = true ->
    fst (create_order today hex pk exn_text r db)
      <> Catalog.HTTPException 400 "Order must have at least one item" /\
    (PyFloat.eq (total_amount r) PyFloat.zero = true <->
     create_order today hex pk exn_text r db
     = (Catalog.HTTPException 400 "Total amount must be positive", db)).
Proof.
  intros today hex pk exn_text r db Hv. unfold valid_request in Hv.
  apply andb_true_iff in Hv as [Hv Ht]. apply andb_true_iff in Hv as [Hne _].
  unfold create_order. destruct (items r) as [|item items]; [discriminate|].
  rewrite (total_not_positive _ Ht).
  destruct (PyFloat.eq (total_amount r) PyFloat.zero).
  - split; [cbn; discriminate|]. split; reflexivity.
  - destruct (place_order _ _ _ _) as [[u|e] db']; cbn [fst];
      (split; [discriminate|]); split; discriminate.
Qed.

Lemma create_order_guards_witness :
  valid_request (sample_order 2 PyFloat.zero) = true /\
  create_order "20240101" "0a1b2c3d4e" 7 (fun _ => "error")
    (sample_order 2 PyFloat.zero) (new_session None)
  = (Catalog.HTTPException 400 "Total amount must be positive", new_session None).
Proof.
  split; [reflexivity|].
  apply (create_order_guards "20240101" "0a1b2c3d4e" 7 (fun _ => "error")
           (sample_order 2 PyFloat.zero) (new_session None)); reflexivity.
Defined.

(** X17.  An order of the schema with a positive total and quantities of
    at most 53 bits is one transaction: the order row, a flush, one row
    per item in the order of the request, with the product of the unit
    price and the quantity as its line total, and the commit.  A session
    that takes all these operations commits, and the answer is
    "confirmed" with the order id "ORD-<date>-<six upper-case digits>".
    A session that raises at one of them has taken the operations before
    it and then the rollback, so no commit, and the answer is the status
    500 with the text of the exception.  The total of the request is not
    compared with the line totals. *)
Theorem create_order_transaction :
  forall (today hex : string) (pk : Z) (exn_text : exn -> string)
         (r : OrderRequest) (db : Session),
    valid_request r = true ->
    PyFloat.lt PyFloat.zero (total_amount r) = true ->
    Forall (fun item => quantity item < 2 ^ 53) (items r) ->
    exists rows : list OrderItemRow,
      Forall2 (row_of pk) (items r) rows /\
      let oid := new_order_id today hex in
      let todo := transaction {| row_order_id := oid;
                                 row_total_amount := total_amount r;
                                 row_currency := currency r;
                                 row_status := "confirmed" |} rows in
      let confirmed :=
        Catalog.Answer {| status := "confirmed"; order_id := Some oid;
                          message := Some ("Order " +:+ oid
                                           +:+ " has been placed successfully") |} in
      length todo = (length (items r) + 3)%nat /\
      match budget db with
      | None =>
          create_order today hex pk exn_text r db
          = (confirmed, {| ops := ops db ++ todo; budget := None |})
      | Some (k, e) =>
          ((length todo <= k)%nat ->
           create_order today hex pk exn_text r db
           = (confirmed, {| ops := ops db ++ todo;
                            budget := Some ((k - length todo)%nat, e) |})) /\
          ((k < length todo)%nat ->
           create_order today hex pk exn_text r db
           = (Catalog.HTTPException 500 ("Order creation failed: " +:+ exn_text e),
              {| ops := (ops db ++ firstn k todo) ++ [Rollback];
                 budget := Some (O, e) |}))
      end.
Proof.
  intros today hex pk exn_text r db Hv Hpos Hq. unfold valid_request in Hv.
  apply andb_true_iff in Hv as [Hv _]. apply andb_true_iff in Hv as [Hne Hitems].
  destruct (rows_exist pk (items r)) as [rows Hrows].
  { rewrite forallb_forall in Hitems. rewrite List.Forall_forall in Hq |- *.
    intros item Hin. split; [now apply Hitems | now apply Hq]. }
  exists rows. split; [exact Hrows|]. cbv zeta.
  split; [rewrite transaction_length; f_equal; symmetry;
          eapply Forall2_length; exact Hrows|].
  unfold create_order. destruct (items r) as [|item items] eqn:Hi; [discriminate|].
  rewrite (positive_total _ Hpos).
  rewrite (place_order_run _ _ _ rows) by (rewrite Hi; exact Hrows).
  rewrite db_run_spec.
  destruct (budget db) as [[k e]|]; [|reflexivity].
  split; intros Hk.
  - apply Nat.ltb_ge in Hk. rewrite Hk. reflexivity.
  - apply Nat.ltb_lt in Hk. rewrite Hk. reflexivity.
Qed.


Lemma create_order_transaction_witness :
  valid_request (sample_order 2 Catalog.price_99) = true /\
  PyFloat.lt PyFloat.zero (total_amount (sample_order 2 Catalog.price_99)) = true /\
  Forall (fun item => quantity item < 2 ^ 53)
         (items (sample_order 2 Catalog.price_99)) /\
  create_order "20240101" "0a1b2c3d4e" 7 (fun _ => "error")
    (sample_order 2 Catalog.price_99) (new_session (Some (2%nat, ValueError)))
  = (Catalog.HTTPException 500 "Order creation failed: error",
     {| ops := [Add_order {| row_order_id := "ORD-20240101-0A1B2C";
                             row_total_amount := Catalog.price_99;
                             row_currency := "INR";
                             row_status := "confirmed" |};
                Flush; Rollback];
        budget := Some (O, ValueError) |}).
Proof.
  assert (Hq : Forall (fun item => quantity item < 2 ^ 53)
                      (items (sample_order 2 Catalog.price_99)))
    by (repeat constructor).
  split; [reflexivity|]. split; [reflexivity|]. split; [exact Hq|].
  destruct (create_order_transaction "20240101" "0a1b2c3d4e" 7 (fun _ => "error")
              (sample_order 2 Catalog.price_99)
              (new_session (Some (2%nat, ValueError))) eq_refl eq_refl Hq)
    as (rows & _ & Hlen & _ & Hfail).
  apply Hfail. rewrite Hlen. cbn. lia.
Defined.


Lemma no_commit_add_items rows : ~ In Commit (map Add_item rows).
Proof. induction rows as [|row rows IH]; cbn; [tauto | intros [H|H]; [discriminate | tauto]]. Qed.

Lemma place_order_ops oid pk r db :
  let order := {| row_order_id := oid; row_total_amount := total_amount r;
                  row_currency := currency r; row_status := "confirmed" |} in
  exists done,
    ops (snd (place_order oid pk r db)) = ops db ++ done /\
    match fst (place_order oid pk r db) with
    | Ok _ => exists rows, done = transaction order rows /\
                           Forall2 (row_of pk) (items r) rows
    | Raise _ => ~ In Commit done
    end.
Proof.
  intros order. unfold place_order. fold order.
  destruct (db_do_ops (Add_order order) db) as [(db1 & -> & H1)|(e & ->)];
    [|exists []; cbn [snd fst]; rewrite app_nil_r; split; [reflexivity | intros []]].
  destruct (db_do_ops Flush db1) as [(db2 & -> & H2)|(e & ->)];
    [|exists [Add_order order]; cbn [snd fst]; split;
      [exact H1 | intros [H|[]]; discriminate]].
  destruct (add_items_ops pk (items r) db2) as (done & H3 & Hno & Hok).
  destruct (add_items pk (items r) db2) as [[u|e] db3]; cbn [snd fst] in *.
  - destruct (Hok u eq_refl) as (rows & -> & Hrows).
    destruct (db_do_ops Commit db3) as [(db4 & -> & H4)|(e & ->)]; cbn [snd fst].
    + exists (transaction order rows). split.
      * rewrite H4, H3, H2, H1. unfold transaction.
        rewrite <- !app_assoc. reflexivity.
      * exists rows. split; [reflexivity | exact Hrows].
    + exists (Add_order order :: Flush :: map Add_item rows). split.
      * rewrite H3, H2, H1. rewrite <- !app_assoc. reflexivity.
      * intros [H|[H|H]]; try discriminate. now apply no_commit_add_items in H.
  - exists (Add_order order :: Flush :: done). split.
    + rewrite H3, H2, H1. rewrite <- !app_assoc. reflexivity.
    + intros [H|[H|H]]; try discriminate. contradiction.
Qed.

(** X18.  Whatever the request and the session, [create_order] leaves the
    operations the session had taken and adds to them: nothing when it
    answers with the status 400; a whole transaction, which ends in the
    commit and has one row per item, when it answers "confirmed"; and
    operations without a commit, the last of them the rollback, when it
    answers with the status 500.  So an order is committed exactly when
    the answer says it is confirmed. *)
Theorem create_order_commits_iff_confirmed :
  forall (today hex : string) (pk : Z) (exn_text : exn -> string)
         (r : OrderRequest) (db : Session),
    exists done : list db_op,
      ops (snd (create_order today hex pk exn_text r db)) = ops db ++ done /\
      match fst (create_order today hex pk exn_text r db) with
      | Catalog.Answer resp =>
          status resp = "confirmed" /\
          exists order rows,
            done = transaction order rows /\
            Forall2 (row_of pk) (items r) rows /\
            order_id resp = Some (row_order_id order) /\
            row_total_amount order = total_amount r
      | Catalog.HTTPException code _ =>
          ~ In Commit done /\
          ((code = 400 /\ done = []) \/
           (code = 500 /\ exists before, done = before ++ [Rollback]))
      end.
Proof.
  intros today hex pk exn_text r db. unfold create_order.
  destruct (items r) as [|item items] eqn:Hi.
  { exists []. cbn [snd fst]. rewrite app_nil_r. split; [reflexivity|].
    split; [intros []|]. left. split; reflexivity. }
  destruct (PyFloat.le (total_amount r) PyFloat.zero).
  { exists []. cbn [snd fst]. rewrite app_nil_r. split; [reflexivity|].
    split; [intros []|]. left. split; reflexivity. }
  destruct (place_order_ops (new_order_id today hex) pk r db) as (done & Hops & Hres).
  destruct (place_order (new_order_id today hex) pk r db) as [[u|e] db'];
    cbn [snd fst] in *.
  - exists done. split; [exact Hops|]. split; [reflexivity|].
    destruct Hres as (rows & -> & Hrows). rewrite Hi in Hrows.
    eexists _, rows. split; [reflexivity|]. split; [exact Hrows|].
    split; reflexivity.
  - exists (done ++ [Rollback]). unfold rollback. cbn [ops].
    rewrite Hops, <- app_assoc. split; [reflexivity|]. split.
    + intros H. apply in_app_or in H as [H|[H|[]]]; [contradiction | discriminate].
    + right. split; [reflexivity|]. now exists done.
Qed.

(** X19.  The schema sets no upper bound on a quantity, and the line total
    is a float product: for an order with a positive total and an item
    whose quantity is too large for a float, with a session that never
    raises, the route answers with the status 500 and the detail "Order
    creation failed: " followed by the text of the overflow error. *)
Theorem create_order_overflow :
  forall (today hex : string) (pk : Z) (exn_text : exn -> string)
         (r : OrderRequest) (db : Session) (item : OrderItem),
    In item (items r) ->
    float_of_int (quantity item) = Raise OverflowError ->
    PyFloat.lt PyFloat.zero (total_amount r) = true ->
    budget db = None ->
    fst (create_order today hex pk exn_text r db)
    = Catalog.HTTPException 500
        ("Order creation failed: " +:+ exn_text OverflowError).
Proof.
  intros today hex pk exn_text r db item Hin Hov Hpos Hb. unfold create_order.
  destruct (items r) as [|i rest] eqn:Hi; [destruct Hin|].
  rewrite (positive_total _ Hpos). unfold place_order, db_do at 1 2.
  rewrite Hb. cbn [budget].
  destruct (add_items_overflow pk item (items r)
              {| ops := (ops db ++ [Add_order
                   {| row_order_id := new_order_id today hex;
                      row_total_amount := total_amount r;
                      row_currency := currency r;
                      row_status := "confirmed" |}]) ++ [Flush];
                 budget := None |}) as [db' Hrun];
    [reflexivity | rewrite Hi; exact Hin | exact Hov |].
  cbn [ops]. rewrite Hrun. reflexivity.
Qed.

Lemma create_order_overflow_witness :
  valid_request (sample_order (2 ^ 1024) Catalog.price_99) = true /\
  fst (create_order "20240101" "0a1b2c3d4e" 7 (fun _ => "overflow")
         (sample_order (2 ^ 1024) Catalog.price_99) (new_session None))
  = Catalog.HTTPException 500 "Order creation failed: overflow".
Proof.
  split; [vm_compute; reflexivity|].
  apply (create_order_overflow "20240101" "0a1b2c3d4e" 7 (fun _ => "overflow")
           (sample_order (2 ^ 1024) Catalog.price_99) (new_session None)
           {| product_id := "PROD-001"; size := "500ml";
              quantity := 2 ^ 1024; unit_price := Catalog.price_99 |}).
  - left. reflexivity.
  - vm_compute. reflexivity.
  - reflexivity.
  - reflexivity.
Defined.

End OrdersFacts.

(** ** The crop of a detection *)

Section CropFacts.
Import Crop.

Lemma slice_index_range n i : 0 <= n -> 0 <= slice_index n i <= n.
Proof.
  intros Hn. unfold slice_index. destruct (Z.ltb_spec i 0); lia.
Qed.

Lemma slice_index_start n i : 0 <= n -> 0 <= i -> slice_index n i = Z.min i n.
Proof.
  intros Hn Hi. unfold slice_index. destruct (Z.ltb_spec i 0); lia.
Qed.

Lemma sub_not_finite x y :
  is_finite x = false \/ is_finite y = false -> is_finite (float_sub x y) = false.
Proof.
  unfold float_sub.
  destruct x as [sx|sx| |sx mx ex], y as [sy|sy| |sy my ey];
    intros [H|H]; try discriminate; cbn [SFsub is_finite];
    try reflexivity; try (destruct sx, sy; reflexivity).
Qed.

Lemma mul_not_finite x y :
  is_finite x = false -> is_finite (PyFloat.mul x y) = false.
Proof.
  unfold PyFloat.mul.
  destruct x as [sx|sx| |sx mx ex], y as [sy|sy| |sy my ey];
    intros H; try discriminate; reflexivity.
Qed.

Lemma int_of_not_finite x :
  is_finite x = false -> exists e, int_of_float x = Raise e.
Proof. destruct x; intros H; try discriminate; cbn; eauto. Qed.

(** X20.  [crop_detection] on an image of [height] rows and [width]
    columns raises nothing but [ValueError], and what it returns is a
    region of the image with one row and one column at least: the padded
    box is cut to the image, also when a padded lower or right coordinate
    is negative and the slice counts it from the far edge, and an empty
    cut is raised as an error.  A box that has not four coordinates, or
    has an infinite or NaN coordinate, is refused, whatever the padding. *)
Theorem crop_detection_inside_image :
  forall (height width : Z) (bbox : list spec_float) (padding : spec_float),
    0 <= height -> 0 <= width ->
    match crop_detection height width bbox padding with
    | Ok cropped =>
        0 <= top cropped < bottom cropped /\ bottom cropped <= height /\
        0 <= left cropped < right cropped /\ right cropped <= width
    | Raise e => e = ValueError
    end /\
    (length bbox <> 4%nat \/ Exists (fun x => is_finite x = false) bbox ->
     crop_detection height width bbox padding = Raise ValueError).
Proof.
  intros height width bbox padding Hh Hw. split.
  - unfold crop_detection.
    destruct (crop_body height width bbox padding) as [cropped|e] eqn:Hb;
      [|reflexivity].
    unfold crop_body in Hb.
    destruct bbox as [|x1 [|y1 [|x2 [|y2 [|]]]]]; try discriminate.
    unfold and_then in Hb.
    destruct (int_of_float _) as [pad_x|]; [|discriminate].
    destruct (int_of_float _) as [pad_y|]; [|discriminate].
    destruct (int_of_difference x1 pad_x) as [a|]; [|discriminate].
    destruct (int_of_difference y1 pad_y) as [c|]; [|discriminate].
    destruct (int_of_sum x2 pad_x) as [b|]; [|discriminate].
    destruct (int_of_sum y2 pad_y) as [d|]; [|discriminate].
    match type of Hb with
    | context [(?s =? 0)%Z] => destruct (Z.eqb_spec s 0) as [|Hsize]
    end; [discriminate|].
    injection Hb as <-. unfold size in Hsize. cbn [top bottom left right] in *.
    pose proof (slice_index_range height (Z.max 0 c) Hh).
    pose proof (slice_index_range height (Z.min height d) Hh).
    pose proof (slice_index_range width (Z.max 0 a) Hw).
    pose proof (slice_index_range width (Z.min width b) Hw).
    assert (Hrows : slice_index height (Z.max 0 c) < slice_index height (Z.min height d)).
    { destruct (Z.lt_ge_cases (slice_index height (Z.max 0 c))
                              (slice_index height (Z.min height d))); [assumption|].
      exfalso. apply Hsize. rewrite (Z.max_l 0) by lia. reflexivity. }
    assert (Hcols : slice_index width (Z.max 0 a) < slice_index width (Z.min width b)).
    { destruct (Z.lt_ge_cases (slice_index width (Z.max 0 a))
                              (slice_index width (Z.min width b))); [assumption|].
      exfalso. apply Hsize. rewrite (Z.max_l 0 (_ - slice_index width _)) by lia.
      apply Z.mul_0_r. }
    lia.
  - intros [Hlen|Hex]; unfold crop_detection.
    + destruct (crop_body height width bbox padding) as [cropped|e] eqn:Hb;
        [|reflexivity].
      unfold crop_body in Hb.
      destruct bbox as [|x1 [|y1 [|x2 [|y2 [|]]]]]; try discriminate.
      now contradiction Hlen.
    + assert (Hb : exists e, crop_body height width bbox padding = Raise e);
        [|destruct Hb as [e ->]; reflexivity].
      unfold crop_body.
      destruct bbox as [|x1 [|y1 [|x2 [|y2 [|]]]]]; eauto.
      assert (Hcases : is_finite (float_sub x2 x1) = false \/
                       is_finite (float_sub y2 y1) = false).
      { inversion Hex as [? ? H|? ? Hex1]; subst;
          [left; apply sub_not_finite; now right|].
        inversion Hex1 as [? ? H|? ? Hex2]; subst;
          [right; apply sub_not_finite; now right|].
        inversion Hex2 as [? ? H|? ? Hex3]; subst;
          [left; apply sub_not_finite; now left|].
        inversion Hex3 as [? ? H|? ? Hex4]; subst;
          [right; apply sub_not_finite; now left|].
        inversion Hex4. }
      unfold and_then.
      destruct Hcases as [Hx|Hy].
      * destruct (int_of_not_finite _ (mul_not_finite _ padding Hx)) as [e ->]. eauto.
      * destruct (int_of_float (PyFloat.mul (float_sub x2 x1) padding)); [|eauto].
        destruct (int_of_not_finite _ (mul_not_finite _ padding Hy)) as [e ->]. eauto.
Qed.

Lemma crop_detection_inside_image_witness :
  0 <= 100 /\ 0 <= 200 /\
  match crop_detection 100 200 [pixels 20; pixels 10; pixels 60; pixels 40]
                       padding_0_1 with
  | Ok cropped =>
      0 <= top cropped < bottom cropped /\ bottom cropped <= 100 /\
      0 <= left cropped < right cropped /\ right cropped <= 200
  | Raise e => e = ValueError
  end.
Proof.
  split; [lia|]. split; [lia|].
  apply (crop_detection_inside_image 100 200
           [pixels 20; pixels 10; pixels 60; pixels 40] padding_0_1); lia.
Defined.

(** Three boxes on an image of 100 rows and 200 columns, with the padding
    of the route: a box inside the image, a box to the left of the image,
    whose negative right coordinate the slice counts from the right edge,
    and a box whose corners are swapped. *)
Example crop_detection_samples :
  crop_detection 100 200 [pixels 20; pixels 10; pixels 60; pixels 40] padding_0_1
  = Ok {| top := 7; bottom := 43; left := 16; right := 64 |} /\
  crop_detection 100 200
    [float_sub PyFloat.zero (pixels 50); pixels 10;
     float_sub PyFloat.zero (pixels 10); pixels 40] padding_0_1
  = Ok {| top := 7; bottom := 43; left := 0; right := 194 |} /\
  crop_detection 100 200 [pixels 60; pixels 10; pixels 20; pixels 40] padding_0_1
  = Raise ValueError.
Proof. repeat split; vm_compute; reflexivity. Qed.

End CropFacts.

(** ** The prediction route in mock mode *)

Section MockFacts.
Import Mock.

Lemma times_small n x : 0 <= n < 2 ^ 53 -> exists y, times n x = Ok y.
Proof.
  intros Hn. unfold times. destruct (float_of_int_small n Hn) as [q ->].
  cbn. eauto.
Qed.

(** The mock detections: a new list of two detections, with the ids
    drawn and the boxes computed from the size of the image. *)
Lemma get_mock_detections_run uuid1 uuid2 height width w :
  0 <= height < 2 ^ 53 -> 0 <= width < 2 ^ 53 ->
  exists (b1 b2 : list spec_float) (l : loc) (w' : world),
    map Ok b1 = [times width f_0_1; times height f_0_1;
                 times width f_0_4; times height c_0_5] /\
    map Ok b2 = [times width c_0_5; times height f_0_2;
                 times width f_0_9; times height f_0_6] /\
    _get_mock_detections uuid1 uuid2 height width w = (Ok l, w') /\
    lists w' !! l = Some [mock_milk uuid1 b1; mock_biscuits uuid2 b2].
Proof.
  intros Hh Hw. unfold _get_mock_detections.
  destruct (times_small width f_0_1 Hw) as [a1 Ha1].
  destruct (times_small height f_0_1 Hh) as [a2 Ha2].
  destruct (times_small width f_0_4 Hw) as [a3 Ha3].
  destruct (times_small height c_0_5 Hh) as [a4 Ha4].
  destruct (times_small width c_0_5 Hw) as [a5 Ha5].
  destruct (times_small height f_0_2 Hh) as [a6 Ha6].
  destruct (times_small width f_0_9 Hw) as [a7 Ha7].
  destruct (times_small height f_0_6 Hh) as [a8 Ha8].
  rewrite Ha1, Ha2, Ha3, Ha4, Ha5, Ha6, Ha7, Ha8.
  assert (H92 : confidence_in_range c_0_92 = true) by (vm_compute; reflexivity).
  assert (H87 : confidence_in_range c_0_87 = true) by (vm_compute; reflexivity).
  unfold bind, lift, new_Detection. cbn [confidence]. rewrite H92, H87.
  unfold new_object, read_object, new_list, logger_info, logger_debug, ret.
  cbn [lists objects log].
  set (l1 := fresh (dom (objects w))).
  set (d1 := {| id := uuid1; bbox := [a1; a2; a3; a4] |}).
  set (l2 := fresh (dom (<[l1 := d1]> (objects w)))).
  assert (Hne : l1 <> l2).
  { intros Heq. apply (is_fresh (dom (<[l1 := d1]> (objects w)))). fold l2.
    rewrite <- Heq. apply elem_of_dom. rewrite lookup_insert_eq. eauto. }
  rewrite lookup_insert_ne by congruence. rewrite lookup_insert_eq.
  cbn [lists objects log]. rewrite lookup_insert_eq.
  exists [a1; a2; a3; a4], [a5; a6; a7; a8]. eexists _, _.
  split; [reflexivity|]. split; [reflexivity|]. split; [reflexivity|].
  cbn [lists]. apply lookup_insert_eq.
Qed.

(** X21.  The prediction route in mock mode, for every image size, pair
    of ids and confidence floor.  The detections of the answer are the
    mock detections that pass the floor, the milk before the biscuits,
    each with its id and the box computed from the size of the image:
    both for a floor of at most 0.87, the milk alone for a floor above
    0.87 and at most 0.92, none for a higher floor or a NaN one.  The
    summary and [total_items] are those of these detections, so they
    depend on the floor alone: the summary speaks of 92 and 87 percent,
    or is "No products detected.", and [total_items] is 2, 1 or 0. *)
Theorem mock_prediction_summary :
  forall (uuid1 uuid2 : string) (height width : Z) (t : spec_float) (w : world),
    0 <= height < 2 ^ 53 -> 0 <= width < 2 ^ 53 ->
    exists (b1 b2 : list spec_float) (r : loc) (w' : world),
      map Ok b1 = [times width f_0_1; times height f_0_1;
                   times width f_0_4; times height c_0_5] /\
      map Ok b2 = [times width c_0_5; times height f_0_2;
                   times width f_0_9; times height f_0_6] /\
      predict_mock uuid1 uuid2 height width t w
      = (Ok (r,
             if PyFloat.ge c_0_87 t
             then "Detected 2 items. "
                  +:+ "Item 1: Amul Full Cream Milk 500ml. Confidence 92 percent. "
                  +:+ "Item 2: Parle Marie Gold 100g. Confidence 87 percent."
             else if PyFloat.ge c_0_92 t
             then "Detected 1 item. "
                  +:+ "Item 1: Amul Full Cream Milk 500ml. Confidence 92 percent."
             else "No products detected.",
             if PyFloat.ge c_0_87 t then 2%nat
             else if PyFloat.ge c_0_92 t then 1%nat else 0%nat),
         w') /\
      lists w' !! r
      = Some (if PyFloat.ge c_0_87 t
              then [mock_milk uuid1 b1; mock_biscuits uuid2 b2]
              else if PyFloat.ge c_0_92 t then [mock_milk uuid1 b1] else []).
Proof.
  intros uuid1 uuid2 height width t w Hh Hw.
  destruct (get_mock_detections_run uuid1 uuid2 height width w Hh Hw)
    as (b1 & b2 & l & w1 & Hb1 & Hb2 & Hrun & Hl).
  exists b1, b2.
  unfold predict_mock, bind at 1. rewrite Hrun.
  unfold clean_and_summarize, bind at 1.
  pose proof (clean_detections_run w1 l _ t Hl) as Hclean. cbn zeta in Hclean.
  rewrite Hclean. unfold bind at 1, read_list. cbn [lists].
  rewrite lookup_insert_eq.
  assert (Hmono : PyFloat.ge c_0_87 t = true -> PyFloat.ge c_0_92 t = true).
  { unfold PyFloat.ge. intros H.
    apply (PyFloatOrder.le_trans _ c_0_87); [exact H | vm_compute; reflexivity]. }
  unfold kept. cbn [List.filter confidence mock_milk mock_biscuits].
  destruct (PyFloat.ge c_0_87 t) eqn:H87.
  - rewrite (Hmono eq_refl).
    match goal with
    | |- context [ranked ?L] =>
        assert (Hr : ranked L = L) by (vm_compute; reflexivity); rewrite !Hr
    end.
    unfold bind.
    rewrite (build_summary_shape _ _ [92; 87]);
      [|discriminate| repeat constructor; vm_compute; reflexivity].
    eexists _, _. split; [exact Hb1|]. split; [exact Hb2|]. split; [reflexivity|].
    cbn [lists logged]. apply lookup_insert_eq.
  - destruct (PyFloat.ge c_0_92 t) eqn:H92.
    + match goal with
      | |- context [ranked ?L] =>
          assert (Hr : ranked L = L) by (vm_compute; reflexivity); rewrite !Hr
      end.
      unfold bind.
      rewrite (build_summary_shape _ _ [92]);
        [|discriminate| repeat constructor; vm_compute; reflexivity].
      eexists _, _. split; [exact Hb1|]. split; [exact Hb2|]. split; [reflexivity|].
      cbn [lists logged]. apply lookup_insert_eq.
    + eexists _, _. split; [exact Hb1|]. split; [exact Hb2|]. split; [reflexivity|].
      cbn [lists]. apply lookup_insert_eq.
Qed.

Lemma mock_prediction_summary_witness :
  0 <= 480 < 2 ^ 53 /\ 0 <= 640 < 2 ^ 53 /\
  exists (b1 b2 : list spec_float) (r : loc) (w' : world),
    predict_mock "id-1" "id-2" 480 640 c_0_25 empty_world
    = (Ok (r,
           "Detected 2 items. "
           +:+ "Item 1: Amul Full Cream Milk 500ml. Confidence 92 percent. "
           +:+ "Item 2: Parle Marie Gold 100g. Confidence 87 percent.",
           2%nat),
       w') /\
    lists w' !! r = Some [mock_milk "id-1" b1; mock_biscuits "id-2" b2].
Proof.
  split; [lia|]. split; [lia|].
  destruct (mock_prediction_summary "id-1" "id-2" 480 640 c_0_25 empty_world)
    as (b1 & b2 & r & w' & _ & _ & Hrun & Hl); [lia | lia |].
  exists b1, b2, r, w'. split; [exact Hrun | exact Hl].
Defined.

End MockFacts.

(** ** The float literals of the extra definitions *)

Module MoreLiterals.
Import PrimFloat.

Example more_literals :
  FloatOps.Prim2SF 0x1.999999999999ap-4%float = Crop.padding_0_1 /\
  FloatOps.Prim2SF 99%float = Catalog.price_99 /\
  FloatOps.Prim2SF 20%float = Crop.pixels 20 /\
  FloatOps.Prim2SF 0x1.999999999999ap-4%float = Mock.f_0_1 /\
  FloatOps.Prim2SF 0x1.999999999999ap-3%float = Mock.f_0_2 /\
  FloatOps.Prim2SF 0x1.999999999999ap-2%float = Mock.f_0_4 /\
  FloatOps.Prim2SF 0x1.3333333333333p-1%float = Mock.f_0_6 /\
  FloatOps.Prim2SF 0x1.ccccccccccccdp-1%float = Mock.f_0_9 /\
  FloatOps.Prim2SF 0x1.bd70a3d70a3d7p-1%float = Mock.c_0_87 /\
  FloatOps.Prim2SF 0x1p-1%float = c_0_5.
Proof. repeat split; vm_compute; reflexivity. Qed.

End MoreLiterals.
